(** * mlxprs: client parameters, client factory, query dispatch, server
      discovery and the two debug runtimes, embedded in Rocq.

    Sources embedded here:
    - [src/client/marklogicClient.ts]  (MlClientParameters, ClientContext,
      sendXQuery, sendRows, server discovery),
    - [src/unnamed/part_000]           (ClientFactory),
    - [src/unnamed/part_001]           (MLRuntime, the JavaScript dialect),
    - [src/unnamed/part_002]           (XqyRuntime, the XQuery dialect).

    The code is TypeScript running on Node.  Values that cross the untyped
    boundary (raw configuration bags, server responses, rejected errors) are
    modelled by a small universe of JavaScript values with the language's
    own coercions; remote calls are explicit state passing over a world that
    records every request issued and asks an oracle for the answer. *)

From Stdlib Require Import ZArith List String Ascii Bool Lia Permutation.
From stdpp Require Import base gmap strings list pretty.
Import ListNotations.

Set Warnings "-register-all".
Local Open Scope string_scope.
Local Open Scope list_scope.

(* ===================================================================== *)
(** * JavaScript values and coercions *)
(* ===================================================================== *)

Module Js.

(** A JavaScript number as far as this program uses one: ports and
    durations.  [NaN] is kept apart because [===] and [isNaN] single it
    out; the finite values are integers. *)
Inductive JsNumber :=
| NaN
| Num (z : Z).

(** Primitive values: what a configuration bag holds. *)
Inductive JsPrim :=
| PUndefined
| PNull
| PBool (b : bool)
| PNumber (n : JsNumber)
| PString (s : string).

(** Structured values: what the server sends back and what is thrown. *)
Inductive JsValue :=
| JPrim (p : JsPrim)
| JArray (items : list JsValue)
| JObject (fields : list (string * JsValue)).

Coercion JPrim : JsPrim >-> JsValue.

Definition undefined : JsValue := JPrim PUndefined.
Definition JStr (s : string) : JsValue := JPrim (PString s).

(** Outcome of evaluating an expression or a synchronous call. *)
Inductive Completion (A : Type) :=
| Normal (a : A)
| Throw (e : JsValue).
Arguments Normal {A} a.
Arguments Throw {A} e.

(** A settled promise. *)
Inductive Settled (A : Type) :=
| Fulfilled (a : A)
| Rejected (e : JsValue).
Arguments Fulfilled {A} a.
Arguments Rejected {A} e.

(** The error raised by a property read on [undefined] or [null]. *)
Definition TypeError (msg : string) : JsValue :=
  JObject [("name", JStr "TypeError"); ("message", JStr msg)].

Definition bind {A B} (c : Completion A) (k : A -> Completion B) : Completion B :=
  match c with
  | Normal a => k a
  | Throw e => Throw e
  end.

(** ** Numbers *)

Definition isNaN (n : JsNumber) : bool :=
  match n with NaN => true | Num _ => false end.

(** [a === b] on numbers: NaN differs from everything, itself included. *)
Definition num_strict_eq (a b : JsNumber) : bool :=
  match a, b with
  | Num x, Num y => Z.eqb x y
  | _, _ => false
  end.

Definition num_truthy (n : JsNumber) : bool :=
  match n with
  | NaN => false
  | Num z => negb (Z.eqb z 0)
  end.

(** [a || b] on two numbers. *)
Definition num_or (a b : JsNumber) : JsNumber :=
  if num_truthy a then a else b.

(** ** Primitives *)

(** ToBoolean. *)
Definition prim_truthy (p : JsPrim) : bool :=
  match p with
  | PUndefined | PNull => false
  | PBool b => b
  | PNumber n => num_truthy n
  | PString s => negb (String.eqb s "")
  end.

(** [a || b]. *)
Definition prim_or (a b : JsPrim) : JsPrim :=
  if prim_truthy a then a else b.

(** [a === b] on primitives: same type and same value, except NaN. *)
Definition strict_eq (a b : JsPrim) : bool :=
  match a, b with
  | PUndefined, PUndefined => true
  | PNull, PNull => true
  | PBool x, PBool y => Bool.eqb x y
  | PNumber x, PNumber y => num_strict_eq x y
  | PString x, PString y => String.eqb x y
  | _, _ => false
  end.

(** [a !== b]. *)
Definition strict_neq (a b : JsPrim) : bool := negb (strict_eq a b).

Definition is_NaN_prim (p : JsPrim) : bool :=
  match p with PNumber NaN => true | _ => false end.

(** ToString on numbers and primitives, as a template literal applies it. *)
Definition num_toString (n : JsNumber) : string :=
  match n with
  | NaN => "NaN"
  | Num z => pretty z
  end.

Definition prim_toString (p : JsPrim) : string :=
  match p with
  | PUndefined => "undefined"
  | PNull => "null"
  | PBool true => "true"
  | PBool false => "false"
  | PNumber n => num_toString n
  | PString s => s
  end.

(** [String.prototype.toUpperCase] on ASCII text: the letters a to z are
    mapped, every other character is kept.  The program applies it to the
    names of auth schemes. *)
Definition upper_ascii (c : ascii) : ascii :=
  let n := nat_of_ascii c in
  if (97 <=? n)%nat && (n <=? 122)%nat then ascii_of_nat (n - 32) else c.

Fixpoint toUpperCase (s : string) : string :=
  match s with
  | EmptyString => EmptyString
  | String c s' => String (upper_ascii c) (toUpperCase s')
  end.

(** [x.toUpperCase()] where [x] may be anything: only strings have the
    method. *)
Definition prim_toUpperCase (p : JsPrim) : Completion JsPrim :=
  match p with
  | PString s => Normal (PString (toUpperCase s))
  | _ => Throw (TypeError "toUpperCase is not a function")
  end.

(** ** Structured values *)

Definition truthy (v : JsValue) : bool :=
  match v with
  | JPrim p => prim_truthy p
  | JArray _ | JObject _ => true
  end.

(** [v === s] where [s] is a string: true only for that very string. *)
Definition is_string (v : JsValue) (s : string) : bool :=
  match v with
  | JPrim (PString t) => String.eqb t s
  | _ => false
  end.

Fixpoint assoc (key : string) (fields : list (string * JsValue)) : JsValue :=
  match fields with
  | [] => undefined
  | (k, v) :: rest => if String.eqb k key then v else assoc key rest
  end.

(** [v[key]] / [v.key] for a key that is not an array index. *)
Definition js_field (v : JsValue) (key : string) : Completion JsValue :=
  match v with
  | JPrim PUndefined | JPrim PNull =>
      Throw (TypeError ("Cannot read properties of undefined (reading '" +:+ key +:+ "')"))
  | JObject fields => Normal (assoc key fields)
  | JArray items =>
      if String.eqb key "length"
      then Normal (JPrim (PNumber (Num (Z.of_nat (length items)))))
      else Normal undefined
  | JPrim (PString s) =>
      if String.eqb key "length"
      then Normal (JPrim (PNumber (Num (Z.of_nat (String.length s)))))
      else Normal undefined
  | JPrim _ => Normal undefined
  end.

(** [v[i]] for an array index [i]. *)
Definition js_index (v : JsValue) (i : nat) : Completion JsValue :=
  match v with
  | JPrim PUndefined | JPrim PNull =>
      Throw (TypeError ("Cannot read properties of undefined (reading '" +:+ pretty i +:+ "')"))
  | JArray items => Normal (nth i items undefined)
  | JObject fields => Normal (assoc (pretty i) fields)
  | JPrim (PString s) =>
      match String.get i s with
      | Some c => Normal (JStr (String c EmptyString))
      | None => Normal undefined
      end
  | JPrim _ => Normal undefined
  end.

Definition join_comma (parts : list string) : string :=
  match parts with
  | [] => ""
  | p :: rest => fold_left (fun acc q => acc +:+ "," +:+ q) rest p
  end.

(** ToString: arrays join their elements with commas (null and undefined
    elements print as nothing), plain objects print as
    [[object Object]]. *)
Fixpoint toString (v : JsValue) : string :=
  match v with
  | JPrim p => prim_toString p
  | JArray items =>
      join_comma (map (fun x =>
                         match x with
                         | JPrim PUndefined | JPrim PNull => ""
                         | _ => toString x
                         end) items)
  | JObject _ => "[object Object]"
  end.

End Js.
Import Js.

(* ===================================================================== *)
(** * Raw configuration bags *)
(* ===================================================================== *)

(** [Record<string, any>]: a finite map from keys to values; a key may be
    present with the value [undefined]. *)
Abbreviation Bag := (gmap string JsPrim).

(** [raw.key]: an absent key reads as [undefined]. *)
Definition bag_get (raw : Bag) (key : string) : JsPrim :=
  default PUndefined (raw !! key).

(** [{ ...a, ...b }]: the keys of [b] win. *)
Definition spread (a b : Bag) : Bag := b ∪ a.

(* ===================================================================== *)
(** * marklogicClient.ts: MlClientParameters *)
(* ===================================================================== *)

Definition DEFAULT_MANAGE_PORT : JsNumber := Num 8002.
Definition DEFAULT_ADMIN_PORT : JsNumber := Num 8001.

Module MlClientParameters.

Record t := mk {
  contentDb : JsPrim;
  modulesDb : JsPrim;
  host : JsPrim;
  port : JsNumber;
  managePort : JsNumber;
  adminPort : JsNumber;
  testPort : JsNumber;
  user : JsPrim;
  pwd : JsPrim;
  authType : JsPrim;
  apiKey : JsPrim;
  accessTokenDuration : JsPrim;
  ssl : bool;
  pathToCa : JsPrim;
  rejectUnauthorized : bool;
  manageBasePath : JsPrim;
  adminBasePath : JsPrim;
  restBasePath : JsPrim;
  testBasePath : JsPrim
}.

Section Constructor.
(** [Number(s)] on a string is the language's StringToNumber, left
    abstract. *)
Variable StringToNumber : string -> JsNumber.

(** [Number(x)]. *)
Definition Number (p : JsPrim) : JsNumber :=
  match p with
  | PUndefined => NaN
  | PNull => Num 0
  | PBool true => Num 1
  | PBool false => Num 0
  | PNumber n => n
  | PString s => StringToNumber s
  end.

(** The check at the end of both constructors of this program that take
    a raw bag, with the list of recognised schemes as a parameter. *)
Definition normalize_authType (recognised : list string) (a : JsPrim) : JsPrim :=
  if forallb (fun s => strict_neq a (PString s)) recognised
  then PString "DIGEST"
  else a.

Definition new (rawParams : Bag) : t :=
  let get := bag_get rawParams in
  {| host := get "host";
     port := Number (get "port");
     restBasePath := prim_or (get "restBasePath") (PString "");
     managePort := num_or (Number (get "managePort")) DEFAULT_MANAGE_PORT;
     manageBasePath := prim_or (get "manageBasePath") (PString "");
     adminPort := num_or (Number (get "adminPort")) DEFAULT_ADMIN_PORT;
     adminBasePath := prim_or (get "adminBasePath") (PString "");
     testPort := Number (get "testPort");
     testBasePath := prim_or (get "testBasePath") (PString "");
     user := get "user";
     pwd := get "pwd";
     contentDb := prim_or (prim_or (get "contentDb") (get "documentsDb")) (PString "");
     modulesDb := prim_or (get "modulesDb") (PString "");
     authType := normalize_authType ["DIGEST"; "BASIC"; "CLOUD"] (get "authType");
     apiKey := get "apiKey";
     accessTokenDuration := get "accessTokenDuration";
     ssl := prim_truthy (get "ssl");
     pathToCa := prim_or (get "pathToCa") (PString "");
     rejectUnauthorized := prim_truthy (get "rejectUnauthorized") |}.
End Constructor.

Definition sameAs (this other : t) : bool :=
  strict_eq (host this) (host other) &&
  ((isNaN (port this) && isNaN (port other)) || num_strict_eq (port this) (port other)) &&
  strict_eq (contentDb this) (contentDb other) &&
  strict_eq (modulesDb this) (modulesDb other) &&
  strict_eq (user this) (user other) &&
  strict_eq (pwd this) (pwd other) &&
  strict_eq (authType this) (authType other) &&
  strict_eq (apiKey this) (apiKey other) &&
  strict_eq (accessTokenDuration this) (accessTokenDuration other) &&
  Bool.eqb (ssl this) (ssl other) &&
  strict_eq (pathToCa this) (pathToCa other) &&
  Bool.eqb (rejectUnauthorized this) (rejectUnauthorized other).

(** The object with its four base paths and three role ports replaced:
    the fields [sameAs] does not read. *)
Definition with_uncompared (p : t) (mp ap tp : JsNumber) (mb ab rb tb : JsPrim) : t :=
  {| contentDb := contentDb p; modulesDb := modulesDb p; host := host p;
     port := port p; managePort := mp; adminPort := ap; testPort := tp;
     user := user p; pwd := pwd p; authType := authType p; apiKey := apiKey p;
     accessTokenDuration := accessTokenDuration p; ssl := ssl p;
     pathToCa := pathToCa p; rejectUnauthorized := rejectUnauthorized p;
     manageBasePath := mb; adminBasePath := ab; restBasePath := rb;
     testBasePath := tb |}.

End MlClientParameters.

(* ===================================================================== *)
(** * The store of parameter objects, requests and the world *)
(* ===================================================================== *)

(** Parameter objects are shared by reference: a [ClientContext] keeps the
    very object it was given and writes to it.  The store maps a reference
    (an index) to the object's current fields. *)
Abbreviation Store := (list MlClientParameters.t).
Definition Ref := nat.

Definition alloc (h : Store) (p : MlClientParameters.t) : Ref * Store :=
  (length h, h ++ [p]).

(** The options object handed to [ml.createDatabaseClient]: the library
    copies it, so the handle is this snapshot. *)
Record DatabaseClient := mkDatabaseClient {
  dc_host : JsPrim;
  dc_port : JsNumber;
  dc_basePath : JsPrim;
  dc_user : JsPrim;
  dc_password : JsPrim;
  dc_database : JsPrim;
  dc_authType : JsPrim;
  dc_ssl : bool;
  dc_apiKey : JsPrim;
  dc_accessTokenDuration : JsPrim;
  dc_ca : option string;
  dc_rejectUnauthorized : bool
}.

(** [fs.readFileSync(path, 'utf8')]: the contents, or the message of the
    error it throws. *)
Inductive FsResult :=
| FsOk (contents : string)
| FsError (message : string).

Definition FileSystem := JsPrim -> FsResult.

(** [ml.createDatabaseClient(options)] belongs to the MarkLogic client
    library, not to this program, and is left abstract: for given options
    it returns a handle or throws.  The handle keeps a copy of the options,
    so all that is open is whether the call throws: [Some e] when it throws
    [e], [None] when it returns. *)
Definition Library := DatabaseClient -> option JsValue.

Definition Error (msg : string) : JsValue :=
  JObject [("name", JStr "Error"); ("message", JStr msg)].

(* ===================================================================== *)
(** * marklogicClient.ts: ClientContext, construction *)
(* ===================================================================== *)

Module ClientContext.

Record t := mk {
  params : Ref;
  ca : option string;
  databaseClient : DatabaseClient
}.

Definition set_authType (p : MlClientParameters.t) (a : JsPrim) : MlClientParameters.t :=
  let q := p in
  MlClientParameters.mk
    (MlClientParameters.contentDb q) (MlClientParameters.modulesDb q)
    (MlClientParameters.host q) (MlClientParameters.port q)
    (MlClientParameters.managePort q) (MlClientParameters.adminPort q)
    (MlClientParameters.testPort q) (MlClientParameters.user q)
    (MlClientParameters.pwd q) a (MlClientParameters.apiKey q)
    (MlClientParameters.accessTokenDuration q) (MlClientParameters.ssl q)
    (MlClientParameters.pathToCa q) (MlClientParameters.rejectUnauthorized q)
    (MlClientParameters.manageBasePath q) (MlClientParameters.adminBasePath q)
    (MlClientParameters.restBasePath q) (MlClientParameters.testBasePath q).

Definition set_contentDb (p : MlClientParameters.t) (d : JsPrim) : MlClientParameters.t :=
  let q := p in
  MlClientParameters.mk
    d (MlClientParameters.modulesDb q)
    (MlClientParameters.host q) (MlClientParameters.port q)
    (MlClientParameters.managePort q) (MlClientParameters.adminPort q)
    (MlClientParameters.testPort q) (MlClientParameters.user q)
    (MlClientParameters.pwd q) (MlClientParameters.authType q)
    (MlClientParameters.apiKey q)
    (MlClientParameters.accessTokenDuration q) (MlClientParameters.ssl q)
    (MlClientParameters.pathToCa q) (MlClientParameters.rejectUnauthorized q)
    (MlClientParameters.manageBasePath q) (MlClientParameters.adminBasePath q)
    (MlClientParameters.restBasePath q) (MlClientParameters.testBasePath q).

(** The options object the constructor hands to [ml.createDatabaseClient]. *)
Definition options (p : MlClientParameters.t) (ca : option string) : DatabaseClient :=
  {| dc_host := MlClientParameters.host p;
     dc_port := MlClientParameters.port p;
     dc_basePath := MlClientParameters.restBasePath p;
     dc_user := MlClientParameters.user p;
     dc_password := MlClientParameters.pwd p;
     dc_database := MlClientParameters.contentDb p;
     dc_authType := MlClientParameters.authType p;
     dc_ssl := MlClientParameters.ssl p;
     dc_apiKey := MlClientParameters.apiKey p;
     dc_accessTokenDuration := MlClientParameters.accessTokenDuration p;
     dc_ca := ca;
     dc_rejectUnauthorized := MlClientParameters.rejectUnauthorized p |}.

(** [new ClientContext(params)].  The object behind [params] is written
    twice: [authType] receives its own upper-cased value, and a falsy
    [contentDb] is replaced by [null].  A failure to read the CA file
    throws after the first write and before the second; the library's
    refusal of the options throws after both. *)
Definition new (fs : FileSystem) (ml : Library) (h : Store) (r : Ref) : Completion t * Store :=
  match h !! r with
  | None => (Throw (TypeError "Cannot read properties of undefined (reading 'authType')"), h)
  | Some p =>
      match prim_toUpperCase (MlClientParameters.authType p) with
      | Throw e => (Throw e, h)
      | Normal a =>
          let p1 := set_authType p a in
          let h1 := <[r := p1]> h in
          let read :=
            if prim_truthy (MlClientParameters.pathToCa p1)
               && strict_neq (MlClientParameters.pathToCa p1) (PString "")
            then match fs (MlClientParameters.pathToCa p1) with
                 | FsOk contents => Normal (Some contents)
                 | FsError m => Throw (Error ("Error reading CA file: " +:+ m))
                 end
            else Normal None in
          match read with
          | Throw e => (Throw e, h1)
          | Normal ca =>
              let p2 := if negb (prim_truthy (MlClientParameters.contentDb p1))
                        then set_contentDb p1 PNull else p1 in
              match ml (options p2 ca) with
              | Some e => (Throw e, <[r := p2]> h1)
              | None =>
                  (Normal {| params := r; ca := ca; databaseClient := options p2 ca |},
                   <[r := p2]> h1)
              end
          end
      end
  end.

End ClientContext.

(* ===================================================================== *)
(** * part_000 (clientFactory): ClientFactory *)
(* ===================================================================== *)

Module ClientFactory.

Record t := mk {
  host : JsPrim;
  port : JsNumber;
  basePath : JsPrim;
  user : JsPrim;
  password : JsPrim;
  database : JsPrim;
  authType : JsPrim;
  ssl : bool;
  ca : JsPrim;
  rejectUnauthorized : bool;
  pathToCa : JsPrim;
  modulesDb : JsPrim;
  managePort : JsNumber;
  adminPort : JsNumber;
  testPort : JsNumber;
  manageBasePath : JsPrim;
  adminBasePath : JsPrim;
  restBasePath : JsPrim;
  testBasePath : JsPrim
}.

Section Methods.
Variable StringToNumber : string -> JsNumber.
Let Number := MlClientParameters.Number StringToNumber.

(** The constructor never assigns [ca] nor [restBasePath]: both stay
    [undefined]. *)
Definition new (rawParams : Bag) : t :=
  let get := bag_get rawParams in
  {| host := get "host";
     port := Number (get "port");
     basePath := prim_or (get "basePath") (PString "");
     managePort := Number (get "managePort");
     manageBasePath := prim_or (get "manageBasePath") (PString "");
     testPort := Number (get "testPort");
     testBasePath := prim_or (get "testBasePath") (PString "");
     adminPort := Number (get "adminPort");
     adminBasePath := prim_or (get "adminBasePath") (PString "");
     user := get "user";
     password := get "password";
     database := prim_or (prim_or (get "contentDb") (get "documentsDb")) (PString "");
     modulesDb := prim_or (get "modulesDb") (PString "");
     authType :=
       MlClientParameters.normalize_authType ["DIGEST"; "BASIC"] (get "authType");
     ssl := prim_truthy (get "ssl");
     pathToCa := prim_or (get "pathToCa") (PString "");
     rejectUnauthorized := prim_truthy (get "rejectUnauthorized");
     ca := PUndefined;
     restBasePath := PUndefined |}.

Definition toMlClientParameters (this : t) : MlClientParameters.t :=
  MlClientParameters.new StringToNumber
    (list_to_map
       [("host", host this);
        ("port", PNumber (port this));
        ("basePath", basePath this);
        ("user", user this);
        ("pwd", password this);
        ("contentDb", database this);
        ("modulesDb", modulesDb this);
        ("authType", authType this);
        ("ssl", PBool (ssl this));
        ("pathToCa", pathToCa this);
        ("rejectUnauthorized", PBool (rejectUnauthorized this))]).

(** The three role derivations differ in the port, base path and
    database entries of [configParams] only. *)
Definition configParams (this : t) (rolePort : JsNumber)
           (roleBasePath roleDatabase roleModulesDb upperAuth : JsPrim) : Bag :=
  list_to_map
    [("host", host this);
     ("user", user this);
     ("password", password this);
     ("port", PNumber rolePort);
     ("basePath", roleBasePath);
     ("database", roleDatabase);
     ("modulesDb", roleModulesDb);
     ("authType", upperAuth);
     ("ssl", PBool (ssl this));
     ("pathToCa", prim_or (pathToCa this) (PString ""));
     ("rejectUnauthorized", PBool (rejectUnauthorized this))].

Definition newRestClientParams (this : t) (overrides : Bag) : Completion t :=
  bind (prim_toUpperCase (authType this)) (fun upperAuth =>
    Normal (new (spread
                   (configParams this (port this) (restBasePath this)
                                 (database this) (modulesDb this) upperAuth)
                   overrides))).

Definition newManageClientParams (this : t) (overrides : Bag) : Completion t :=
  bind (prim_toUpperCase (authType this)) (fun upperAuth =>
    Normal (new (spread
                   (configParams this (managePort this) (manageBasePath this)
                                 PNull PNull upperAuth)
                   overrides))).

Definition newTestClientParams (this : t) (overrides : Bag) : Completion t :=
  bind (prim_toUpperCase (authType this)) (fun upperAuth =>
    Normal (new (spread
                   (configParams this (testPort this) (testBasePath this)
                                 PNull PNull upperAuth)
                   overrides))).

(** [new ClientContext(params.toMlClientParameters())]: the parameter
    object is a fresh one. *)
Definition newClient (fs : FileSystem) (ml : Library) (roleParams : Completion t) (h : Store)
  : Completion ClientContext.t * Store :=
  match roleParams with
  | Throw e => (Throw e, h)
  | Normal f =>
      let '(r, h1) := alloc h (toMlClientParameters f) in
      ClientContext.new fs ml h1 r
  end.

Definition newMarklogicRestClient (fs : FileSystem) (ml : Library) (this : t)
           (overrides : Bag) :=
  newClient fs ml (newRestClientParams this overrides).

Definition newMarklogicManageClient (fs : FileSystem) (ml : Library) (this : t)
           (overrides : Bag) :=
  newClient fs ml (newManageClientParams this overrides).

Definition newMarklogicTestClient (fs : FileSystem) (ml : Library) (this : t)
           (overrides : Bag) :=
  newClient fs ml (newTestClientParams this overrides).
End Methods.

End ClientFactory.

(* ===================================================================== *)
(** * Remote calls *)
(* ===================================================================== *)

(** One constructor per entry point of the two HTTP libraries the program
    calls: the MarkLogic client ([xqueryEval], [rows.query],
    [internal.sendRequest]) and request-promise ([post], [get]). *)
Inductive Request :=
| XqueryEval (client : DatabaseClient) (query : string) (extVars : list (string * JsValue))
| RowsQuery (client : DatabaseClient) (query : JsValue) (queryType format : string)
| SendRequest (client : DatabaseClient) (endpoint method : string)
| HttpPost (url : string) (user pass : JsValue) (headers : list (string * string))
           (body : option string)
| HttpGet (url : string) (user pass : JsValue) (qs : option (list (string * JsValue))).

(** The remote engine: its answer to the [k]-th request of a run. *)
Definition Server := nat -> Request -> Settled JsValue.

(** The order in which the answers to a batch of concurrently issued
    requests arrive: given the number of requests sent before the batch
    and the size [n] of the batch, a listing of [0 .. n-1]. *)
Definition Schedule := nat -> nat -> list nat.

(** part_002: a breakpoint of the XQuery runtime.  [expr] is the optional
    expression id, [undefined] until a lookup stores one. *)
Record XqyBreakPoint := mkXqyBreakPoint {
  bp_uri : string;
  bp_line : JsNumber;
  bp_column : JsPrim;
  bp_condition : JsPrim;
  bp_expr : JsValue
}.

(** The world: the parameter objects and breakpoint objects that are shared
    by reference, every request sent so far (oldest first), what was written
    with [console.debug], and what was handed to the update callback. *)
Record World := mkWorld {
  store : Store;
  breakpoints : list XqyBreakPoint;
  sent : list Request;
  console : list JsValue;
  delivered : list (list string)
}.

Definition with_store (w : World) (h : Store) : World :=
  mkWorld h (breakpoints w) (sent w) (console w) (delivered w).
Definition with_breakpoints (w : World) (b : list XqyBreakPoint) : World :=
  mkWorld (store w) b (sent w) (console w) (delivered w).
Definition with_console (w : World) (c : list JsValue) : World :=
  mkWorld (store w) (breakpoints w) (sent w) c (delivered w).
Definition with_delivered (w : World) (d : list (list string)) : World :=
  mkWorld (store w) (breakpoints w) (sent w) (console w) d.
Definition with_sent (w : World) (l : list Request) : World :=
  mkWorld (store w) (breakpoints w) l (console w) (delivered w).

Definition send (srv : Server) (req : Request) (w : World) : Settled JsValue * World :=
  (srv (length (sent w)) req, with_sent w (sent w ++ [req])).

Definition dquote : string := String (ascii_of_nat 34) EmptyString.
Definition newline : string := String (ascii_of_nat 10) EmptyString.

(* ===================================================================== *)
(** * marklogicClient.ts: query dispatch *)
(* ===================================================================== *)

(** [sendXQuery(dbClientContext, actualQuery, prefix)].  The content and
    modules databases are read from the parameter object the context
    refers to, at the time of the call. *)
Definition sendXQuery (srv : Server) (ctx : ClientContext.t) (actualQuery prefix : string)
           (w : World) : Completion (Settled JsValue) * World :=
  match store w !! ClientContext.params ctx with
  | None => (Throw (TypeError "Cannot read properties of undefined (reading 'contentDb')"), w)
  | Some p =>
      let query :=
        "xquery version " +:+ dquote +:+ "1.0-ml" +:+ dquote +:+ ";" +:+
        "declare variable $actualQuery as xs:string external;" +:+
        "declare variable $contentDb as xs:string external;" +:+
        "declare variable $modulesDb as xs:string external;" +:+
        "let $options := " +:+
        "<options xmlns=" +:+ dquote +:+ "xdmp:eval" +:+ dquote +:+ ">" +:+
        (if prim_truthy (MlClientParameters.contentDb p)
         then "<database>{xdmp:database($contentDb)}</database>" else "") +:+
        (if prim_truthy (MlClientParameters.modulesDb p)
         then "<modules>{xdmp:database($modulesDb)}</modules>" else "") +:+
        "</options>" +:+
        "return " +:+ prefix +:+ ":eval($actualQuery, (), $options)" in
      let extVars :=
        [("actualQuery", JStr actualQuery);
         ("contentDb", JPrim (MlClientParameters.contentDb p));
         ("modulesDb", JPrim (MlClientParameters.modulesDb p))] in
      let '(r, w') := send srv (XqueryEval (ClientContext.databaseClient ctx) query extVars) w in
      (Normal r, w')
  end.

Section Rows.
(** [JSON.parse], left abstract: the parsed value, or the SyntaxError it
    throws. *)
Variable JSON_parse : string -> Completion JsValue.

Definition sendRowsSerialized (srv : Server) (ctx : ClientContext.t)
           (actualQuery resultFormat : string) (w : World)
  : Completion (Settled JsValue) * World :=
  let '(jsonQuery, errObject) :=
    match JSON_parse actualQuery with
    | Normal v => (v, JPrim PNull)
    | Throw err => (JPrim PNull, err)
    end in
  if truthy jsonQuery
  then let '(r, w') :=
         send srv (RowsQuery (ClientContext.databaseClient ctx) jsonQuery "json" resultFormat) w in
       (Normal r, w')
  else match js_field errObject "message" with
       | Throw e => (Throw e, w)
       | Normal m =>
           (Normal (Fulfilled (JObject [("columns", JArray []);
                                        ("rows", JArray []);
                                        ("preRequestError", m)])), w)
       end.

Definition sendRows (srv : Server) (ctx : ClientContext.t)
           (actualQuery resultFormat : string) (w : World)
  : Completion (Settled JsValue) * World :=
  if String.prefix "{" actualQuery
  then sendRowsSerialized srv ctx actualQuery resultFormat w
  else let '(r, w') :=
         send srv (RowsQuery (ClientContext.databaseClient ctx) (JStr actualQuery)
                             "dsl" resultFormat) w in
       (Normal r, w').
End Rows.

(* ===================================================================== *)
(** * marklogicClient.ts: server discovery *)
(* ===================================================================== *)

Record MlxprsQuickPickItem := mkItem {
  label : JsValue;
  description : JsValue;
  detail : string
}.

Fixpoint mapM {A B} (f : A -> Completion B) (l : list A) : Completion (list B) :=
  match l with
  | [] => Normal []
  | x :: rest =>
      bind (f x) (fun y => bind (mapM f rest) (fun ys => Normal (y :: ys)))
  end.

(** [a || b] on structured values. *)
Definition js_or (a b : JsValue) : JsValue := if truthy a then a else b.

(** [[].concat(v)]: an array argument is spread, anything else becomes the
    single element. *)
Definition concat_into_empty (v : JsValue) : list JsValue :=
  match v with
  | JArray items => items
  | _ => [v]
  end.

Definition buildListServersForConnectQuery (p : MlClientParameters.t) : string :=
  newline +:+
  "let $all-app-servers := xdmp:servers()" +:+ newline +:+
  "let $connected-app-servers := dbg:connected()" +:+ newline +:+
  "let $not-connected-app-servers :=" +:+ newline +:+
  "  for $app-server in $all-app-servers" +:+ newline +:+
  "  return" +:+ newline +:+
  "    if ($app-server = $connected-app-servers) then" +:+ newline +:+
  "      ()" +:+ newline +:+
  "    else" +:+ newline +:+
  "      if (xdmp:server-name($app-server) = ('Admin', 'Manage', 'HealthCheck', 'App-Services')) then" +:+ newline +:+
  "        ()" +:+ newline +:+
  "      else" +:+ newline +:+
  "        if (xdmp:server-port($app-server) = " +:+ num_toString (MlClientParameters.port p) +:+ ") then" +:+ newline +:+
  "            ()" +:+ newline +:+
  "        else" +:+ newline +:+
  "            $app-server" +:+ newline +:+
  "let $json-servers := $not-connected-app-servers ! (map:new()" +:+ newline +:+
  "  => map:with(" +:+ dquote +:+ "id" +:+ dquote +:+ ", .)" +:+ newline +:+
  "  => map:with(" +:+ dquote +:+ "name" +:+ dquote +:+ ", xdmp:server-name(.))" +:+ newline +:+
  "  => map:with(" +:+ dquote +:+ "port" +:+ dquote +:+ ", xdmp:server-port(.)))" +:+ newline +:+
  "=> xdmp:to-json()" +:+ newline +:+
  "return $json-servers" +:+ newline.

Definition buildAppServerChoicesFromServerList (p : MlClientParameters.t) (appServers : JsValue)
  : Completion (list MlxprsQuickPickItem) :=
  bind (js_index appServers 0) (fun first =>
  bind (js_field first "value") (fun v =>
    let servers := concat_into_empty (js_or v (JArray [])) in
    mapM (fun server =>
            bind (js_field server "name") (fun name =>
            bind (js_field server "id") (fun id =>
            bind (js_field server "port") (fun port =>
              Normal {| label := name;
                        description := id;
                        detail := toString name +:+ " on " +:+
                                  prim_toString (MlClientParameters.host p) +:+ ":" +:+
                                  toString (js_or port (JStr "(none)")) |}))))
         servers)).

(** An [async] function turns a synchronous throw into a rejection. *)
Definition settle {A} (c : Completion A) : Settled A :=
  match c with
  | Normal a => Fulfilled a
  | Throw e => Rejected e
  end.

Definition getAppServerListForJs (srv : Server) (ctx : ClientContext.t) (serverListQuery : string)
           (w : World) : Settled (list MlxprsQuickPickItem) * World :=
  match sendXQuery srv ctx serverListQuery "xdmp" w with
  | (Throw e, w1) => (Rejected e, w1)
  | (Normal (Rejected _), w1) => (Fulfilled [], w1)
  | (Normal (Fulfilled appServers), w1) =>
      match store w1 !! ClientContext.params ctx with
      | None => (Rejected (TypeError "Cannot read properties of undefined (reading 'host')"), w1)
      | Some p => (settle (buildAppServerChoicesFromServerList p appServers), w1)
      end
  end.

(** State of a batch while its answers come in: the list being built, the
    console, and the first rejection among the per-request promises. *)
Record Batch (A : Type) := mkBatch {
  collected : list A;
  logged : list JsValue;
  failure : option JsValue
}.
Arguments mkBatch {A}.
Arguments collected {A}.
Arguments logged {A}.
Arguments failure {A}.

Definition fail_with {A} (b : Batch A) (e : JsValue) : Batch A :=
  mkBatch (collected b) (logged b)
          (match failure b with Some e0 => Some e0 | None => Some e end).

(** What [Promise.all] settles to once every answer has been handled. *)
Definition all_settled {A} (b : Batch A) : Settled (list A) :=
  match failure b with
  | Some e => Rejected e
  | None => Fulfilled (collected b)
  end.

(** The two handlers attached to one connected-status probe:
    [.result(response => ...)] and [.catch(error => ...)]. *)
Definition probe_handlers (requiredResponse : string) (choice : MlxprsQuickPickItem)
           (answer : Settled JsValue) (b : Batch MlxprsQuickPickItem) : Batch MlxprsQuickPickItem :=
  match answer with
  | Fulfilled response =>
      if is_string response requiredResponse
      then mkBatch (collected b ++ [choice]) (logged b) (failure b)
      else b
  | Rejected error =>
      match bind (js_field error "body") (fun body => js_field body "errorResponse") with
      | Normal errorResponse => mkBatch (collected b) (logged b ++ [errorResponse]) (failure b)
      | Throw e => fail_with b e
      end
  end.

(** Run the handlers of a batch in the order the answers arrive. *)
Definition run_batch {A R} (handle : R -> Batch A -> Batch A) (issued : list R)
           (order : list nat) (b0 : Batch A) : Batch A :=
  fold_left (fun b i => match issued !! i with
                        | Some r => handle r b
                        | None => b
                        end) order b0.

Section Discovery.
Variable StringToNumber : string -> JsNumber.
Variable fs : FileSystem.
Variable ml : Library.
Variable srv : Server.
Variable sched : Schedule.

(** The [choices.forEach] of [filterJsServerByConnectedStatus]: one manage
    client and one request per candidate, in order.  A constructor that
    throws ends the loop. *)
Fixpoint issue_probes (clientFactory : ClientFactory.t) (choices : list MlxprsQuickPickItem)
         (w : World) : Completion (list (MlxprsQuickPickItem * Settled JsValue)) * World :=
  match choices with
  | [] => (Normal [], w)
  | choice :: rest =>
      match ClientFactory.newMarklogicManageClient StringToNumber fs ml clientFactory ∅
                                                   (store w) with
      | (Throw e, h1) => (Throw e, with_store w h1)
      | (Normal manageClient, h1) =>
          let endpoint := "/jsdbg/v1/connected/" +:+ toString (label choice) in
          let '(answer, w1) :=
            send srv (SendRequest (ClientContext.databaseClient manageClient) endpoint "GET")
                 (with_store w h1) in
          match issue_probes clientFactory rest w1 with
          | (Throw e, w2) => (Throw e, w2)
          | (Normal issued, w2) => (Normal ((choice, answer) :: issued), w2)
          end
      end
  end.

Definition filterJsServerByConnectedStatus (clientFactory : ClientFactory.t)
           (choices : list MlxprsQuickPickItem) (requiredResponse : string) (w : World)
  : Settled (list MlxprsQuickPickItem) * World :=
  let before := length (sent w) in
  match issue_probes clientFactory choices w with
  | (Throw e, w1) => (Rejected e, w1)
  | (Normal issued, w1) =>
      let b := run_batch (fun r => probe_handlers requiredResponse (fst r) (snd r))
                         issued (sched before (length issued))
                         (mkBatch [] (console w1) None) in
      (all_settled b, with_console w1 (logged b))
  end.

Definition getFilteredListOfJsAppServers (clientFactory : ClientFactory.t)
           (requiredResponse : string) (w : World)
  : Settled (list MlxprsQuickPickItem) * World :=
  match ClientFactory.newMarklogicRestClient StringToNumber fs ml clientFactory ∅ (store w) with
  | (Throw e, h1) => (Rejected e, with_store w h1)
  | (Normal dbClientContext, h1) =>
      let w1 := with_store w h1 in
      match h1 !! ClientContext.params dbClientContext with
      | None => (Rejected (TypeError "Cannot read properties of undefined (reading 'port')"), w1)
      | Some p =>
          let listServersForConnectQuery := buildListServersForConnectQuery p in
          match getAppServerListForJs srv dbClientContext listServersForConnectQuery w1 with
          | (Rejected e, w2) => (Rejected e, w2)
          | (Fulfilled allPossibleJsServers, w2) =>
              filterJsServerByConnectedStatus clientFactory allPossibleJsServers
                                              requiredResponse w2
          end
      end
  end.

(** [{ ...this.params }]: every field is an own property, the constructor
    assigns them all. *)
Definition params_bag (p : MlClientParameters.t) : Bag :=
  list_to_map
    [("host", MlClientParameters.host p);
     ("port", PNumber (MlClientParameters.port p));
     ("restBasePath", MlClientParameters.restBasePath p);
     ("managePort", PNumber (MlClientParameters.managePort p));
     ("manageBasePath", MlClientParameters.manageBasePath p);
     ("adminPort", PNumber (MlClientParameters.adminPort p));
     ("adminBasePath", MlClientParameters.adminBasePath p);
     ("testPort", PNumber (MlClientParameters.testPort p));
     ("testBasePath", MlClientParameters.testBasePath p);
     ("user", MlClientParameters.user p);
     ("pwd", MlClientParameters.pwd p);
     ("contentDb", MlClientParameters.contentDb p);
     ("modulesDb", MlClientParameters.modulesDb p);
     ("authType", MlClientParameters.authType p);
     ("apiKey", MlClientParameters.apiKey p);
     ("accessTokenDuration", MlClientParameters.accessTokenDuration p);
     ("ssl", PBool (MlClientParameters.ssl p));
     ("pathToCa", MlClientParameters.pathToCa p);
     ("rejectUnauthorized", PBool (MlClientParameters.rejectUnauthorized p))].

(** The [items.forEach(async item => requests.push(...))] of
    [getConnectedServers]: the callback is [async], so an exception in it
    is swallowed and that item simply contributes no request. *)
Fixpoint issue_name_lookups (this : ClientContext.t) (items : list JsValue) (w : World)
  : list (Settled JsValue) * World :=
  match items with
  | [] => ([], w)
  | item :: rest =>
      match js_field item "value" with
      | Throw _ => issue_name_lookups this rest w
      | Normal v =>
          match sendXQuery srv this ("xdmp:server-name(" +:+ toString v +:+ ")") "xdmp" w with
          | (Throw _, w1) => issue_name_lookups this rest w1
          | (Normal answer, w1) =>
              let '(issued, w2) := issue_name_lookups this rest w1 in
              (answer :: issued, w2)
          end
      end
  end.

(** The two handlers attached to one server-name lookup. *)
Definition name_handlers (answer : Settled JsValue) (b : Batch string) : Batch string :=
  match answer with
  | Fulfilled result =>
      match bind (js_index result 0) (fun first => js_field first "value") with
      | Normal name => mkBatch (collected b ++ ["XQY:" +:+ toString name]) (logged b) (failure b)
      | Throw e => fail_with b e
      end
  | Rejected _ => b
  end.

(** [updateCallback] is the caller's function, or [None] for an argument
    that is not truthy.  What it does with the list is the caller's
    business, except that it may throw, which rejects the enumeration after
    the list was handed over; it is taken to leave the list itself as it
    is. *)
Definition getConnectedServers (this : ClientContext.t)
           (updateCallback : option (list string -> Completion unit))
           (managePort : JsNumber) (manageBasePath : JsPrim) (w : World)
  : Settled (list string) * World :=
  match store w !! ClientContext.params this with
  | None => (Rejected (TypeError "Cannot read properties of undefined (reading 'pwd')"), w)
  | Some p =>
      let overrides : Bag :=
        list_to_map [("password", MlClientParameters.pwd p);
                     ("managePort", PNumber managePort);
                     ("manageBasePath", manageBasePath)] in
      let clientFactory := ClientFactory.new StringToNumber (spread (params_bag p) overrides) in
      match getFilteredListOfJsAppServers clientFactory "true" w with
      | (Rejected e, w1) => (Rejected e, w1)
      | (Fulfilled connectedJsServers, w1) =>
          match send srv (XqueryEval (ClientContext.databaseClient this)
                                     ("xquery version " +:+ dquote +:+ "1.0-ml" +:+ dquote +:+
                                      "; dbg:connected()") []) w1 with
          | (Rejected err, w2) => (Rejected err, w2)
          | (Fulfilled (JArray items), w2) =>
              let before := length (sent w2) in
              let '(issued, w3) := issue_name_lookups this items w2 in
              let b := run_batch name_handlers issued (sched before (length issued))
                                 (mkBatch [] (console w3) None) in
              match failure b with
              | Some e => (Rejected e, w3)
              | None =>
                  let connectedServers :=
                    collected b ++
                    map (fun quickPickItem => "JS:" +:+ toString (label quickPickItem))
                        connectedJsServers in
                  match updateCallback with
                  | None => (Fulfilled connectedServers, w3)
                  | Some callback =>
                      let w4 := with_delivered w3 (delivered w3 ++ [connectedServers]) in
                      match callback connectedServers with
                      | Normal _ => (Fulfilled connectedServers, w4)
                      | Throw e => (Rejected e, w4)
                      end
                  end
              end
          | (Fulfilled _, w2) => (Rejected (TypeError "items.forEach is not a function"), w2)
          end
      end
  end.
End Discovery.

(* ===================================================================== *)
(** * The debug runtimes *)
(* ===================================================================== *)

(** ['shutdown' | 'launched' | 'attached' | 'error'], declared alike in
    both runtimes. *)
Inductive RunTimeState := shutdown | launched | attached | error.

(** What [console.log] and [console.info] print in the runtimes is not part
    of the modelled state. *)

(* --------------------------------------------------------------------- *)
(** ** part_002: XqyRuntime *)
(* --------------------------------------------------------------------- *)

Module XqyRuntime.

(** [_mlClient] is [undefined] until [initialize] assigns it.
    [initialize] builds the client with a class [MarklogicClient] that
    marklogicClient.ts does not define, and is not embedded; the field
    holds what [sendXQuery] takes, a [ClientContext]. *)
Record t := mk {
  _mlClient : option ClientContext.t;
  _rid : JsValue;
  _timeout : Z;
  _runTimeState : RunTimeState
}.

(** [new XqyRuntime()]. *)
Definition new : t :=
  {| _mlClient := None; _rid := JStr ""; _timeout := 1; _runTimeState := shutdown |}.

Definition getRunTimeState (this : t) : RunTimeState := _runTimeState this.

Definition setRunTimeState (this : t) (state : RunTimeState) : t :=
  mk (_mlClient this) (_rid this) (_timeout this) state.

Definition setRid (this : t) (rid : JsValue) : t :=
  mk (_mlClient this) rid (_timeout this) (_runTimeState this).

Definition getRid (this : t) : JsValue := _rid this.

Section Methods.
Variable srv : Server.

(** [sendXQuery(this._mlClient, ...)]: with no client the read of
    [dbClientContext.params] throws. *)
Definition sendXQuery' (this : t) (actualQuery prefix : string) (w : World)
  : Completion (Settled JsValue) * World :=
  match _mlClient this with
  | None => (Throw (TypeError "Cannot read properties of undefined (reading 'params')"), w)
  | Some c => sendXQuery srv c actualQuery prefix w
  end.

Definition launchWithDebugEval (this : t) (query : string) (w : World)
  : Completion (Settled JsValue) * t * World :=
  match sendXQuery' this query "dbg" w with
  | (Throw e, w1) => (Throw e, this, w1)
  | (Normal (Fulfilled fulfill), w1) =>
      match bind (js_index fulfill 0) (fun first => js_field first "value") with
      | Normal rid => (Normal (Fulfilled undefined), setRunTimeState (setRid this rid) launched, w1)
      | Throw e => (Normal (Rejected e), this, w1)
      end
  | (Normal (Rejected _), w1) =>
      (Normal (Fulfilled undefined),
       mk (_mlClient this) (_rid this) (_timeout this) error, w1)
  end.

Definition resume (this : t) :=
  sendXQuery' this ("dbg:continue(" +:+ toString (_rid this) +:+ ")") "xdmp".
Definition stepOver (this : t) :=
  sendXQuery' this ("dbg:next(" +:+ toString (_rid this) +:+ ")") "xdmp".
Definition stepInto (this : t) :=
  sendXQuery' this ("dbg:step(" +:+ toString (_rid this) +:+ ")") "xdmp".
Definition stepOut (this : t) :=
  sendXQuery' this ("dbg:out(" +:+ toString (_rid this) +:+ ")") "xdmp".
Definition getStackTrace (this : t) :=
  sendXQuery' this ("dbg:stack(" +:+ toString (_rid this) +:+ ")") "xdmp".

Definition lineQuery (this : t) (location : XqyBreakPoint) : string :=
  "dbg:line(" +:+ toString (_rid this) +:+ ", " +:+ bp_uri location +:+ ", " +:+
  num_toString (bp_line location) +:+ ")".
Definition breakQuery (this : t) (expr : JsValue) : string :=
  "dbg:break(" +:+ toString (_rid this) +:+ ", " +:+ toString expr +:+ ")".
Definition clearQuery (this : t) (expr : JsValue) : string :=
  "dbg:clear(" +:+ toString (_rid this) +:+ ", " +:+ toString expr +:+ ")".

Definition set_expr (location : XqyBreakPoint) (e : JsValue) : XqyBreakPoint :=
  mkXqyBreakPoint (bp_uri location) (bp_line location) (bp_column location)
                  (bp_condition location) e.

(** [location] is a reference to the caller's breakpoint object.  The
    success handler reads [fulfill['value'][0]]; there is no failure
    handler. *)
Definition findBreakPointExpr (this : t) (location : Ref) (w : World)
  : Completion (Settled JsValue) * World :=
  match breakpoints w !! location with
  | None => (Throw (TypeError "Cannot read properties of undefined (reading 'uri')"), w)
  | Some bp =>
      match sendXQuery' this (lineQuery this bp) "xdmp" w with
      | (Throw e, w1) => (Throw e, w1)
      | (Normal (Rejected e), w1) => (Normal (Rejected e), w1)
      | (Normal (Fulfilled fulfill), w1) =>
          match bind (js_field fulfill "value") (fun v => js_index v 0) with
          | Throw e => (Normal (Rejected e), w1)
          | Normal expr =>
              (Normal (Fulfilled expr),
               with_breakpoints w1 (<[location := set_expr bp expr]> (breakpoints w1)))
          end
      end
  end.

(** Shared shape of [setBreakPoint] and [removeBreakPoint]; [action]
    builds the [dbg:break] or [dbg:clear] query.  In the unresolved
    branch the second call is made inside the [then] callback and its
    promise is not returned; in both branches its two handlers only
    print. *)
Definition resolveThenAct (action : t -> JsValue -> string) (this : t) (location : Ref)
           (w : World) : Completion (Settled JsValue) * World :=
  match breakpoints w !! location with
  | None => (Throw (TypeError "Cannot read properties of undefined (reading 'expr')"), w)
  | Some bp =>
      if negb (truthy (bp_expr bp))
      then match findBreakPointExpr this location w with
           | (Throw e, w1) => (Throw e, w1)
           | (Normal (Rejected e), w1) => (Normal (Rejected e), w1)
           | (Normal (Fulfilled expr), w1) =>
               match sendXQuery' this (action this expr) "xdmp" w1 with
               | (Throw e, w2) => (Normal (Rejected e), w2)
               | (Normal _, w2) => (Normal (Fulfilled undefined), w2)
               end
           end
      else match sendXQuery' this (action this (bp_expr bp)) "xdmp" w with
           | (Throw e, w1) => (Throw e, w1)
           | (Normal _, w1) => (Normal (Fulfilled undefined), w1)
           end
  end.

Definition setBreakPoint := resolveThenAct breakQuery.
Definition removeBreakPoint := resolveThenAct clearQuery.

Definition wait (this : t) :=
  sendXQuery' this ("dbg:wait(" +:+ toString (_rid this) +:+ ", 5)") "xdmp".

Definition evaluateInContext (this : t) (expr : string) :=
  sendXQuery' this ("dbg:value(" +:+ toString (_rid this) +:+ ", " +:+ expr +:+ ")") "xdmp".

Definition disable (this : t) :=
  sendXQuery' this ("dbg:value(" +:+ toString (_rid this) +:+ ")") "xdmp".

(** The state is not touched: the call is sent and its promise
    returned. *)
Definition terminate (this : t) (w : World) : Completion (Settled JsValue) * t * World :=
  let '(r, w1) := sendXQuery' this "dbg:disconnent(xdmp:server())" "xdmp" w in
  (r, this, w1).
End Methods.

End XqyRuntime.

(* --------------------------------------------------------------------- *)
(** ** part_001: MLRuntime *)
(* --------------------------------------------------------------------- *)

Module MLRuntime.

Record t := mk {
  _hostName : JsValue;
  _username : JsValue;
  _password : JsValue;
  _rid : JsValue;
  _timeout : Z;
  _runTimeState : RunTimeState
}.

Record MLbreakPoint := mkMLbreakPoint {
  url : string;
  line : JsNumber;
  column : JsPrim;
  condition : JsPrim
}.

(** [new MLRuntime()]. *)
Definition new : t :=
  {| _hostName := JStr ""; _username := JStr ""; _password := JStr "";
     _rid := JStr ""; _timeout := 1; _runTimeState := shutdown |}.

Definition getRunTimeState (this : t) : RunTimeState := _runTimeState this.

Definition setRunTimeState (this : t) (state : RunTimeState) : t :=
  mk (_hostName this) (_username this) (_password this) (_rid this) (_timeout this) state.

Definition initialize (this : t) (hostname username password : JsValue) : t :=
  mk hostname username password (_rid this) (_timeout this) (_runTimeState this).

Definition setRid (this : t) (rid : JsValue) : t :=
  mk (_hostName this) (_username this) (_password this) rid (_timeout this)
     (_runTimeState this).

Definition getRid (this : t) : JsValue := _rid this.

Section Methods.
Variable srv : Server.
(** [fs.readFileSync] and [querystring.escape]. *)
Variable fs : FileSystem.
Variable escape : string -> string.

Definition endpointUrl (this : t) (module : string) : string :=
  "http://" +:+ toString (_hostName this) +:+ ":8002/jsdbg/v1/" +:+ module +:+ "/" +:+
  toString (_rid this).

(** [if (body) options.body = body]: an empty body is not attached. *)
Definition postRequest (this : t) (module : string) (body : option string) : Request :=
  HttpPost (endpointUrl this module) (_username this) (_password this) []
           (match body with
            | Some b => if String.eqb b "" then None else Some b
            | None => None
            end).

Definition _sendMLdebugRequestPOST (this : t) (module : string) (body : option string)
           (w : World) : Settled JsValue * World :=
  send srv (postRequest this module body) w.

Definition _sendMLdebugRequestGET (this : t) (module : string)
           (queryString : option (list (string * JsValue))) (w : World)
  : Settled JsValue * World :=
  send srv (HttpGet (endpointUrl this module) (_username this) (_password this)
                    queryString) w.

Definition _sendMLdebugEvalRequest (this : t) (script : string) (w : World)
  : Settled JsValue * World :=
  send srv (HttpPost ("http://" +:+ toString (_hostName this) +:+ ":8002/jsdbg/v1/eval")
                     (_username this) (_password this)
                     [("Content-type", "application/x-www-form-urlencoded")]
                     (Some ("javascript=" +:+ escape script))) w.

(** The state becomes ['launched'] once the script is read, before the
    request is sent; the promise of the request is returned as is. *)
Definition launchWithDebugEval (this : t) (scriptLocation : string) (w : World)
  : Completion (Settled JsValue) * t * World :=
  match fs (PString scriptLocation) with
  | FsError m => (Throw (Error m), this, w)
  | FsOk script =>
      let this1 := setRunTimeState this launched in
      let '(r, w1) := _sendMLdebugEvalRequest this1 script w in
      (Normal r, this1, w1)
  end.

Definition resume (this : t) := _sendMLdebugRequestPOST this "resume" None.
Definition stepOver (this : t) := _sendMLdebugRequestPOST this "step-over" None.
Definition stepInto (this : t) := _sendMLdebugRequestPOST this "step-into" None.
Definition stepOut (this : t) := _sendMLdebugRequestPOST this "step-out" None.
Definition getStackTrace (this : t) := _sendMLdebugRequestGET this "stack-trace" None.
Definition disable (this : t) := _sendMLdebugRequestPOST this "disable" None.

Definition setBreakPoint (this : t) (location : MLbreakPoint) :=
  let body := "url=" +:+ url location +:+ "&lno=" +:+ num_toString (line location) in
  let body := if prim_truthy (column location)
              then body +:+ "&cno=" +:+ prim_toString (column location) else body in
  let body := if prim_truthy (condition location)
              then body +:+ "&condition=" +:+ prim_toString (condition location) else body in
  _sendMLdebugRequestPOST this "set-breakpoint" (Some body).

Definition removeBreakPoint (this : t) (location : MLbreakPoint) :=
  let body := "url=" +:+ url location +:+ "&lno=" +:+ num_toString (line location) in
  let body := if prim_truthy (column location)
              then body +:+ "&cno=" +:+ prim_toString (column location) else body in
  _sendMLdebugRequestPOST this "remove-breakpoint" (Some body).

Definition wait (this : t) := _sendMLdebugRequestPOST this "wait" (Some "time-out=5").

(** [cid] is optional: the call frame is sent unless it is the empty
    string. *)
Definition evaluateOnCallFrame (this : t) (expr : string) (cid : JsPrim) :=
  _sendMLdebugRequestGET this "eval-on-call-frame"
    (Some (("expr", JStr expr) ::
           (if strict_neq cid (PString "") then [("call-frame", JPrim cid)] else []))).

Definition getProperties (this : t) (objectId : string) :=
  _sendMLdebugRequestGET this "properties" (Some [("object-id", JStr objectId)]).

(** The state is not touched: the call is sent and its promise
    returned. *)
Definition terminate (this : t) (w : World) : Settled JsValue * t * World :=
  let '(r, w1) := _sendMLdebugRequestPOST this "request-cancel"
                                          (Some "server-name=TaskServer") w in
  (r, this, w1).

(** [waitTillPaused] calls itself for as long as [wait] resolves with
    the empty string.  [fuel] bounds the number of polls; [None] means
    the bound was reached with every answer empty. *)
Fixpoint waitTillPaused (fuel : nat) (this : t) (w : World)
  : option (Settled JsValue) * World :=
  match fuel with
  | O => (None, w)
  | S fuel' =>
      match wait this w with
      | (Fulfilled result, w1) =>
          if is_string result ""
          then waitTillPaused fuel' this w1
          else (Some (Fulfilled result), w1)
      | (Rejected e, w1) => (Some (Rejected e), w1)
      end
  end.
End Methods.

End MLRuntime.

(* ===================================================================== *)
(** * marklogicClient.ts and part_000: printing, comparison, URLs, settings *)
(* ===================================================================== *)

(** [parts.join(sep)] on strings. *)
Definition join_with (sep : string) (parts : list string) : string :=
  match parts with
  | [] => ""
  | p :: rest => fold_left (fun acc q => acc +:+ sep +:+ q) rest p
  end.

(** How [Array.prototype.join] prints one element: [undefined] and [null]
    print as nothing. *)
Definition join_element (p : JsPrim) : string :=
  match p with
  | PUndefined | PNull => ""
  | _ => prim_toString p
  end.

(** The line terminators a dot of a regular expression does not match,
    among one-byte characters: line feed and carriage return. *)
Definition is_line_terminator (c : ascii) : bool :=
  (nat_of_ascii c =? 10)%nat || (nat_of_ascii c =? 13)%nat.

(** [s.replace(/./g, '*')], a string being read as its one-byte
    characters. *)
Fixpoint mask (s : string) : string :=
  match s with
  | EmptyString => EmptyString
  | String c s' => String (if is_line_terminator c then c else "*"%char) (mask s')
  end.

(** [MlClientParameters.toString()].  [this.pwd.replace] throws when the
    password is not a string.  The last element pushed for a CA path is
    ['pathToCa:' || this.pathToCa]. *)
Definition MlClientParameters_toString (this : MlClientParameters.t) : Completion string :=
  match MlClientParameters.pwd this with
  | PString pwd =>
      let paramsArray :=
        [MlClientParameters.host this; PNumber (MlClientParameters.port this);
         MlClientParameters.user this; PString (mask pwd);
         MlClientParameters.authType this; MlClientParameters.contentDb this;
         MlClientParameters.modulesDb this; MlClientParameters.apiKey this;
         MlClientParameters.accessTokenDuration this] in
      let paramsArray :=
        if MlClientParameters.ssl this
        then paramsArray ++ [PString "ssl"] ++
             (if negb (MlClientParameters.rejectUnauthorized this)
              then [PString "insecure"] else []) ++
             (if prim_truthy (MlClientParameters.pathToCa this)
              then [prim_or (PString "pathToCa:") (MlClientParameters.pathToCa this)]
              else [])
        else paramsArray ++ [PString "plaintext"] in
      Normal (join_with ":" (map join_element paramsArray))
  | _ => Throw (TypeError "Cannot read properties of undefined (reading 'replace')")
  end.

(** [ClientContext.toString()]. *)
Definition ClientContext_toString (h : Store) (this : ClientContext.t) : Completion string :=
  match h !! ClientContext.params this with
  | None => Throw (TypeError "Cannot read properties of undefined (reading 'toString')")
  | Some p => MlClientParameters_toString p
  end.

(** [ClientContext.hasSameParamsAs(newParams)]: the context's own object,
    as it is now, against [newParams]. *)
Definition hasSameParamsAs (h : Store) (this : ClientContext.t)
           (newParams : MlClientParameters.t) : Completion bool :=
  match h !! ClientContext.params this with
  | None => Throw (TypeError "Cannot read properties of undefined (reading 'sameAs')")
  | Some p => Normal (MlClientParameters.sameAs p newParams)
  end.


(** part_000, [buildClientFactoryFromWorkspaceConfig(cfg, overrides)].
    [cfg] is the editor's settings object, read through [cfg.get(key)];
    [String(x)] is ToString. *)
Definition buildClientFactoryFromWorkspaceConfig (StringToNumber : string -> JsNumber)
           (cfg : string -> JsPrim) (overrides : Bag) : ClientFactory.t :=
  let Number := MlClientParameters.Number StringToNumber in
  let String := fun x => PString (prim_toString x) in
  let configParams : Bag :=
    list_to_map
      [("host", String (cfg "marklogic.host"));
       ("user", String (cfg "marklogic.username"));
       ("password", String (cfg "marklogic.password"));
       ("port", PNumber (Number (cfg "marklogic.port")));
       ("restBasePath", prim_or (String (cfg "marklogic.restBasePath")) (PString ""));
       ("managePort", PNumber (Number (cfg "marklogic.managePort")));
       ("manageBasePath", prim_or (String (cfg "marklogic.manageBasePath")) (PString ""));
       ("testPort", PNumber (Number (cfg "marklogic.testPort")));
       ("testBasePath", prim_or (String (cfg "marklogic.testBasePath")) (PString ""));
       ("adminPort", PNumber (Number (cfg "marklogic.adminPort")));
       ("adminBasePath", prim_or (String (cfg "marklogic.adminBasePath")) (PString ""));
       ("contentDb", String (cfg "marklogic.documentsDb"));
       ("modulesDb", String (cfg "marklogic.modulesDb"));
       ("authType", PString (toUpperCase (prim_toString (cfg "marklogic.authType"))));
       ("ssl", PBool (prim_truthy (cfg "marklogic.ssl")));
       ("pathToCa", String (prim_or (cfg "marklogic.pathToCa") (PString "")));
       ("rejectUnauthorized", PBool (prim_truthy (cfg "marklogic.rejectUnauthorized")))] in
  ClientFactory.new StringToNumber (spread configParams overrides).

(* ===================================================================== *)
(** * Vocabulary of the statements and inputs of the examples *)
(* ===================================================================== *)

Fixpoint digits_value (s : string) (acc : Z) : option Z :=
  match s with
  | EmptyString => Some acc
  | String c s' =>
      let n := nat_of_ascii c in
      if (48 <=? n)%nat && (n <=? 57)%nat
      then digits_value s' (10 * acc + Z.of_nat (n - 48))
      else None
  end.

(** StringToNumber on unsigned decimal literals (and the empty string);
    every other text is taken to NaN.  It stands in for the language
    primitive where an example needs one. *)
Definition decimalToNumber (s : string) : JsNumber :=
  match digits_value s 0 with
  | Some z => Num z
  | None => NaN
  end.

(** No file can be read. *)
Definition noFiles : FileSystem := fun _ => FsError "ENOENT: no such file or directory".

(** [x == null]. *)
Definition nullish (p : JsPrim) : bool :=
  match p with
  | PUndefined | PNull => true
  | _ => false
  end.

(** A client library for the examples.  It refuses options that name no
    user or no password, and options for the CLOUD scheme that carry no API
    key, and accepts all others.  It stands in for the real library where
    an example needs one. *)
Definition needsCredentials : Library :=
  fun o =>
    if strict_eq (dc_authType o) (PString "CLOUD")
    then if prim_truthy (dc_apiKey o) then None
         else Some (Error "apiKey needed for MarkLogic cloud authentication.")
    else if nullish (dc_user o) || nullish (dc_password o)
         then Some (Error "user and password are needed for this authentication.")
         else None.

Definition emptyWorld : World := mkWorld [] [] [] [] [].

(** A bag as a settings file would give it. *)
Definition localBag : Bag :=
  list_to_map [("host", PString "localhost"); ("port", PString "8000");
               ("user", PString "admin"); ("pwd", PString "admin");
               ("password", PString "admin");
               ("contentDb", PString "Documents"); ("modulesDb", PString "Modules");
               ("managePort", PNumber (Num 8002)); ("testPort", PNumber (Num 8004));
               ("manageBasePath", PString "/manage");
               ("authType", PString "DIGEST")].

(** Some field that [sameAs] compares with [===] alone holds NaN. *)
Definition has_NaN_compared (p : MlClientParameters.t) : bool :=
  existsb is_NaN_prim
    [MlClientParameters.host p; MlClientParameters.contentDb p;
     MlClientParameters.modulesDb p; MlClientParameters.user p;
     MlClientParameters.pwd p; MlClientParameters.authType p;
     MlClientParameters.apiKey p; MlClientParameters.accessTokenDuration p;
     MlClientParameters.pathToCa p].

Definition set_port (p : MlClientParameters.t) (n : JsNumber) : MlClientParameters.t :=
  MlClientParameters.mk
    (MlClientParameters.contentDb p) (MlClientParameters.modulesDb p)
    (MlClientParameters.host p) n
    (MlClientParameters.managePort p) (MlClientParameters.adminPort p)
    (MlClientParameters.testPort p) (MlClientParameters.user p)
    (MlClientParameters.pwd p) (MlClientParameters.authType p)
    (MlClientParameters.apiKey p)
    (MlClientParameters.accessTokenDuration p) (MlClientParameters.ssl p)
    (MlClientParameters.pathToCa p) (MlClientParameters.rejectUnauthorized p)
    (MlClientParameters.manageBasePath p) (MlClientParameters.adminBasePath p)
    (MlClientParameters.restBasePath p) (MlClientParameters.testBasePath p).

(** The parameter object of the settings bag. *)
Definition localParams : MlClientParameters.t :=
  MlClientParameters.new decimalToNumber localBag.

(** A parameter object whose token duration is NaN. *)
Definition nanDurationParams : MlClientParameters.t :=
  MlClientParameters.new decimalToNumber
    (<["accessTokenDuration" := PNumber NaN]> localBag).

Definition recognised (schemes : list string) (a : JsPrim) : bool :=
  existsb (fun s => strict_eq a (PString s)) schemes.

Definition cloudBag : Bag := <["authType" := PString "CLOUD"]> localBag.

(** [q] is [p] up to the two fields [authType] and [contentDb]. *)
Definition same_but_authType_contentDb (p q : MlClientParameters.t) : Prop :=
  q = ClientContext.set_contentDb
        (ClientContext.set_authType p (MlClientParameters.authType q))
        (MlClientParameters.contentDb q).

(** The parameter object of a connection with no content database. *)
Definition noDbParams : MlClientParameters.t :=
  MlClientParameters.new decimalToNumber (delete "contentDb" localBag).

(** The factory of a connection to the Documents database. *)
Definition localFactory : ClientFactory.t := ClientFactory.new decimalToNumber localBag.

(** What a [rows.query] call resolves or rejects with is the server's
    business: [sendRows] hands that promise back untouched. *)
Definition rowsQueryCall (srv : Server) (ctx : ClientContext.t) (query : JsValue)
           (queryType format : string) (w : World) : Completion (Settled JsValue) * World :=
  let req := RowsQuery (ClientContext.databaseClient ctx) query queryType format in
  (Normal (srv (length (sent w)) req), with_sent w (sent w ++ [req])).

(** A parser for the examples: the one text [{}] parses, to the empty
    object; every other text is rejected with a SyntaxError. *)
Definition strictParse (s : string) : Completion JsValue :=
  if String.eqb s "{}"
  then Normal (JObject [])
  else Throw (JObject [("name", JStr "SyntaxError");
                       ("message", JStr "Unexpected end of JSON input")]).

Definition silentServer : Server := fun _ _ => Fulfilled (JArray []).

Definition localContext : ClientContext.t :=
  ClientContext.mk 0 None
    (ClientContext.options (MlClientParameters.new decimalToNumber localBag) None).

(** The one request [wait] sends. *)
Definition waitPoll (this : MLRuntime.t) : Request :=
  MLRuntime.postRequest this "wait" (Some "time-out=5").

(** A server that reports nothing three times and then a pause. *)
Definition pauseAfterThree : Server :=
  fun k _ => if (k <? 3)%nat then Fulfilled (JStr "") else Fulfilled (JStr "stopped").

(** The one request [MLRuntime.terminate] sends. *)
Definition cancelRequest (this : MLRuntime.t) : Request :=
  MLRuntime.postRequest this "request-cancel" (Some "server-name=TaskServer").

(** A server that refuses every request. *)
Definition refusingServer : Server :=
  fun _ _ => Rejected (JObject [("code", JStr "ECONNREFUSED")]).

(** A server that answers every request with one result row holding 42. *)
Definition rowServer : Server :=
  fun _ _ => Fulfilled (JArray [JObject [("format", JStr "text");
                                         ("datatype", JStr "integer");
                                         ("value", JPrim (PNumber (Num 42)))]]).

(** A server that answers every request with the text of a request id. *)
Definition ridServer : Server := fun _ _ => Fulfilled (JStr "4242").

(** One script on disk. *)
Definition oneScript : FileSystem :=
  fun path => if strict_eq path (PString "/scripts/main.sjs")
              then FsOk "1 + 1"
              else FsError "ENOENT: no such file or directory".

Definition noEscape : string -> string := fun s => s.

(** The request [MLRuntime.launchWithDebugEval] sends for a script. *)
Definition evalRequest (escape : string -> string) (this : MLRuntime.t) (script : string)
  : Request :=
  HttpPost ("http://" +:+ toString (MLRuntime._hostName this) +:+ ":8002/jsdbg/v1/eval")
           (MLRuntime._username this) (MLRuntime._password this)
           [("Content-type", "application/x-www-form-urlencoded")]
           (Some ("javascript=" +:+ escape script)).

(** A world holding the parameter object of [localContext]. *)
Definition localWorld : World :=
  mkWorld [MlClientParameters.new decimalToNumber localBag] [] [] [] [].

Definition localXqy : XqyRuntime.t :=
  XqyRuntime.mk (Some localContext) (JStr "") 1 shutdown.

(** The script text of an [xqueryEval] request. *)
Definition actualQuery_of (req : Request) : string :=
  match req with
  | XqueryEval _ _ extVars => toString (assoc "actualQuery" extVars)
  | _ => ""
  end.

Definition is_lookup_call (req : Request) : bool := String.prefix "dbg:line(" (actualQuery_of req).
Definition is_set_call (req : Request) : bool := String.prefix "dbg:break(" (actualQuery_of req).
Definition is_clear_call (req : Request) : bool := String.prefix "dbg:clear(" (actualQuery_of req).

Definition count_calls (kind : Request -> bool) (w : World) : nat :=
  length (filter kind (sent w)).

(** A breakpoint on line 12 of a module, its expression id not yet
    resolved, in a world that also holds the connection's parameters. *)
Definition freshBreakPoint : XqyBreakPoint :=
  mkXqyBreakPoint "/app/main.xqy" (Num 12) PUndefined PUndefined undefined.

Definition breakWorld : World :=
  mkWorld [MlClientParameters.new decimalToNumber localBag] [freshBreakPoint] [] [] [].

(** A runtime attached to session 42. *)
Definition sessionXqy : XqyRuntime.t :=
  XqyRuntime.mk (Some localContext) (JPrim (PNumber (Num 42))) 1 launched.

(** A server whose answers are not arrays of rows but one object holding
    the rows under [value]. *)
Definition objectServer : Server :=
  fun _ _ => Fulfilled (JObject [("value", JArray [JPrim (PNumber (Num 7))])]).

Definition inOrder : Schedule := fun _ n => seq 0 n.
Definition lastFirst : Schedule := fun _ n => rev (seq 0 n).

Definition choiceA : MlxprsQuickPickItem :=
  mkItem (JStr "App-A") (JStr "101") "App-A on localhost:8010".
Definition choiceB : MlxprsQuickPickItem :=
  mkItem (JStr "App-B") (JStr "102") "App-B on localhost:8020".

(** A transport failure: the error of a refused connection, which has no
    [body]. *)
Definition connectionRefused : JsValue :=
  JObject [("code", JStr "ECONNREFUSED");
           ("message", JStr "connect ECONNREFUSED 127.0.0.1:8002")].

(** An error response of the server, with a body. *)
Definition notFound : JsValue :=
  JObject [("statusCode", JPrim (PNumber (Num 404)));
           ("body", JObject [("errorResponse",
                              JObject [("status", JStr "Not Found")])])].

Definition serverRow (name : string) (id port : Z) : JsValue :=
  JObject [("id", JPrim (PNumber (Num id))); ("name", JStr name);
           ("port", JPrim (PNumber (Num port)))].

(** A remote engine with two application servers, App-A and App-B, and
    two debug-connected XQuery sessions, 111 and 222.  The probe of App-A
    answers [true] and the name of session 111 is Alpha; the probe of App-B
    fails with [probeError] and the name lookup of session 222 is
    refused. *)
Definition discoveryServer (probeError : JsValue) : Server :=
  fun _ req =>
    match req with
    | SendRequest _ endpoint _ =>
        if String.eqb endpoint "/jsdbg/v1/connected/App-A"
        then Fulfilled (JStr "true")
        else Rejected probeError
    | XqueryEval _ _ [] =>
        Fulfilled (JArray [JObject [("value", JPrim (PNumber (Num 111)))];
                           JObject [("value", JPrim (PNumber (Num 222)))]])
    | XqueryEval _ _ extVars =>
        let q := toString (assoc "actualQuery" extVars) in
        if String.eqb q "xdmp:server-name(111)"
        then Fulfilled (JArray [JObject [("value", JStr "Alpha")]])
        else if String.prefix "xdmp:server-name(" q
             then Rejected connectionRefused
             else Fulfilled (JArray [JObject [("value",
                                               JArray [serverRow "App-A" 101 8010;
                                                       serverRow "App-B" 102 8020])]])
    | _ => Fulfilled (JArray [])
    end.

(** The error of a failed probe can be logged: it has a [body] that can be
    asked for its [errorResponse]. *)
Definition has_errorResponse (e : JsValue) : Prop :=
  exists body r, js_field e "body" = Normal body /\ js_field body "errorResponse" = Normal r.

(** What one probe contributes to the filtered list. *)
Definition kept (requiredResponse : string) (r : MlxprsQuickPickItem * Settled JsValue)
  : list MlxprsQuickPickItem :=
  match snd r with
  | Fulfilled response => if is_string response requiredResponse then [fst r] else []
  | Rejected _ => []
  end.

Definition set_pwd (p : MlClientParameters.t) (v : JsPrim) : MlClientParameters.t :=
  MlClientParameters.mk
    (MlClientParameters.contentDb p) (MlClientParameters.modulesDb p)
    (MlClientParameters.host p) (MlClientParameters.port p)
    (MlClientParameters.managePort p) (MlClientParameters.adminPort p)
    (MlClientParameters.testPort p) (MlClientParameters.user p)
    v (MlClientParameters.authType p)
    (MlClientParameters.apiKey p)
    (MlClientParameters.accessTokenDuration p) (MlClientParameters.ssl p)
    (MlClientParameters.pathToCa p) (MlClientParameters.rejectUnauthorized p)
    (MlClientParameters.manageBasePath p) (MlClientParameters.adminBasePath p)
    (MlClientParameters.restBasePath p) (MlClientParameters.testBasePath p).

Definition set_pathToCa (p : MlClientParameters.t) (v : JsPrim) : MlClientParameters.t :=
  MlClientParameters.mk
    (MlClientParameters.contentDb p) (MlClientParameters.modulesDb p)
    (MlClientParameters.host p) (MlClientParameters.port p)
    (MlClientParameters.managePort p) (MlClientParameters.adminPort p)
    (MlClientParameters.testPort p) (MlClientParameters.user p)
    (MlClientParameters.pwd p) (MlClientParameters.authType p)
    (MlClientParameters.apiKey p)
    (MlClientParameters.accessTokenDuration p) (MlClientParameters.ssl p)
    v (MlClientParameters.rejectUnauthorized p)
    (MlClientParameters.manageBasePath p) (MlClientParameters.adminBasePath p)
    (MlClientParameters.restBasePath p) (MlClientParameters.testBasePath p).

(** No character of [s] is a line terminator. *)
Fixpoint single_line (s : string) : bool :=
  match s with
  | EmptyString => true
  | String c s' => negb (is_line_terminator c) && single_line s'
  end.

(** [n] stars. *)
Fixpoint stars (n : nat) : string :=
  match n with
  | O => EmptyString
  | S n' => String "*"%char (stars n')
  end.

(** A value that is the empty string or truthy: never [undefined],
    [null], [false], 0 or NaN. *)
Definition empty_or_truthy (p : JsPrim) : Prop :=
  p = PString "" \/ prim_truthy p = true.

(** Parameters of a TLS connection with a CA file. *)
Definition tlsParams : MlClientParameters.t :=
  MlClientParameters.new decimalToNumber
    (<["ssl" := PBool true]> (<["pathToCa" := PString "/etc/ssl/ca.pem"]> localBag)).

(** Editor settings in which nothing is set. *)
Definition noSettings : string -> JsPrim := fun _ => PUndefined.

(** Editor settings of a local server, the auth scheme in lower case. *)
Definition localSettings : string -> JsPrim :=
  fun key =>
    if String.eqb key "marklogic.host" then PString "localhost"
    else if String.eqb key "marklogic.port" then PNumber (Num 8000)
    else if String.eqb key "marklogic.authType" then PString "basic"
    else if String.eqb key "marklogic.restBasePath" then PString "/rest"
    else PUndefined.

(** The choice [buildAppServerChoicesFromServerList] makes of one server
    object with the given properties. *)
Definition choice_of (p : MlClientParameters.t) (fields : list (string * JsValue))
  : MlxprsQuickPickItem :=
  {| label := assoc "name" fields;
     description := assoc "id" fields;
     detail := toString (assoc "name" fields) +:+ " on " +:+
               prim_toString (MlClientParameters.host p) +:+ ":" +:+
               toString (js_or (assoc "port" fields) (JStr "(none)")) |}.

(** How the enumeration settles once the callback has been called with
    [l]. *)
Definition after_callback (outcome : Completion unit) (l : list string)
  : Settled (list string) :=
  match outcome with
  | Normal _ => Fulfilled l
  | Throw e => Rejected e
  end.

(** A callback that returns, and one that throws. *)
Definition quietCallback : list string -> Completion unit := fun _ => Normal tt.
Definition failingCallback : list string -> Completion unit :=
  fun _ => Throw (Error "status bar is gone").

(** A factory whose settings name no user. *)
Definition noUserFactory : ClientFactory.t :=
  ClientFactory.new decimalToNumber (delete "user" localBag).


(** The one request [XqyRuntime.terminate] sends is a dispatch of this
    query. *)
Definition disconnectQuery : string := "dbg:disconnent(xdmp:server())".

(** Two server objects as the list query returns them, the second with no
    port. *)
Definition twoServers : list (list (string * JsValue)) :=
  [[("id", JStr "101"); ("name", JStr "App-A"); ("port", JPrim (PNumber (Num 8010)))];
   [("id", JStr "102"); ("name", JStr "App-B")]].

(** A breakpoint whose expression id is known. *)
Definition resolvedBreakPoint : XqyBreakPoint :=
  mkXqyBreakPoint "/app/main.xqy" (Num 12) PUndefined PUndefined (JPrim (PNumber (Num 7))).

Definition resolvedWorld : World :=
  mkWorld [MlClientParameters.new decimalToNumber localBag] [resolvedBreakPoint] [] [] [].

(** A server that never reports anything. *)
Definition quietServer : Server := fun _ _ => Fulfilled (JStr "").

(* ===================================================================== *)
(** * Properties *)
(* ===================================================================== *)

(** ** Strict equality *)

Lemma num_strict_eq_sym (a b : JsNumber) : num_strict_eq a b = num_strict_eq b a.
Proof. destruct a, b; simpl; auto using Z.eqb_sym. Qed.

Lemma strict_eq_sym (a b : JsPrim) : strict_eq a b = strict_eq b a.
Proof.
  destruct a, b; simpl; auto using num_strict_eq_sym, String.eqb_sym.
  destruct b, b0; reflexivity.
Qed.

Lemma strict_eq_refl (a : JsPrim) : strict_eq a a = negb (is_NaN_prim a).
Proof.
  destruct a as [| |b|n|s]; simpl; auto.
  - destruct b; reflexivity.
  - destruct n; simpl; auto using Z.eqb_refl.
  - apply String.eqb_refl.
Qed.

Lemma strict_eq_string (a : JsPrim) (s : string) :
  strict_eq a (PString s) = true <-> a = PString s.
Proof.
  destruct a; simpl; split; try discriminate; try congruence.
  - intros H. apply String.eqb_eq in H. congruence.
  - intros H. inversion H. apply String.eqb_refl.
Qed.

Lemma bool_eqb_sym (a b : bool) : Bool.eqb a b = Bool.eqb b a.
Proof. destruct a, b; reflexivity. Qed.

Lemma port_eq_sym (a b : JsNumber) :
  (isNaN a && isNaN b) || num_strict_eq a b = (isNaN b && isNaN a) || num_strict_eq b a.
Proof. now rewrite andb_comm, num_strict_eq_sym. Qed.

Lemma port_eq_refl (a : JsNumber) : (isNaN a && isNaN a) || num_strict_eq a a = true.
Proof. destruct a; simpl; auto using Z.eqb_refl. Qed.

(** ** sameAs *)

(** C5, as stated, fails: [sameAs] is not reflexive.  An object whose
    [accessTokenDuration] is NaN is not the same as itself, because that
    field is compared with [===] and has no NaN guard like the port's. *)
Lemma sameAs_not_reflexive :
  MlClientParameters.sameAs nanDurationParams nanDurationParams = false.
Proof. vm_compute. reflexivity. Qed.

Lemma sameAs_self (p : MlClientParameters.t) :
  MlClientParameters.sameAs p p = negb (has_NaN_compared p).
Proof.
  unfold MlClientParameters.sameAs, has_NaN_compared.
  rewrite port_eq_refl, !strict_eq_refl, !Bool.eqb_reflx. simpl.
  destruct (is_NaN_prim (MlClientParameters.host p)),
           (is_NaN_prim (MlClientParameters.contentDb p)),
           (is_NaN_prim (MlClientParameters.modulesDb p)),
           (is_NaN_prim (MlClientParameters.user p)),
           (is_NaN_prim (MlClientParameters.pwd p)),
           (is_NaN_prim (MlClientParameters.authType p)),
           (is_NaN_prim (MlClientParameters.apiKey p)),
           (is_NaN_prim (MlClientParameters.accessTokenDuration p)),
           (is_NaN_prim (MlClientParameters.pathToCa p)); reflexivity.
Qed.

(** C5 (amended).  [sameAs] is symmetric; an object none of whose fields
    compared with [===] alone holds NaN is the same as itself; the answer
    does not depend on the role ports and base paths of either object, so
    such an object is also the same as any copy of it with other role ports
    and base paths; and two ports that are both NaN count as equal ports,
    just as two equal finite ports do. *)
Theorem sameAs_relational :
  (forall p q, MlClientParameters.sameAs p q = MlClientParameters.sameAs q p) /\
  (forall p, has_NaN_compared p = false -> MlClientParameters.sameAs p p = true) /\
  (forall p q mp ap tp mb ab rb tb mp' ap' tp' mb' ab' rb' tb',
      MlClientParameters.sameAs
        (MlClientParameters.with_uncompared p mp ap tp mb ab rb tb)
        (MlClientParameters.with_uncompared q mp' ap' tp' mb' ab' rb' tb')
      = MlClientParameters.sameAs p q) /\
  (forall p mp ap tp mb ab rb tb,
      has_NaN_compared p = false ->
      MlClientParameters.sameAs p (MlClientParameters.with_uncompared p mp ap tp mb ab rb tb)
      = true) /\
  (forall p q z,
      MlClientParameters.sameAs (set_port p NaN) (set_port q NaN)
      = MlClientParameters.sameAs (set_port p (Num z)) (set_port q (Num z))).
Proof.
  split; [| split; [| split; [| split]]].
  - intros p q. unfold MlClientParameters.sameAs.
    rewrite port_eq_sym.
    rewrite (strict_eq_sym (MlClientParameters.host p)),
            (strict_eq_sym (MlClientParameters.contentDb p)),
            (strict_eq_sym (MlClientParameters.modulesDb p)),
            (strict_eq_sym (MlClientParameters.user p)),
            (strict_eq_sym (MlClientParameters.pwd p)),
            (strict_eq_sym (MlClientParameters.authType p)),
            (strict_eq_sym (MlClientParameters.apiKey p)),
            (strict_eq_sym (MlClientParameters.accessTokenDuration p)),
            (strict_eq_sym (MlClientParameters.pathToCa p)),
            (bool_eqb_sym (MlClientParameters.ssl p)),
            (bool_eqb_sym (MlClientParameters.rejectUnauthorized p)).
    reflexivity.
  - intros p Hp. rewrite sameAs_self, Hp. reflexivity.
  - intros. reflexivity.
  - intros p mp ap tp mb ab rb tb Hp.
    change (MlClientParameters.sameAs p p = true). rewrite sameAs_self, Hp. reflexivity.
  - intros p q z. unfold MlClientParameters.sameAs, set_port. cbn.
    rewrite Z.eqb_refl. reflexivity.
Qed.

(** The parameters read from the settings bag, against themselves and
    against a copy that reaches the manage role elsewhere. *)
Lemma sameAs_relational_witness :
  MlClientParameters.sameAs localParams localParams = true /\
  MlClientParameters.sameAs
    localParams
    (MlClientParameters.with_uncompared localParams (Num 9002) (Num 9001) NaN
       (PString "/m") (PString "/a") (PString "/r") (PString "/t")) = true.
Proof.
  split.
  - apply (proj1 (proj2 sameAs_relational) localParams). reflexivity.
  - apply (proj1 (proj2 (proj2 (proj2 sameAs_relational))) localParams). reflexivity.
Defined.

(** ** Auth scheme *)

Lemma normalize_authType_spec (schemes : list string) (a : JsPrim) :
  MlClientParameters.normalize_authType schemes a
  = if recognised schemes a then a else PString "DIGEST".
Proof.
  unfold MlClientParameters.normalize_authType, recognised, strict_neq.
  induction schemes as [|s rest IH]; simpl; [reflexivity|].
  destruct (strict_eq a (PString s)); simpl; [reflexivity|exact IH].
Qed.

Lemma recognised_In (schemes : list string) (a : JsPrim) :
  recognised schemes a = true -> In a (map PString schemes).
Proof.
  unfold recognised. rewrite existsb_exists. intros [s [Hin Heq]].
  apply strict_eq_string in Heq. subst a. now apply in_map.
Qed.

Lemma normalize_authType_In (schemes : list string) (a : JsPrim) :
  In "DIGEST" schemes ->
  In (MlClientParameters.normalize_authType schemes a) (map PString schemes).
Proof.
  intros HD. rewrite normalize_authType_spec.
  destruct (recognised schemes a) eqn:E.
  - now apply recognised_In.
  - now apply (in_map PString).
Qed.

(** C6, as stated, fails for [ClientFactory]: the recognised scheme CLOUD
    is not preserved by its constructor. *)
Lemma ClientFactory_drops_CLOUD :
  bag_get cloudBag "authType" = PString "CLOUD" /\
  ClientFactory.authType (ClientFactory.new decimalToNumber cloudBag)
  <> bag_get cloudBag "authType".
Proof. split; vm_compute; [reflexivity | discriminate]. Qed.

(** C6 (amended).  For every raw bag, the auth scheme of the constructed
    [MlClientParameters] is DIGEST, BASIC or CLOUD: the raw value when it is
    one of these three, DIGEST otherwise.  The auth scheme of the
    constructed [ClientFactory] is DIGEST or BASIC: the raw value when it is
    one of these two, DIGEST otherwise, so that CLOUD becomes DIGEST. *)
Theorem authType_normalised (StringToNumber : string -> JsNumber) (raw : Bag) :
  let a := bag_get raw "authType" in
  let mp := MlClientParameters.authType (MlClientParameters.new StringToNumber raw) in
  let cf := ClientFactory.authType (ClientFactory.new StringToNumber raw) in
  In mp [PString "DIGEST"; PString "BASIC"; PString "CLOUD"] /\
  mp = (if recognised ["DIGEST"; "BASIC"; "CLOUD"] a then a else PString "DIGEST") /\
  In cf [PString "DIGEST"; PString "BASIC"] /\
  cf = (if recognised ["DIGEST"; "BASIC"] a then a else PString "DIGEST") /\
  ClientFactory.authType
    (ClientFactory.new StringToNumber (<["authType" := PString "CLOUD"]> raw))
  = PString "DIGEST".
Proof.
  cbv zeta. cbn [MlClientParameters.authType MlClientParameters.new
                 ClientFactory.authType ClientFactory.new].
  repeat split.
  - apply (normalize_authType_In ["DIGEST"; "BASIC"; "CLOUD"]). now left.
  - apply normalize_authType_spec.
  - apply (normalize_authType_In ["DIGEST"; "BASIC"]). now left.
  - apply normalize_authType_spec.
  - unfold bag_get. rewrite lookup_insert_eq. reflexivity.
Qed.

(** ** Construction of a ClientContext writes to its parameter object *)

Lemma toUpperCase_recognised (s : string) :
  In s ["DIGEST"; "BASIC"; "CLOUD"] -> toUpperCase s = s.
Proof.
  simpl. intros [<- | [<- | [<- | []]]]; reflexivity.
Qed.

Lemma store_insert_same (h : Store) (r : Ref) (p q : MlClientParameters.t) :
  h !! r = Some p -> <[r := q]> h !! r = Some q.
Proof.
  intros H. apply list_lookup_insert_eq. eapply lookup_lt_Some; eauto.
Qed.

Lemma store_insert_twice (h : Store) (r : Ref) (p q1 q2 : MlClientParameters.t) :
  h !! r = Some p -> <[r := q2]> (<[r := q1]> h) !! r = Some q2.
Proof.
  intros H. apply (store_insert_same _ _ q1). eapply store_insert_same; eauto.
Qed.

(** The outcomes of the constructor and the store each leaves: a failure
    to read the CA file after the first write, and the library's refusal
    or the new context after both. *)
Lemma ClientContext_new_outcomes (fs : FileSystem) (ml : Library) (h : Store) (r : Ref)
      (p : MlClientParameters.t) (s : string) :
  h !! r = Some p ->
  MlClientParameters.authType p = PString s ->
  let p1 := ClientContext.set_authType p (PString (toUpperCase s)) in
  let p2 := if negb (prim_truthy (MlClientParameters.contentDb p))
            then ClientContext.set_contentDb p1 PNull else p1 in
  (exists e, ClientContext.new fs ml h r = (Throw e, <[r := p1]> h)) \/
  (exists e, ClientContext.new fs ml h r = (Throw e, <[r := p2]> (<[r := p1]> h))) \/
  (exists ctx, ClientContext.new fs ml h r = (Normal ctx, <[r := p2]> (<[r := p1]> h))).
Proof.
  intros Hr Ha p1 p2. unfold ClientContext.new. rewrite Hr, Ha. cbn [prim_toUpperCase].
  fold p1.
  destruct (prim_truthy (MlClientParameters.pathToCa p1)
            && strict_neq (MlClientParameters.pathToCa p1) (PString ""));
    [destruct (fs (MlClientParameters.pathToCa p1)) as [contents|m] |].
  - destruct (ml _); right; [left | right]; eexists; reflexivity.
  - left. eexists. reflexivity.
  - destruct (ml _); right; [left | right]; eexists; reflexivity.
Qed.

(** C7, as stated, fails: constructing a [ClientContext] over a parameter
    object whose content database is empty replaces that field, in the
    object itself, by [null]. *)
Lemma ClientContext_new_mutates_params :
  MlClientParameters.contentDb noDbParams = PString "" /\
  MlClientParameters.contentDb
    <$> (snd (ClientContext.new noFiles needsCredentials [noDbParams] 0) !! 0)
  = Some PNull.
Proof. split; vm_compute; reflexivity. Qed.

(** C7 (amended).  Constructing a [ClientContext] over a parameter object
    whose auth scheme is a string leaves, in every outcome, all fields of
    the object as they were except [authType] and [contentDb]: [authType]
    receives its upper-cased value, which is the old value for DIGEST,
    BASIC and CLOUD; a non-empty (truthy) [contentDb] is kept, and an empty
    one is replaced by [null] whenever the construction succeeds.  No other
    object of the store is touched. *)
Theorem ClientContext_new_frame (fs : FileSystem) (ml : Library) (h : Store) (r : Ref)
        (p : MlClientParameters.t) (s : string) :
  h !! r = Some p ->
  MlClientParameters.authType p = PString s ->
  exists q,
    snd (ClientContext.new fs ml h r) !! r = Some q /\
    same_but_authType_contentDb p q /\
    MlClientParameters.authType q = PString (toUpperCase s) /\
    (In s ["DIGEST"; "BASIC"; "CLOUD"] ->
     MlClientParameters.authType q = MlClientParameters.authType p) /\
    (prim_truthy (MlClientParameters.contentDb p) = true ->
     MlClientParameters.contentDb q = MlClientParameters.contentDb p) /\
    (prim_truthy (MlClientParameters.contentDb p) = false ->
     forall ctx, fst (ClientContext.new fs ml h r) = Normal ctx ->
                 MlClientParameters.contentDb q = PNull) /\
    (forall r', r' <> r -> snd (ClientContext.new fs ml h r) !! r' = h !! r').
Proof.
  intros Hr Ha.
  assert (Hup : In s ["DIGEST"; "BASIC"; "CLOUD"] ->
                PString (toUpperCase s) = MlClientParameters.authType p).
  { intros Hin. rewrite Ha, (toUpperCase_recognised s Hin). reflexivity. }
  destruct (ClientContext_new_outcomes fs ml h r p s Hr Ha)
    as [[e He] | [[e He] | [ctx He]]]; rewrite He; cbn [fst snd].
  1: { eexists. split; [eapply store_insert_same; eauto|].
       split; [destruct p; reflexivity|].
       split; [reflexivity|].
       split; [exact Hup|].
       split; [reflexivity|].
       split; [discriminate|].
       intros r' Hne. apply list_lookup_insert_ne. congruence. }
  all: eexists; (split; [eapply store_insert_twice; eauto|]);
    destruct (prim_truthy (MlClientParameters.contentDb p)) eqn:Edb; cbn [negb].
  all: split; [destruct p; reflexivity|];
    (split; [reflexivity|]); (split; [exact Hup|]).
  all: try (split; [reflexivity|]; split; [discriminate|]).
  all: try (split; [discriminate|]; split; [reflexivity|]).
  all: intros r' Hne; rewrite !list_lookup_insert_ne by congruence; reflexivity.
Qed.

(** The construction at a concrete store: the parameter object of a
    connection to the Documents database, read from a settings bag. *)
Lemma ClientContext_new_frame_witness :
  let p := MlClientParameters.new decimalToNumber localBag in
  exists q,
    snd (ClientContext.new noFiles needsCredentials [p] 0) !! 0 = Some q /\
    same_but_authType_contentDb p q /\
    MlClientParameters.authType q = PString (toUpperCase "DIGEST") /\
    (In "DIGEST" ["DIGEST"; "BASIC"; "CLOUD"] ->
     MlClientParameters.authType q = MlClientParameters.authType p) /\
    (prim_truthy (MlClientParameters.contentDb p) = true ->
     MlClientParameters.contentDb q = MlClientParameters.contentDb p) /\
    (prim_truthy (MlClientParameters.contentDb p) = false ->
     forall ctx, fst (ClientContext.new noFiles needsCredentials [p] 0) = Normal ctx ->
                 MlClientParameters.contentDb q = PNull) /\
    (forall r', r' <> 0 ->
                snd (ClientContext.new noFiles needsCredentials [p] 0) !! r' = [p] !! r').
Proof.
  intros p.
  exact (ClientContext_new_frame noFiles needsCredentials [p] 0 p "DIGEST" eq_refl eq_refl).
Defined.

(** ** Role derivations of the ClientFactory *)

(** Overrides win: a key of the overrides hides the same key of the
    derived configuration, even when its value is [undefined]. *)
Lemma spread_get (a b : Bag) (key : string) :
  bag_get (spread a b) key
  = match b !! key with Some v => v | None => bag_get a key end.
Proof.
  unfold bag_get, spread. rewrite lookup_union.
  destruct (b !! key), (a !! key); reflexivity.
Qed.

Lemma ClientFactory_authType_upper (StringToNumber : string -> JsNumber) (raw : Bag) :
  prim_toUpperCase (ClientFactory.authType (ClientFactory.new StringToNumber raw))
  = Normal (ClientFactory.authType (ClientFactory.new StringToNumber raw)).
Proof.
  cbn [ClientFactory.authType ClientFactory.new].
  destruct (normalize_authType_In ["DIGEST"; "BASIC"] (bag_get raw "authType"))
    as [H | [H | []]]; [now left | |]; rewrite <- H; reflexivity.
Qed.

(** A factory built by the constructor derives each role without
    throwing: the result is the constructor applied to the role's
    configuration overlaid with the overrides. *)
Lemma role_derivations (StringToNumber : string -> JsNumber) (raw overrides : Bag) :
  let this := ClientFactory.new StringToNumber raw in
  ClientFactory.newRestClientParams StringToNumber this overrides
  = Normal (ClientFactory.new StringToNumber
              (spread (ClientFactory.configParams this (ClientFactory.port this)
                         (ClientFactory.restBasePath this) (ClientFactory.database this)
                         (ClientFactory.modulesDb this) (ClientFactory.authType this))
                      overrides)) /\
  ClientFactory.newManageClientParams StringToNumber this overrides
  = Normal (ClientFactory.new StringToNumber
              (spread (ClientFactory.configParams this (ClientFactory.managePort this)
                         (ClientFactory.manageBasePath this) PNull PNull
                         (ClientFactory.authType this))
                      overrides)) /\
  ClientFactory.newTestClientParams StringToNumber this overrides
  = Normal (ClientFactory.new StringToNumber
              (spread (ClientFactory.configParams this (ClientFactory.testPort this)
                         (ClientFactory.testBasePath this) PNull PNull
                         (ClientFactory.authType this))
                      overrides)).
Proof.
  intros this.
  unfold ClientFactory.newRestClientParams, ClientFactory.newManageClientParams,
    ClientFactory.newTestClientParams.
  unfold this. rewrite ClientFactory_authType_upper. cbn [bind]. auto.
Qed.

Lemma prim_or_empty_idem (a : JsPrim) :
  prim_or (prim_or a (PString "")) (PString "") = prim_or a (PString "").
Proof. unfold prim_or. destruct (prim_truthy a) eqn:E; [rewrite E|]; reflexivity. Qed.

(** The shared fields reach each derived role when the overrides leave
    them alone. *)
Lemma role_shared_fields (StringToNumber : string -> JsNumber) (raw overrides : Bag)
      (rp : JsNumber) (rb rd rm : JsPrim) :
  let this := ClientFactory.new StringToNumber raw in
  let f := ClientFactory.new StringToNumber
             (spread (ClientFactory.configParams this rp rb rd rm (ClientFactory.authType this))
                     overrides) in
  (overrides !! "host" = None -> ClientFactory.host f = ClientFactory.host this) /\
  (overrides !! "user" = None -> ClientFactory.user f = ClientFactory.user this) /\
  (overrides !! "password" = None -> ClientFactory.password f = ClientFactory.password this) /\
  (overrides !! "ssl" = None -> ClientFactory.ssl f = ClientFactory.ssl this) /\
  (overrides !! "pathToCa" = None -> ClientFactory.pathToCa f = ClientFactory.pathToCa this) /\
  (overrides !! "rejectUnauthorized" = None ->
   ClientFactory.rejectUnauthorized f = ClientFactory.rejectUnauthorized this) /\
  (overrides !! "port" = None -> ClientFactory.port f = rp) /\
  (overrides !! "basePath" = None -> ClientFactory.basePath f = prim_or rb (PString "")) /\
  (overrides !! "modulesDb" = None -> ClientFactory.modulesDb f = prim_or rm (PString "")).
Proof.
  intros this f. unfold f.
  cbn [ClientFactory.new ClientFactory.host ClientFactory.user ClientFactory.password
       ClientFactory.ssl ClientFactory.pathToCa ClientFactory.rejectUnauthorized
       ClientFactory.port ClientFactory.basePath ClientFactory.modulesDb].
  rewrite !spread_get.
  repeat split; intros ->; try reflexivity.
  - unfold this. cbn [ClientFactory.pathToCa ClientFactory.new].
    change (bag_get (ClientFactory.configParams _ _ _ _ _ _) "pathToCa")
      with (prim_or (prim_or (bag_get raw "pathToCa") (PString "")) (PString "")).
    now rewrite !prim_or_empty_idem.
Qed.

(** Whatever the base factory holds, a role whose configuration sets both
    database entries to [null] ends with empty database names, unless the
    overrides name a database. *)
Lemma cleared_role_databases (StringToNumber : string -> JsNumber) (this : ClientFactory.t)
      (overrides : Bag) (rp : JsNumber) (rb ua : JsPrim) :
  overrides !! "contentDb" = None ->
  overrides !! "documentsDb" = None ->
  overrides !! "modulesDb" = None ->
  let f := ClientFactory.new StringToNumber
             (spread (ClientFactory.configParams this rp rb PNull PNull ua) overrides) in
  ClientFactory.database f = PString "" /\ ClientFactory.modulesDb f = PString "".
Proof.
  intros H1 H2 H3 f. unfold f.
  cbn [ClientFactory.new ClientFactory.database ClientFactory.modulesDb].
  rewrite !spread_get, H1, H2, H3. split; reflexivity.
Qed.

(** The REST role's configuration names the content database under the
    key [database], which the constructor does not read: whatever the base
    factory holds, the derived factory has no content database unless an
    override names one under [contentDb] or [documentsDb]. *)
Lemma rest_role_database (StringToNumber : string -> JsNumber) (this : ClientFactory.t)
      (overrides : Bag) (rp : JsNumber) (rb rd rm ua : JsPrim) :
  overrides !! "contentDb" = None ->
  overrides !! "documentsDb" = None ->
  ClientFactory.database
    (ClientFactory.new StringToNumber
       (spread (ClientFactory.configParams this rp rb rd rm ua) overrides))
  = PString "".
Proof.
  intros H1 H2.
  cbn [ClientFactory.new ClientFactory.database].
  rewrite !spread_get, H1, H2. reflexivity.
Qed.

(** C8.  The code at the failing input: the factory is built from a bag
    that selects the content database Documents and the modules database
    Modules; the parameters derived for the REST role, with no overrides,
    keep the modules database and have lost the content database (and the
    role's base path is the never-assigned [restBasePath]). *)
Theorem newRestClientParams_loses_database :
  ClientFactory.database localFactory = PString "Documents" /\
  ClientFactory.restBasePath localFactory = PUndefined /\
  exists f,
    ClientFactory.newRestClientParams decimalToNumber localFactory ∅ = Normal f /\
    ClientFactory.database f = PString "" /\
    ClientFactory.modulesDb f = PString "Modules" /\
    ClientFactory.port f = Num 8000 /\
    ClientFactory.host f = PString "localhost".
Proof.
  split; [vm_compute; reflexivity|].
  split; [vm_compute; reflexivity|].
  eexists. split; [vm_compute; reflexivity|].
  repeat split.
Qed.

(** ** sendRows *)

(** C9.  A query text that does not begin with an opening brace goes out
    as a DSL query.  One that does goes to the serialized path: when it
    parses (to an object, as any well-formed text beginning with a brace
    does) the parsed value goes out as a JSON query; when [JSON.parse]
    throws, nothing is sent and [sendRows] returns a promise fulfilled with
    empty columns, empty rows and the message of the parse error. *)
Theorem sendRows_paths (JSON_parse : string -> Completion JsValue) (srv : Server)
        (ctx : ClientContext.t) (actualQuery resultFormat : string) (w : World) :
  (String.prefix "{" actualQuery = false ->
   sendRows JSON_parse srv ctx actualQuery resultFormat w
   = rowsQueryCall srv ctx (JStr actualQuery) "dsl" resultFormat w) /\
  (String.prefix "{" actualQuery = true ->
   sendRows JSON_parse srv ctx actualQuery resultFormat w
   = sendRowsSerialized JSON_parse srv ctx actualQuery resultFormat w) /\
  (String.prefix "{" actualQuery = true ->
   forall fields, JSON_parse actualQuery = Normal (JObject fields) ->
   sendRows JSON_parse srv ctx actualQuery resultFormat w
   = rowsQueryCall srv ctx (JObject fields) "json" resultFormat w) /\
  (String.prefix "{" actualQuery = true ->
   forall err message,
     JSON_parse actualQuery = Throw err ->
     js_field err "message" = Normal message ->
     sendRows JSON_parse srv ctx actualQuery resultFormat w
     = (Normal (Fulfilled (JObject [("columns", JArray []);
                                    ("rows", JArray []);
                                    ("preRequestError", message)])), w)).
Proof.
  unfold sendRows, rowsQueryCall.
  split; [| split; [| split]].
  - intros ->. reflexivity.
  - intros ->. reflexivity.
  - intros -> fields Hp. unfold sendRowsSerialized. rewrite Hp. reflexivity.
  - intros -> err message Hp Hm. unfold sendRowsSerialized. rewrite Hp.
    cbn [truthy prim_truthy]. rewrite Hm. reflexivity.
Qed.

(** Three queries: a DSL query, the empty JSON object, and a text cut
    short after its opening brace. *)
Lemma sendRows_paths_witness :
  sendRows strictParse silentServer localContext "op.fromView('main', 'employees')" "json"
           emptyWorld
  = rowsQueryCall silentServer localContext (JStr "op.fromView('main', 'employees')")
                  "dsl" "json" emptyWorld /\
  sendRows strictParse silentServer localContext "{}" "json" emptyWorld
  = rowsQueryCall silentServer localContext (JObject []) "json" "json" emptyWorld /\
  sendRows strictParse silentServer localContext "{ $optic" "json" emptyWorld
  = (Normal (Fulfilled (JObject [("columns", JArray []);
                                 ("rows", JArray []);
                                 ("preRequestError", JStr "Unexpected end of JSON input")])),
     emptyWorld).
Proof.
  split; [| split].
  - exact (proj1 (sendRows_paths strictParse silentServer localContext
                    "op.fromView('main', 'employees')" "json" emptyWorld) eq_refl).
  - exact (proj1 (proj2 (proj2 (sendRows_paths strictParse silentServer localContext
                    "{}" "json" emptyWorld))) eq_refl [] eq_refl).
  - exact (proj2 (proj2 (proj2 (sendRows_paths strictParse silentServer localContext
                    "{ $optic" "json" emptyWorld))) eq_refl _ _ eq_refl eq_refl).
Defined.

(** ** MLRuntime.waitTillPaused *)

Lemma is_string_empty (v : JsValue) : is_string v "" = true <-> v = JStr "".
Proof.
  destruct v as [[| | | |s]| |]; simpl; split; try discriminate; try congruence.
  - intros H. apply String.eqb_eq in H. subst s. reflexivity.
  - intros H. inversion H. reflexivity.
Qed.

Lemma wait_sends_poll (srv : Server) (this : MLRuntime.t) (w : World) :
  MLRuntime.wait srv this w
  = (srv (length (sent w)) (waitPoll this), with_sent w (sent w ++ [waitPoll this])).
Proof. reflexivity. Qed.

(** C3.  Against a server that answers the next [N] polls with the empty
    string and the poll after them with anything else, a payload or a
    failure, [waitTillPaused] settles with that very answer (it fulfils
    with the payload, it rejects with the error) after exactly [N + 1]
    calls of [wait], and sends nothing else.  Any bound on the number of
    polls above [N] is enough. *)
Theorem waitTillPaused_polls (srv : Server) (this : MLRuntime.t) (N : nat)
        (answer : Settled JsValue) :
  forall (w : World),
  (forall k, (k < N)%nat ->
             srv (length (sent w) + k)%nat (waitPoll this) = Fulfilled (JStr "")) ->
  srv (length (sent w) + N)%nat (waitPoll this) = answer ->
  answer <> Fulfilled (JStr "") ->
  forall fuel, (N < fuel)%nat ->
    MLRuntime.waitTillPaused srv fuel this w
    = (Some answer, with_sent w (sent w ++ repeat (waitPoll this) (S N))).
Proof.
  induction N as [|n IH]; intros w Hempty Hanswer Hne fuel Hfuel;
    (destruct fuel as [|fuel']; [lia|]);
    cbn [MLRuntime.waitTillPaused]; rewrite wait_sends_poll.
  - rewrite Nat.add_0_r in Hanswer. rewrite Hanswer.
    destruct answer as [result|e]; [|reflexivity].
    destruct (is_string result "") eqn:E; [|reflexivity].
    apply is_string_empty in E. congruence.
  - assert (H0 : srv (length (sent w)) (waitPoll this) = Fulfilled (JStr "")).
    { rewrite <- (Nat.add_0_r (length (sent w))). apply Hempty. lia. }
    rewrite H0. cbn [is_string JStr]. cbn.
    rewrite (IH (with_sent w (sent w ++ [waitPoll this]))).
    + unfold with_sent. cbn. rewrite <- app_assoc. reflexivity.
    + intros k Hk. cbn. rewrite length_app. cbn.
      replace (length (sent w) + 1 + k)%nat with (length (sent w) + S k)%nat by lia.
      apply Hempty. lia.
    + cbn. rewrite length_app. cbn.
      replace (length (sent w) + 1 + n)%nat with (length (sent w) + S n)%nat by lia.
      exact Hanswer.
    + exact Hne.
    + lia.
Qed.

(** Three empty answers and then a payload: four polls. *)
Lemma waitTillPaused_polls_witness :
  MLRuntime.waitTillPaused pauseAfterThree 4 MLRuntime.new emptyWorld
  = (Some (Fulfilled (JStr "stopped")),
     with_sent emptyWorld (repeat (waitPoll MLRuntime.new) 4)).
Proof.
  apply (waitTillPaused_polls pauseAfterThree MLRuntime.new 3 (Fulfilled (JStr "stopped"))
                              emptyWorld).
  - intros k Hk. destruct k as [|[|[|k]]]; [reflexivity | reflexivity | reflexivity | lia].
  - reflexivity.
  - discriminate.
  - lia.
Defined.

(** ** terminate *)

(** C2, as stated, fails in both runtimes: a launched runtime is still
    ['launched'] after [terminate], whether the remote call succeeds or
    fails.  In each of the four runs the cancellation call went out, alone,
    and came back with the server's answer. *)
Lemma terminate_leaves_launched :
  let js := MLRuntime.setRunTimeState MLRuntime.new launched in
  (let '(r, this', w') := MLRuntime.terminate ridServer js emptyWorld in
   r = Fulfilled (JStr "4242") /\ length (sent w') = 1%nat /\
   MLRuntime.getRunTimeState this' <> shutdown) /\
  (let '(r, this', w') := MLRuntime.terminate refusingServer js emptyWorld in
   r = Rejected (JObject [("code", JStr "ECONNREFUSED")]) /\ length (sent w') = 1%nat /\
   MLRuntime.getRunTimeState this' <> shutdown) /\
  XqyRuntime.getRunTimeState sessionXqy = launched /\
  (let '(r, this', w') := XqyRuntime.terminate rowServer sessionXqy localWorld in
   (exists answer, r = Normal (Fulfilled answer)) /\ length (sent w') = 1%nat /\
   XqyRuntime.getRunTimeState this' <> shutdown) /\
  (let '(r, this', w') := XqyRuntime.terminate refusingServer sessionXqy localWorld in
   r = Normal (Rejected (JObject [("code", JStr "ECONNREFUSED")])) /\
   length (sent w') = 1%nat /\
   XqyRuntime.getRunTimeState this' <> shutdown).
Proof.
  cbv zeta. split; [|split; [|split; [|split]]].
  - vm_compute. split; [reflexivity|]. split; [reflexivity | discriminate].
  - vm_compute. split; [reflexivity|]. split; [reflexivity | discriminate].
  - reflexivity.
  - vm_compute. split; [eexists; reflexivity|]. split; [reflexivity | discriminate].
  - vm_compute. split; [reflexivity|]. split; [reflexivity | discriminate].
Qed.

(** C2 (amended).  In both runtimes [terminate] leaves the runtime as it
    was, state and session id included, whatever the remote call does.
    [MLRuntime.terminate] sends exactly the cancellation request and returns
    the server's answer to it.  [XqyRuntime.terminate], once the runtime
    has its client, sends exactly one request through that client, the
    evaluation of the disconnect call, and returns the server's answer to
    it; with no client it throws and nothing is sent. *)
Theorem terminate_frame (srv : Server) (js : MLRuntime.t) (xq : XqyRuntime.t) (w : World) :
  snd (fst (MLRuntime.terminate srv js w)) = js /\
  MLRuntime.getRunTimeState (snd (fst (MLRuntime.terminate srv js w)))
  = MLRuntime.getRunTimeState js /\
  fst (fst (MLRuntime.terminate srv js w)) = srv (length (sent w)) (cancelRequest js) /\
  sent (snd (MLRuntime.terminate srv js w)) = sent w ++ [cancelRequest js] /\
  snd (fst (XqyRuntime.terminate srv xq w)) = xq /\
  XqyRuntime.getRunTimeState (snd (fst (XqyRuntime.terminate srv xq w)))
  = XqyRuntime.getRunTimeState xq /\
  (forall c p,
      XqyRuntime._mlClient xq = Some c ->
      store w !! ClientContext.params c = Some p ->
      exists query extVars,
        let req := XqueryEval (ClientContext.databaseClient c) query extVars in
        XqyRuntime.terminate srv xq w
        = (Normal (srv (length (sent w)) req), xq, with_sent w (sent w ++ [req])) /\
        assoc "actualQuery" extVars = JStr disconnectQuery) /\
  (XqyRuntime._mlClient xq = None ->
   exists e, XqyRuntime.terminate srv xq w = (Throw e, xq, w)).
Proof.
  split; [reflexivity|]. split; [reflexivity|]. split; [reflexivity|].
  split; [reflexivity|].
  assert (Hframe : snd (fst (XqyRuntime.terminate srv xq w)) = xq).
  { unfold XqyRuntime.terminate.
    destruct (XqyRuntime.sendXQuery' srv xq "dbg:disconnent(xdmp:server())" "xdmp" w).
    reflexivity. }
  split; [exact Hframe|]. split; [now rewrite Hframe|]. split.
  - intros c p Hc Hp. unfold XqyRuntime.terminate, XqyRuntime.sendXQuery', sendXQuery, send.
    rewrite Hc, Hp. eexists. eexists. split; reflexivity.
  - intros Hc. unfold XqyRuntime.terminate, XqyRuntime.sendXQuery'. rewrite Hc.
    eexists. reflexivity.
Qed.

(** A launched session whose server refuses the disconnect call, and a
    runtime that was never given a client. *)
Lemma terminate_frame_witness :
  (exists query extVars,
      XqyRuntime.terminate refusingServer sessionXqy localWorld
      = (Normal (Rejected (JObject [("code", JStr "ECONNREFUSED")])), sessionXqy,
         with_sent localWorld
           [XqueryEval (ClientContext.databaseClient localContext) query extVars]) /\
      assoc "actualQuery" extVars = JStr "dbg:disconnent(xdmp:server())") /\
  (exists e, XqyRuntime.terminate refusingServer XqyRuntime.new localWorld
             = (Throw e, XqyRuntime.new, localWorld)).
Proof.
  pose proof (terminate_frame refusingServer MLRuntime.new sessionXqy localWorld) as H1.
  pose proof (terminate_frame refusingServer MLRuntime.new XqyRuntime.new localWorld) as H2.
  split.
  - destruct H1 as (_ & _ & _ & _ & _ & _ & H & _).
    exact (H localContext localParams eq_refl eq_refl).
  - destruct H2 as (_ & _ & _ & _ & _ & _ & _ & H).
    exact (H eq_refl).
Defined.

(** ** launch *)

(** C1, as stated, fails for [MLRuntime]: when the dispatch fails the
    runtime is ['launched'], not ['error'], and when it succeeds the
    session id is still empty. *)
Lemma MLRuntime_launch_neither_error_nor_rid :
  (fst (fst (MLRuntime.launchWithDebugEval refusingServer oneScript noEscape
                                           MLRuntime.new "/scripts/main.sjs" emptyWorld))
   = Normal (Rejected (JObject [("code", JStr "ECONNREFUSED")])) /\
   MLRuntime.getRunTimeState
     (snd (fst (MLRuntime.launchWithDebugEval refusingServer oneScript noEscape
                                              MLRuntime.new "/scripts/main.sjs" emptyWorld)))
   <> error) /\
  (fst (fst (MLRuntime.launchWithDebugEval ridServer oneScript noEscape
                                           MLRuntime.new "/scripts/main.sjs" emptyWorld))
   = Normal (Fulfilled (JStr "4242")) /\
   MLRuntime.getRid
     (snd (fst (MLRuntime.launchWithDebugEval ridServer oneScript noEscape
                                              MLRuntime.new "/scripts/main.sjs" emptyWorld)))
   = JStr "").
Proof.
  split; split; vm_compute; try reflexivity; discriminate.
Qed.

(** C1 (amended).  [XqyRuntime]: when the dispatch through the [dbg]
    entry point fulfils with at least one result row, the runtime becomes
    ['launched'] and its session id is the first row's value; when the
    dispatch is rejected, the runtime becomes ['error'] and its session id
    is left as it was (empty on a fresh runtime).  [MLRuntime]: the script
    is read and sent to the debug-evaluation endpoint, and the outcome of
    that dispatch is returned to the caller; on a successful dispatch the
    runtime is ['launched']; the launch itself never changes the session
    id. *)
Theorem launchWithDebugEval_transitions (srv : Server) :
  (forall (this : XqyRuntime.t) (c : ClientContext.t) (query : string) (w w1 : World),
      XqyRuntime._mlClient this = Some c ->
      (forall row rest rid,
          sendXQuery srv c query "dbg" w = (Normal (Fulfilled (JArray (row :: rest))), w1) ->
          js_field row "value" = Normal rid ->
          let '(r, this', w') := XqyRuntime.launchWithDebugEval srv this query w in
          r = Normal (Fulfilled undefined) /\ w' = w1 /\
          XqyRuntime.getRunTimeState this' = launched /\
          XqyRuntime.getRid this' = rid) /\
      (forall e,
          sendXQuery srv c query "dbg" w = (Normal (Rejected e), w1) ->
          let '(r, this', w') := XqyRuntime.launchWithDebugEval srv this query w in
          r = Normal (Fulfilled undefined) /\ w' = w1 /\
          XqyRuntime.getRunTimeState this' = error /\
          XqyRuntime.getRid this' = XqyRuntime.getRid this)) /\
  (forall (fs : FileSystem) (escape : string -> string) (this : MLRuntime.t)
          (scriptLocation script : string) (w : World),
      fs (PString scriptLocation) = FsOk script ->
      let '(r, this', w') :=
        MLRuntime.launchWithDebugEval srv fs escape this scriptLocation w in
      r = Normal (srv (length (sent w)) (evalRequest escape this script)) /\
      sent w' = sent w ++ [evalRequest escape this script] /\
      MLRuntime.getRid this' = MLRuntime.getRid this /\
      (forall payload, r = Normal (Fulfilled payload) ->
                       MLRuntime.getRunTimeState this' = launched)).
Proof.
  split.
  - intros this c query w w1 Hc. split.
    + intros row rest rid Hs Hv. unfold XqyRuntime.launchWithDebugEval, XqyRuntime.sendXQuery'.
      rewrite Hc, Hs. cbn [js_index nth bind]. rewrite Hv. repeat split.
    + intros e Hs. unfold XqyRuntime.launchWithDebugEval, XqyRuntime.sendXQuery'.
      rewrite Hc, Hs. repeat split.
  - intros fs escape this loc script w Hfs. unfold MLRuntime.launchWithDebugEval.
    rewrite Hfs. repeat split.
Qed.

(** A launch answered with one row, a launch refused, and a launch of the
    other dialect answered with a request id. *)
Lemma launchWithDebugEval_transitions_witness :
  (let '(r, this', w') := XqyRuntime.launchWithDebugEval rowServer localXqy "1 + 1" localWorld in
   XqyRuntime.getRunTimeState this' = launched /\
   XqyRuntime.getRid this' = JPrim (PNumber (Num 42))) /\
  (let '(r, this', w') :=
     XqyRuntime.launchWithDebugEval refusingServer localXqy "1 + 1" localWorld in
   XqyRuntime.getRunTimeState this' = error /\
   XqyRuntime.getRid this' = JStr "") /\
  (let '(r, this', w') :=
     MLRuntime.launchWithDebugEval ridServer oneScript noEscape MLRuntime.new
                                   "/scripts/main.sjs" emptyWorld in
   r = Normal (Fulfilled (JStr "4242")) /\
   MLRuntime.getRunTimeState this' = launched /\
   MLRuntime.getRid this' = JStr "").
Proof.
  split; [| split].
  - pose proof (proj1 (proj1 (launchWithDebugEval_transitions rowServer)
                         localXqy localContext "1 + 1" localWorld _ eq_refl)
                      _ _ _ eq_refl eq_refl) as H.
    destruct (XqyRuntime.launchWithDebugEval rowServer localXqy "1 + 1" localWorld)
      as [[r this'] w'].
    destruct H as (_ & _ & H1 & H2). split; assumption.
  - pose proof (proj2 (proj1 (launchWithDebugEval_transitions refusingServer)
                         localXqy localContext "1 + 1" localWorld _ eq_refl)
                      _ eq_refl) as H.
    destruct (XqyRuntime.launchWithDebugEval refusingServer localXqy "1 + 1" localWorld)
      as [[r this'] w'].
    destruct H as (_ & _ & H1 & H2). split; assumption.
  - pose proof (proj2 (launchWithDebugEval_transitions ridServer)
                      oneScript noEscape MLRuntime.new "/scripts/main.sjs" "1 + 1"
                      emptyWorld eq_refl) as H.
    destruct (MLRuntime.launchWithDebugEval ridServer oneScript noEscape MLRuntime.new
                                            "/scripts/main.sjs" emptyWorld)
      as [[r this'] w'].
    destruct H as (H1 & _ & H2 & H3). split; [exact H1|]. split; [|exact H2].
    apply (H3 (JStr "4242")). exact H1.
Defined.

(** ** Breakpoints of the XqyRuntime *)

(** C4.  The code at the failing input: the server answers the lookup
    with an array of result rows, as [xqueryEval] does.  The lookup's
    handler reads [fulfill['value'][0]], and an array has no [value]
    property, so the handler throws: both calls of [setBreakPoint] are
    rejected with a TypeError, the breakpoint's [expr] is still undefined,
    two lookups were sent and no set call at all. *)
Theorem setBreakPoint_twice_on_rows :
  let '(r1, w1) := XqyRuntime.setBreakPoint rowServer sessionXqy 0 breakWorld in
  let '(r2, w2) := XqyRuntime.setBreakPoint rowServer sessionXqy 0 w1 in
  r1 = Normal (Rejected (TypeError "Cannot read properties of undefined (reading '0')")) /\
  r2 = r1 /\
  bp_expr <$> (breakpoints w2 !! 0) = Some undefined /\
  count_calls is_lookup_call w2 = 2%nat /\
  count_calls is_set_call w2 = 0%nat /\
  map actualQuery_of (sent w2)
  = ["dbg:line(42, /app/main.xqy, 12)"; "dbg:line(42, /app/main.xqy, 12)"].
Proof. vm_compute. repeat split. Qed.

(** The same holds for [removeBreakPoint]: no clear call is sent. *)
Example removeBreakPoint_on_rows :
  let '(r1, w1) := XqyRuntime.removeBreakPoint rowServer sessionXqy 0 breakWorld in
  r1 = Normal (Rejected (TypeError "Cannot read properties of undefined (reading '0')")) /\
  bp_expr <$> (breakpoints w1 !! 0) = Some undefined /\
  count_calls is_lookup_call w1 = 1%nat /\
  count_calls is_clear_call w1 = 0%nat.
Proof. vm_compute. repeat split. Qed.

(** What the handler expects: were the answer an object carrying the rows
    under [value], the id would be cached and the two calls would send one
    lookup and two set calls. *)
Example setBreakPoint_twice_on_object :
  let '(r1, w1) := XqyRuntime.setBreakPoint objectServer sessionXqy 0 breakWorld in
  let '(r2, w2) := XqyRuntime.setBreakPoint objectServer sessionXqy 0 w1 in
  r1 = Normal (Fulfilled undefined) /\
  r2 = Normal (Fulfilled undefined) /\
  bp_expr <$> (breakpoints w2 !! 0) = Some (JPrim (PNumber (Num 7))) /\
  map actualQuery_of (sent w2)
  = ["dbg:line(42, /app/main.xqy, 12)"; "dbg:break(42, 7)"; "dbg:break(42, 7)"].
Proof. vm_compute. repeat split. Qed.

(** Whatever the rows are, an answer that is an array never resolves the
    expression id. *)
Lemma findBreakPointExpr_on_array (srv : Server) (this : XqyRuntime.t) (location : Ref)
      (w w1 : World) (bp : XqyBreakPoint) (c : ClientContext.t) (rows : list JsValue) :
  breakpoints w !! location = Some bp ->
  XqyRuntime._mlClient this = Some c ->
  sendXQuery srv c (XqyRuntime.lineQuery this bp) "xdmp" w = (Normal (Fulfilled (JArray rows)), w1) ->
  XqyRuntime.findBreakPointExpr srv this location w
  = (Normal (Rejected (TypeError "Cannot read properties of undefined (reading '0')")), w1).
Proof.
  intros Hbp Hc Hs. unfold XqyRuntime.findBreakPointExpr, XqyRuntime.sendXQuery'.
  rewrite Hbp, Hc, Hs. reflexivity.
Qed.

(** So for every breakpoint whose expression id is unresolved, a lookup
    answered with an array ends [setBreakPoint] and [removeBreakPoint]
    there: the promise is rejected and the lookup is the last request
    sent. *)
Lemma resolveThenAct_on_array (srv : Server) (action : XqyRuntime.t -> JsValue -> string)
      (this : XqyRuntime.t) (location : Ref)
      (w w1 : World) (bp : XqyBreakPoint) (c : ClientContext.t) (rows : list JsValue) :
  breakpoints w !! location = Some bp ->
  truthy (bp_expr bp) = false ->
  XqyRuntime._mlClient this = Some c ->
  sendXQuery srv c (XqyRuntime.lineQuery this bp) "xdmp" w = (Normal (Fulfilled (JArray rows)), w1) ->
  XqyRuntime.resolveThenAct srv action this location w
  = (Normal (Rejected (TypeError "Cannot read properties of undefined (reading '0')")), w1).
Proof.
  intros Hbp Hexpr Hc Hs. unfold XqyRuntime.resolveThenAct.
  rewrite Hbp, Hexpr. cbn [negb].
  rewrite (findBreakPointExpr_on_array srv this location w w1 bp c rows Hbp Hc Hs).
  reflexivity.
Qed.

(** ** Server discovery *)

(** C10.  The code at the failing input: of two candidates, the probe of
    the second fails at the transport level, with an error that has no
    [body].  The probe's [catch] handler reads [error.body.errorResponse]
    and throws, the probe's promise is rejected, and so is the whole
    enumeration: [filterJsServerByConnectedStatus] does not return the
    first candidate, and [getConnectedServers], which runs the filter
    first, returns no list either. *)
Theorem discovery_fails_on_bodyless_probe_error :
  fst (filterJsServerByConnectedStatus decimalToNumber noFiles needsCredentials
         (discoveryServer connectionRefused) inOrder localFactory
         [choiceA; choiceB] "true" emptyWorld)
  = Rejected (TypeError "Cannot read properties of undefined (reading 'errorResponse')") /\
  fst (getConnectedServers decimalToNumber noFiles needsCredentials
         (discoveryServer connectionRefused) inOrder localContext (Some quietCallback)
         (Num 8002) (PString "") localWorld)
  = Rejected (TypeError "Cannot read properties of undefined (reading 'errorResponse')").
Proof. split; vm_compute; reflexivity. Qed.

(** With an error that carries a body the same enumeration goes through:
    the failed probe is logged and App-B dropped, the refused name lookup
    of session 222 leaves no entry, and the list is delivered. *)
Example discovery_with_error_bodies :
  let '(r, w) := getConnectedServers decimalToNumber noFiles needsCredentials
                   (discoveryServer notFound) inOrder localContext (Some quietCallback)
                   (Num 8002) (PString "") localWorld in
  r = Fulfilled ["XQY:Alpha"; "JS:App-A"] /\
  console w = [JObject [("status", JStr "Not Found")]] /\
  delivered w = [["XQY:Alpha"; "JS:App-A"]].
Proof. vm_compute. repeat split. Qed.

(** The filtered list is built in the order the answers arrive. *)
Example filter_keeps_arrival_order :
  fst (filterJsServerByConnectedStatus decimalToNumber noFiles needsCredentials
         (fun _ _ => Fulfilled (JStr "true")) lastFirst localFactory
         [choiceA; choiceB] "true" emptyWorld)
  = Fulfilled [choiceB; choiceA].
Proof. vm_compute. reflexivity. Qed.

Lemma probe_handlers_tolerant (requiredResponse : string)
      (r : MlxprsQuickPickItem * Settled JsValue) (b : Batch MlxprsQuickPickItem) :
  (forall e, snd r = Rejected e -> has_errorResponse e) ->
  failure (probe_handlers requiredResponse (fst r) (snd r) b) = failure b /\
  collected (probe_handlers requiredResponse (fst r) (snd r) b)
  = collected b ++ kept requiredResponse r.
Proof.
  intros Hbody. unfold probe_handlers, kept. destruct (snd r) as [response|e].
  - destruct (is_string response requiredResponse); cbn; [auto|].
    now rewrite app_nil_r.
  - destruct (Hbody e eq_refl) as (body & resp & H1 & H2).
    rewrite H1. cbn [bind]. rewrite H2. cbn. now rewrite app_nil_r.
Qed.

Lemma run_probes_tolerant (requiredResponse : string)
      (issued : list (MlxprsQuickPickItem * Settled JsValue)) (order : list nat) :
  (forall c e, In (c, Rejected e) issued -> has_errorResponse e) ->
  forall b,
    let b' := run_batch (fun r => probe_handlers requiredResponse (fst r) (snd r))
                        issued order b in
    failure b' = failure b /\
    collected b'
    = collected b ++
      flat_map (fun i => match issued !! i with
                         | Some r => kept requiredResponse r
                         | None => []
                         end) order.
Proof.
  intros Hbody. induction order as [|i order IH]; intros b; cbn.
  - now rewrite app_nil_r.
  - destruct (issued !! i) as [r|] eqn:Ei.
    + destruct (probe_handlers_tolerant requiredResponse r b) as [Hf Hc].
      { intros e He. apply (Hbody (fst r)). rewrite <- He.
        destruct r; cbn. eapply list_elem_of_In, list_elem_of_lookup_2; eauto. }
      destruct (IH (probe_handlers requiredResponse (fst r) (snd r) b)) as [Hf' Hc'].
      unfold run_batch in *. rewrite Hf', Hc', Hf, Hc, <- app_assoc. auto.
    + apply IH.
Qed.

Lemma flat_map_lookup_seq {A B} (f : A -> list B) (l pre : list A) :
  flat_map (fun i => match (pre ++ l) !! i with Some r => f r | None => [] end)
           (seq (length pre) (length l))
  = flat_map f l.
Proof.
  revert pre. induction l as [|x l IH]; intros pre; cbn; [reflexivity|].
  rewrite list_lookup_middle by reflexivity. f_equal.
  replace (pre ++ x :: l) with ((pre ++ [x]) ++ l) by now rewrite <- app_assoc.
  replace (S (length pre)) with (length (pre ++ [x])) by (rewrite length_app; cbn; lia).
  apply IH.
Qed.

Lemma issue_probes_choices (StringToNumber : string -> JsNumber) (fs : FileSystem) (ml : Library)
      (srv : Server) (clientFactory : ClientFactory.t) (choices : list MlxprsQuickPickItem) :
  forall w issued w1,
    issue_probes StringToNumber fs ml srv clientFactory choices w = (Normal issued, w1) ->
    map fst issued = choices.
Proof.
  induction choices as [|choice rest IH]; intros w issued w1; cbn.
  - intros H. inversion H. reflexivity.
  - destruct (ClientFactory.newMarklogicManageClient _ _ _ _ _ _) as [[ctx|e] h1]; [|discriminate].
    destruct (issue_probes _ _ _ _ _ rest _) as [[issued'|e] w2] eqn:E; [|discriminate].
    intros H. inversion H. subst. cbn. f_equal. eapply IH; eauto.
Qed.

(** Partial-failure tolerance of the filter, for probe errors that carry
    a body: once every manage client could be built, the enumeration is
    fulfilled, whatever number of probes fail and in whatever order the
    answers arrive, and it returns, up to that order, exactly the
    candidates whose probe answered the required text. *)
Lemma filter_tolerates_failed_probes (StringToNumber : string -> JsNumber) (fs : FileSystem)
      (ml : Library) (srv : Server) (sched : Schedule) (clientFactory : ClientFactory.t)
      (choices : list MlxprsQuickPickItem) (requiredResponse : string) (w w1 : World)
      (issued : list (MlxprsQuickPickItem * Settled JsValue)) :
  issue_probes StringToNumber fs ml srv clientFactory choices w = (Normal issued, w1) ->
  (forall c e, In (c, Rejected e) issued -> has_errorResponse e) ->
  Permutation (sched (length (sent w)) (length issued)) (seq 0 (length issued)) ->
  map fst issued = choices /\
  exists l,
    fst (filterJsServerByConnectedStatus StringToNumber fs ml srv sched clientFactory
           choices requiredResponse w) = Fulfilled l /\
    Permutation l (flat_map (kept requiredResponse) issued).
Proof.
  intros Hissue Hbody Hperm. split; [eapply issue_probes_choices; eauto|].
  unfold filterJsServerByConnectedStatus. rewrite Hissue.
  destruct (run_probes_tolerant requiredResponse issued
              (sched (length (sent w)) (length issued)) Hbody
              (mkBatch [] (console w1) None)) as [Hf Hc].
  cbn [fst]. unfold all_settled. rewrite Hf, Hc. cbn.
  eexists. split; [reflexivity|].
  rewrite <- (flat_map_lookup_seq (kept requiredResponse) issued []).
  cbn [app length]. apply Permutation_flat_map. exact Hperm.
Qed.

(** A server-name lookup that fails leaves the batch as it was: no entry
    and no failure. *)
Lemma failed_name_lookup_is_dropped (e : JsValue) (b : Batch string) :
  name_handlers (Rejected e) b = b.
Proof. reflexivity. Qed.

(** ** Further properties: parameter objects *)

Lemma prim_or_empty_or_truthy (a : JsPrim) : empty_or_truthy (prim_or a (PString "")).
Proof.
  unfold empty_or_truthy, prim_or. destruct (prim_truthy a) eqn:E; [right; exact E | left; reflexivity].
Qed.

Lemma num_or_default_truthy (a d : JsNumber) :
  num_truthy d = true ->
  num_truthy (num_or a d) = true /\ (num_or a d = a \/ (num_truthy a = false /\ num_or a d = d)).
Proof.
  intros Hd. unfold num_or. destruct (num_truthy a) eqn:E; auto.
Qed.

(** X1.  Whatever the raw bag holds, the manage and admin ports of the
    constructed parameter object are usable numbers, never NaN and never 0:
    the bag's own number when it is one, 8002 and 8001 otherwise.  The
    database names, the CA path and the four base paths are never
    [undefined], [null], 0, NaN or [false]: each is the empty string or
    the truthy value the bag gave. *)
Theorem MlClientParameters_new_defaults (StringToNumber : string -> JsNumber) (raw : Bag) :
  let p := MlClientParameters.new StringToNumber raw in
  let given := fun key => MlClientParameters.Number StringToNumber (bag_get raw key) in
  num_truthy (MlClientParameters.managePort p) = true /\
  num_truthy (MlClientParameters.adminPort p) = true /\
  (MlClientParameters.managePort p = given "managePort" \/
   (num_truthy (given "managePort") = false /\ MlClientParameters.managePort p = Num 8002)) /\
  (MlClientParameters.adminPort p = given "adminPort" \/
   (num_truthy (given "adminPort") = false /\ MlClientParameters.adminPort p = Num 8001)) /\
  Forall empty_or_truthy
    [MlClientParameters.contentDb p; MlClientParameters.modulesDb p;
     MlClientParameters.pathToCa p; MlClientParameters.restBasePath p;
     MlClientParameters.manageBasePath p; MlClientParameters.adminBasePath p;
     MlClientParameters.testBasePath p].
Proof.
  cbv zeta. cbn [MlClientParameters.new MlClientParameters.managePort
                 MlClientParameters.adminPort MlClientParameters.contentDb
                 MlClientParameters.modulesDb MlClientParameters.pathToCa
                 MlClientParameters.restBasePath MlClientParameters.manageBasePath
                 MlClientParameters.adminBasePath MlClientParameters.testBasePath].
  destruct (num_or_default_truthy
              (MlClientParameters.Number StringToNumber (bag_get raw "managePort"))
              DEFAULT_MANAGE_PORT eq_refl) as [Hm1 Hm2].
  destruct (num_or_default_truthy
              (MlClientParameters.Number StringToNumber (bag_get raw "adminPort"))
              DEFAULT_ADMIN_PORT eq_refl) as [Ha1 Ha2].
  split; [exact Hm1|]. split; [exact Ha1|]. split; [exact Hm2|]. split; [exact Ha2|].
  repeat (constructor; [apply prim_or_empty_or_truthy|]). constructor.
Qed.

Lemma bag_get_insert_ne (raw : Bag) (k k' : string) (v : JsPrim) :
  k <> k' -> bag_get (<[k := v]> raw) k' = bag_get raw k'.
Proof. intros H. unfold bag_get. now rewrite lookup_insert_ne. Qed.

Lemma bag_get_insert_eq (raw : Bag) (k : string) (v : JsPrim) :
  bag_get (<[k := v]> raw) k = v.
Proof. unfold bag_get. now rewrite lookup_insert_eq. Qed.

(** X2.  Two raw bags that differ only in their auth scheme, each scheme
    being none of DIGEST, BASIC, CLOUD, give the same parameter object,
    with the scheme DIGEST. *)
Theorem unrecognised_authTypes_coincide (StringToNumber : string -> JsNumber) (raw : Bag)
        (a1 a2 : JsPrim) :
  recognised ["DIGEST"; "BASIC"; "CLOUD"] a1 = false ->
  recognised ["DIGEST"; "BASIC"; "CLOUD"] a2 = false ->
  MlClientParameters.new StringToNumber (<["authType" := a1]> raw)
  = MlClientParameters.new StringToNumber (<["authType" := a2]> raw) /\
  MlClientParameters.authType (MlClientParameters.new StringToNumber (<["authType" := a1]> raw))
  = PString "DIGEST".
Proof.
  intros H1 H2. unfold MlClientParameters.new.
  rewrite !bag_get_insert_eq, !bag_get_insert_ne by discriminate.
  rewrite !normalize_authType_spec, H1, H2. split; reflexivity.
Qed.

Lemma unrecognised_authTypes_coincide_witness :
  MlClientParameters.new decimalToNumber (<["authType" := PString "digest"]> localBag)
  = MlClientParameters.new decimalToNumber (<["authType" := PUndefined]> localBag) /\
  MlClientParameters.authType
    (MlClientParameters.new decimalToNumber (<["authType" := PString "digest"]> localBag))
  = PString "DIGEST".
Proof.
  apply (unrecognised_authTypes_coincide decimalToNumber localBag
           (PString "digest") PUndefined); reflexivity.
Defined.

Lemma mask_single_line (s : string) : single_line s = true -> mask s = stars (String.length s).
Proof.
  induction s as [|c s IH]; cbn; [reflexivity|].
  intros H. apply andb_prop in H. destruct H as [Hc Hs].
  apply negb_true_iff in Hc. rewrite Hc, (IH Hs). reflexivity.
Qed.

(** X3.  [toString] prints only when the password is a string: with any
    other password (a missing one included) it throws.  When it prints,
    the text shows neither the password nor the CA path: two objects that
    differ only in their one-line passwords of equal length and in their
    non-empty CA paths print alike. *)
Theorem toString_hides_secrets (p : MlClientParameters.t) :
  (forall v, (forall s, v <> PString s) ->
             exists e, MlClientParameters_toString (set_pwd p v) = Throw e) /\
  (forall s1 s2 ca1 ca2,
      single_line s1 = true -> single_line s2 = true ->
      String.length s1 = String.length s2 ->
      prim_truthy ca1 = true -> prim_truthy ca2 = true ->
      exists out,
        MlClientParameters_toString (set_pathToCa (set_pwd p (PString s1)) ca1) = Normal out /\
        MlClientParameters_toString (set_pathToCa (set_pwd p (PString s2)) ca2) = Normal out).
Proof.
  split.
  - intros v Hv. unfold MlClientParameters_toString. cbn [set_pwd MlClientParameters.pwd].
    destruct v; try (eexists; reflexivity). exfalso. eapply Hv. reflexivity.
  - intros s1 s2 ca1 ca2 H1 H2 Hlen Hc1 Hc2. eexists.
    unfold MlClientParameters_toString, set_pathToCa, set_pwd.
    cbn [MlClientParameters.pwd MlClientParameters.pathToCa MlClientParameters.host
         MlClientParameters.port MlClientParameters.user MlClientParameters.authType
         MlClientParameters.contentDb MlClientParameters.modulesDb MlClientParameters.apiKey
         MlClientParameters.accessTokenDuration MlClientParameters.ssl
         MlClientParameters.rejectUnauthorized].
    rewrite Hc1, Hc2, (mask_single_line s1 H1), (mask_single_line s2 H2), Hlen.
    split; reflexivity.
Qed.

Lemma toString_hides_secrets_witness :
  (exists e, MlClientParameters_toString (set_pwd tlsParams PUndefined) = Throw e) /\
  (exists out,
      MlClientParameters_toString
        (set_pathToCa (set_pwd tlsParams (PString "admin")) (PString "/etc/ssl/ca.pem"))
      = Normal out /\
      MlClientParameters_toString
        (set_pathToCa (set_pwd tlsParams (PString "s3cr3")) (PString "/home/me/other.pem"))
      = Normal out).
Proof.
  split.
  - apply (proj1 (toString_hides_secrets tlsParams) PUndefined). discriminate.
  - apply (proj2 (toString_hides_secrets tlsParams) "admin" "s3cr3"
                 (PString "/etc/ssl/ca.pem") (PString "/home/me/other.pem"));
      reflexivity.
Defined.




(** ** Further properties: a ClientContext and its parameter object *)

Lemma ClientContext_new_success (fs : FileSystem) (ml : Library) (h h' : Store) (r : Ref)
      (p : MlClientParameters.t) (s : string) (ctx : ClientContext.t) :
  h !! r = Some p ->
  MlClientParameters.authType p = PString s ->
  ClientContext.new fs ml h r = (Normal ctx, h') ->
  let p1 := ClientContext.set_authType p (PString (toUpperCase s)) in
  let p2 := if negb (prim_truthy (MlClientParameters.contentDb p))
            then ClientContext.set_contentDb p1 PNull else p1 in
  ClientContext.params ctx = r /\
  h' = <[r := p2]> (<[r := p1]> h) /\
  ClientContext.databaseClient ctx = ClientContext.options p2 (ClientContext.ca ctx) /\
  ml (ClientContext.databaseClient ctx) = None.
Proof.
  intros Hr Ha. unfold ClientContext.new. rewrite Hr, Ha. cbn [prim_toUpperCase].
  set (p1 := ClientContext.set_authType p (PString (toUpperCase s))).
  destruct (prim_truthy (MlClientParameters.pathToCa p1)
            && strict_neq (MlClientParameters.pathToCa p1) (PString ""));
    [destruct (fs (MlClientParameters.pathToCa p1)) as [contents|m] |];
    try discriminate.
  all: destruct (ml _) eqn:Eml; [discriminate|];
    intros H; inversion H; subst; cbn; auto.
Qed.

Lemma constructed_authType (StringToNumber : string -> JsNumber) (raw : Bag) :
  exists s, MlClientParameters.authType (MlClientParameters.new StringToNumber raw) = PString s /\
            toUpperCase s = s.
Proof.
  cbn [MlClientParameters.authType MlClientParameters.new].
  destruct (normalize_authType_In ["DIGEST"; "BASIC"; "CLOUD"] (bag_get raw "authType"))
    as [H | [H | [H | []]]]; [now left | | |]; rewrite <- H; eexists; split; reflexivity.
Qed.

Lemma set_authType_same (p : MlClientParameters.t) :
  ClientContext.set_authType p (MlClientParameters.authType p) = p.
Proof. destruct p; reflexivity. Qed.

Lemma sameAs_contentDb_differs (p q : MlClientParameters.t) :
  strict_eq (MlClientParameters.contentDb p) (MlClientParameters.contentDb q) = false ->
  MlClientParameters.sameAs p q = false.
Proof.
  intros H. unfold MlClientParameters.sameAs. rewrite H, andb_false_r. reflexivity.
Qed.

(** X5.  A parameter object that the constructor produced with a
    non-empty content database is not changed by the construction of a
    ClientContext over it: the whole store is left as it was, whether the
    construction succeeds or fails, on the CA file or in the client
    library.  When it succeeds and no
    compared field holds NaN, the context recognises its configuration:
    [hasSameParamsAs] answers true for that object. *)
Theorem ClientContext_new_keeps_constructed (StringToNumber : string -> JsNumber)
        (fs : FileSystem) (ml : Library) (raw : Bag) (h : Store) (r : Ref) :
  let p := MlClientParameters.new StringToNumber raw in
  h !! r = Some p ->
  prim_truthy (MlClientParameters.contentDb p) = true ->
  snd (ClientContext.new fs ml h r) = h /\
  (forall ctx, fst (ClientContext.new fs ml h r) = Normal ctx ->
               has_NaN_compared p = false ->
               hasSameParamsAs (snd (ClientContext.new fs ml h r)) ctx p = Normal true).
Proof.
  intros p Hr Hdb.
  destruct (constructed_authType StringToNumber raw) as [s [Ha Hup]]. fold p in Ha.
  assert (Hstore : snd (ClientContext.new fs ml h r) = h).
  { assert (E1 : <[r := p]> h = h) by now apply list_insert_id.
    destruct (ClientContext_new_outcomes fs ml h r p s Hr Ha)
      as [[e He] | [[e He] | [ctx He]]]; rewrite He; cbn [snd].
    - rewrite Hup, <- Ha, set_authType_same. exact E1.
    - rewrite Hdb. cbn [negb]. cbv iota.
      rewrite Hup, <- Ha, set_authType_same, E1. exact E1.
    - rewrite Hdb. cbn [negb]. cbv iota.
      rewrite Hup, <- Ha, set_authType_same, E1. exact E1. }
  split; [exact Hstore|].
  intros ctx Hctx Hnan.
  destruct (ClientContext.new fs ml h r) as [res h'] eqn:E. cbn [fst snd] in *. subst res h'.
  destruct (ClientContext_new_success fs ml h h r p s ctx Hr Ha E) as [Hp _].
  unfold hasSameParamsAs. rewrite Hp, Hr, sameAs_self, Hnan. reflexivity.
Qed.

Lemma ClientContext_new_keeps_constructed_witness :
  snd (ClientContext.new noFiles needsCredentials [localParams] 0) = [localParams] /\
  (forall ctx,
      fst (ClientContext.new noFiles needsCredentials [localParams] 0) = Normal ctx ->
      has_NaN_compared localParams = false ->
      hasSameParamsAs (snd (ClientContext.new noFiles needsCredentials [localParams] 0))
                      ctx localParams
      = Normal true).
Proof.
  exact (ClientContext_new_keeps_constructed decimalToNumber noFiles needsCredentials
           localBag [localParams] 0 eq_refl eq_refl).
Defined.

(** X6.  A parameter object that the constructor produced with no content
    database is disowned by the context built over it: once the
    construction has succeeded, [hasSameParamsAs] answers false for a
    parameter object built again from the very same bag, because the
    context's own object now holds [null] where the new one holds the
    empty string. *)
Theorem ClientContext_disowns_empty_database (StringToNumber : string -> JsNumber)
        (fs : FileSystem) (ml : Library) (raw : Bag) (h h' : Store) (r : Ref)
        (ctx : ClientContext.t) :
  let p := MlClientParameters.new StringToNumber raw in
  h !! r = Some p ->
  prim_truthy (MlClientParameters.contentDb p) = false ->
  ClientContext.new fs ml h r = (Normal ctx, h') ->
  hasSameParamsAs h' ctx (MlClientParameters.new StringToNumber raw) = Normal false.
Proof.
  intros p Hr Hdb Hnew.
  destruct (constructed_authType StringToNumber raw) as [s [Ha Hup]]. fold p in Ha.
  destruct (ClientContext_new_success fs ml h h' r p s ctx Hr Ha Hnew) as [Hp [Hh _]].
  unfold hasSameParamsAs. rewrite Hp, Hh, Hdb. cbn [negb]. cbv iota.
  rewrite (store_insert_twice h r p _ _ Hr). f_equal.
  apply sameAs_contentDb_differs. cbn [ClientContext.set_contentDb MlClientParameters.contentDb].
  fold p.
  assert (He : empty_or_truthy (MlClientParameters.contentDb p))
    by apply prim_or_empty_or_truthy.
  destruct He as [He | He]; [rewrite He; reflexivity | congruence].
Qed.

Lemma ClientContext_disowns_empty_database_witness :
  exists ctx h',
    ClientContext.new noFiles needsCredentials [noDbParams] 0 = (Normal ctx, h') /\
    hasSameParamsAs h' ctx noDbParams = Normal false.
Proof.
  eexists. eexists. split; [vm_compute; reflexivity|].
  eapply (ClientContext_disowns_empty_database decimalToNumber noFiles needsCredentials
            (delete "contentDb" localBag) [noDbParams] _ 0 _ eq_refl eq_refl).
  vm_compute. reflexivity.
Defined.

(** ** Further properties: the ClientFactory *)

Lemma prim_or_undefined_empty (d : JsPrim) :
  empty_or_truthy d -> prim_or (prim_or d PUndefined) (PString "") = d.
Proof.
  intros [-> | H]; [reflexivity|]. unfold prim_or. rewrite H. rewrite H. reflexivity.
Qed.

Lemma prim_or_empty_fix (d : JsPrim) : empty_or_truthy d -> prim_or d (PString "") = d.
Proof. intros [-> | H]; [reflexivity|]. unfold prim_or. now rewrite H. Qed.

Lemma ClientFactory_authType_two (StringToNumber : string -> JsNumber) (raw : Bag) :
  ClientFactory.authType (ClientFactory.new StringToNumber raw) = PString "DIGEST" \/
  ClientFactory.authType (ClientFactory.new StringToNumber raw) = PString "BASIC".
Proof.
  cbn [ClientFactory.authType ClientFactory.new].
  destruct (normalize_authType_In ["DIGEST"; "BASIC"] (bag_get raw "authType"))
    as [H | [H | []]]; [now left | |]; rewrite <- H; auto.
Qed.

(** X7.  For a factory built by the constructor, [toMlClientParameters]
    carries host, port, user, password, content database, modules database,
    auth scheme, TLS flag, CA path and reject-unauthorized flag over
    unchanged, and nothing else: the base path is lost (the REST base path
    of the result is empty), the manage and admin ports are the defaults
    8002 and 8001, the test port is NaN and there is no API key. *)
Theorem toMlClientParameters_fields (StringToNumber : string -> JsNumber) (raw : Bag) :
  let f := ClientFactory.new StringToNumber raw in
  let p := ClientFactory.toMlClientParameters StringToNumber f in
  (MlClientParameters.host p = ClientFactory.host f /\
   MlClientParameters.port p = ClientFactory.port f /\
   MlClientParameters.user p = ClientFactory.user f /\
   MlClientParameters.pwd p = ClientFactory.password f /\
   MlClientParameters.contentDb p = ClientFactory.database f /\
   MlClientParameters.modulesDb p = ClientFactory.modulesDb f /\
   MlClientParameters.authType p = ClientFactory.authType f /\
   MlClientParameters.ssl p = ClientFactory.ssl f /\
   MlClientParameters.pathToCa p = ClientFactory.pathToCa f /\
   MlClientParameters.rejectUnauthorized p = ClientFactory.rejectUnauthorized f) /\
  (MlClientParameters.restBasePath p = PString "" /\
   MlClientParameters.managePort p = Num 8002 /\
   MlClientParameters.adminPort p = Num 8001 /\
   MlClientParameters.testPort p = NaN /\
   MlClientParameters.apiKey p = PUndefined /\
   MlClientParameters.accessTokenDuration p = PUndefined).
Proof.
  intros f p. split; [|repeat split].
  unfold p, ClientFactory.toMlClientParameters, MlClientParameters.new.
  cbn [MlClientParameters.host MlClientParameters.port MlClientParameters.user
       MlClientParameters.pwd MlClientParameters.contentDb MlClientParameters.modulesDb
       MlClientParameters.authType MlClientParameters.ssl MlClientParameters.pathToCa
       MlClientParameters.rejectUnauthorized].
  change (bag_get _ "host") with (ClientFactory.host f).
  change (bag_get _ "port") with (PNumber (ClientFactory.port f)).
  change (bag_get _ "user") with (ClientFactory.user f).
  change (bag_get _ "pwd") with (ClientFactory.password f).
  change (bag_get _ "contentDb") with (ClientFactory.database f).
  change (bag_get _ "documentsDb") with PUndefined.
  change (bag_get _ "modulesDb") with (ClientFactory.modulesDb f).
  change (bag_get _ "authType") with (ClientFactory.authType f).
  change (bag_get _ "ssl") with (PBool (ClientFactory.ssl f)).
  change (bag_get _ "pathToCa") with (ClientFactory.pathToCa f).
  change (bag_get _ "rejectUnauthorized") with (PBool (ClientFactory.rejectUnauthorized f)).
  repeat split.
  - apply prim_or_undefined_empty. apply prim_or_empty_or_truthy.
  - apply prim_or_empty_fix. apply prim_or_empty_or_truthy.
  - destruct (ClientFactory_authType_two StringToNumber raw) as [H | H];
      fold f in H; rewrite H; reflexivity.
  - apply prim_or_empty_fix. apply prim_or_empty_or_truthy.
Qed.

(** X8.  Overrides win in every role derivation of a factory built by the
    constructor.  Each of host, user, password, port, base path, TLS flag,
    reject-unauthorized flag, CA path and auth scheme of the derived
    factory is read from the override when the overrides hold that key,
    even with the value [undefined], and from the role's own configuration
    otherwise: the base factory's value, and for port and base path the
    role's. *)
Theorem role_overrides_win (StringToNumber : string -> JsNumber) (raw overrides : Bag) :
  let this := ClientFactory.new StringToNumber raw in
  let pick := fun (key : string) (own : JsPrim) => default own (overrides !! key) in
  Forall (fun '(derive, rolePort, roleBasePath) =>
            exists f,
              derive this overrides = Normal f /\
              ClientFactory.host f = pick "host" (ClientFactory.host this) /\
              ClientFactory.user f = pick "user" (ClientFactory.user this) /\
              ClientFactory.password f = pick "password" (ClientFactory.password this) /\
              ClientFactory.port f
              = MlClientParameters.Number StringToNumber (pick "port" (PNumber rolePort)) /\
              ClientFactory.basePath f
              = prim_or (pick "basePath" roleBasePath) (PString "") /\
              ClientFactory.ssl f
              = prim_truthy (pick "ssl" (PBool (ClientFactory.ssl this))) /\
              ClientFactory.rejectUnauthorized f
              = prim_truthy (pick "rejectUnauthorized"
                                  (PBool (ClientFactory.rejectUnauthorized this))) /\
              ClientFactory.pathToCa f
              = prim_or (pick "pathToCa" (ClientFactory.pathToCa this)) (PString "") /\
              ClientFactory.authType f
              = MlClientParameters.normalize_authType
                  ["DIGEST"; "BASIC"] (pick "authType" (ClientFactory.authType this)))
         [(ClientFactory.newRestClientParams StringToNumber,
           ClientFactory.port this, ClientFactory.restBasePath this);
          (ClientFactory.newManageClientParams StringToNumber,
           ClientFactory.managePort this, ClientFactory.manageBasePath this);
          (ClientFactory.newTestClientParams StringToNumber,
           ClientFactory.testPort this, ClientFactory.testBasePath this)].
Proof.
  intros this pick.
  destruct (role_derivations StringToNumber raw overrides) as (Hrest & Hmanage & Htest).
  fold this in Hrest, Hmanage, Htest.
  assert (Hrole : forall rp rb rd rm,
             let f := ClientFactory.new StringToNumber
                        (spread (ClientFactory.configParams this rp rb rd rm
                                   (ClientFactory.authType this)) overrides) in
             ClientFactory.host f = pick "host" (ClientFactory.host this) /\
             ClientFactory.user f = pick "user" (ClientFactory.user this) /\
             ClientFactory.password f = pick "password" (ClientFactory.password this) /\
             ClientFactory.port f
             = MlClientParameters.Number StringToNumber (pick "port" (PNumber rp)) /\
             ClientFactory.basePath f = prim_or (pick "basePath" rb) (PString "") /\
             ClientFactory.ssl f = prim_truthy (pick "ssl" (PBool (ClientFactory.ssl this))) /\
             ClientFactory.rejectUnauthorized f
             = prim_truthy (pick "rejectUnauthorized"
                                 (PBool (ClientFactory.rejectUnauthorized this))) /\
             ClientFactory.pathToCa f
             = prim_or (pick "pathToCa" (ClientFactory.pathToCa this)) (PString "") /\
             ClientFactory.authType f
             = MlClientParameters.normalize_authType
                 ["DIGEST"; "BASIC"] (pick "authType" (ClientFactory.authType this))).
  { intros rp rb rd rm f. unfold f, pick.
    cbn [ClientFactory.new ClientFactory.host ClientFactory.user ClientFactory.password
         ClientFactory.port ClientFactory.basePath ClientFactory.ssl
         ClientFactory.rejectUnauthorized ClientFactory.pathToCa ClientFactory.authType].
    rewrite !spread_get.
    repeat split;
      match goal with
      | |- context [overrides !! ?key] => destruct (overrides !! key); try reflexivity
      end.
    change (bag_get (ClientFactory.configParams _ _ _ _ _ _) "pathToCa")
      with (prim_or (ClientFactory.pathToCa this) (PString "")).
    change (default (ClientFactory.pathToCa this) None) with (ClientFactory.pathToCa this).
    unfold this. cbn [ClientFactory.pathToCa ClientFactory.new].
    now rewrite !prim_or_empty_idem. }
  constructor; [eexists; split; [exact Hrest | apply Hrole]|].
  constructor; [eexists; split; [exact Hmanage | apply Hrole]|].
  constructor; [eexists; split; [exact Htest | apply Hrole]|].
  constructor.
Qed.

(** An override of the host alone, and an override that sets the user to
    [undefined]: the manage role is reached on the other host, with the
    manage port, and in the second case without a user. *)
Example role_overrides_at_staging :
  exists f g,
    ClientFactory.newManageClientParams decimalToNumber localFactory
      (<["host" := PString "staging"]> ∅) = Normal f /\
    ClientFactory.host f = PString "staging" /\
    ClientFactory.port f = Num 8002 /\
    ClientFactory.user f = PString "admin" /\
    ClientFactory.newManageClientParams decimalToNumber localFactory
      (<["user" := PUndefined]> ∅) = Normal g /\
    ClientFactory.host g = PString "localhost" /\
    ClientFactory.user g = PUndefined.
Proof. eexists. eexists. vm_compute. repeat split. Qed.

(** X9.  When the overrides leave them alone, each role derived from a
    factory built by the constructor has the base factory's host, user,
    password, TLS flag, CA path and reject-unauthorized flag.  The manage
    role has the base factory's manage port and manage base path, the test
    role its test port and test base path, and the REST role its main port
    with an empty base path. *)
Theorem role_fields (StringToNumber : string -> JsNumber) (raw overrides : Bag) :
  let this := ClientFactory.new StringToNumber raw in
  Forall (fun key => overrides !! key = None)
         ["host"; "user"; "password"; "ssl"; "pathToCa"; "rejectUnauthorized";
          "port"; "basePath"] ->
  exists rest manage test,
    ClientFactory.newRestClientParams StringToNumber this overrides = Normal rest /\
    ClientFactory.newManageClientParams StringToNumber this overrides = Normal manage /\
    ClientFactory.newTestClientParams StringToNumber this overrides = Normal test /\
    Forall (fun f => ClientFactory.host f = ClientFactory.host this /\
                     ClientFactory.user f = ClientFactory.user this /\
                     ClientFactory.password f = ClientFactory.password this /\
                     ClientFactory.ssl f = ClientFactory.ssl this /\
                     ClientFactory.pathToCa f = ClientFactory.pathToCa this /\
                     ClientFactory.rejectUnauthorized f = ClientFactory.rejectUnauthorized this)
           [rest; manage; test] /\
    ClientFactory.port rest = ClientFactory.port this /\
    ClientFactory.basePath rest = PString "" /\
    ClientFactory.port manage = ClientFactory.managePort this /\
    ClientFactory.basePath manage = ClientFactory.manageBasePath this /\
    ClientFactory.port test = ClientFactory.testPort this /\
    ClientFactory.basePath test = ClientFactory.testBasePath this.
Proof.
  intros this Hov.
  repeat match goal with
         | H : Forall _ (_ :: _) |- _ => apply Forall_cons_1 in H; destruct H as [? H]
         end.
  destruct (role_derivations StringToNumber raw overrides) as (Hrest & Hmanage & Htest).
  fold this in Hrest, Hmanage, Htest.
  eexists. eexists. eexists.
  split; [exact Hrest|]. split; [exact Hmanage|]. split; [exact Htest|].
  pose proof (role_shared_fields StringToNumber raw overrides (ClientFactory.port this)
                (ClientFactory.restBasePath this) (ClientFactory.database this)
                (ClientFactory.modulesDb this)) as R.
  pose proof (role_shared_fields StringToNumber raw overrides (ClientFactory.managePort this)
                (ClientFactory.manageBasePath this) PNull PNull) as M.
  pose proof (role_shared_fields StringToNumber raw overrides (ClientFactory.testPort this)
                (ClientFactory.testBasePath this) PNull PNull) as T.
  cbv zeta in R, M, T. fold this in R, M, T.
  destruct R as (R1 & R2 & R3 & R4 & R5 & R6 & R7 & R8 & _).
  destruct M as (M1 & M2 & M3 & M4 & M5 & M6 & M7 & M8 & _).
  destruct T as (T1 & T2 & T3 & T4 & T5 & T6 & T7 & T8 & _).
  split.
  - repeat constructor; auto.
  - split; [auto|]. split; [rewrite R8 by assumption; reflexivity|].
    split; [auto|]. split.
    + rewrite M8 by assumption. apply prim_or_empty_fix.
      unfold this. cbn [ClientFactory.manageBasePath ClientFactory.new].
      apply prim_or_empty_or_truthy.
    + split; [auto|]. rewrite T8 by assumption. apply prim_or_empty_fix.
      unfold this. cbn [ClientFactory.testBasePath ClientFactory.new].
      apply prim_or_empty_or_truthy.
Qed.

Lemma role_fields_witness :
  exists rest manage test,
    ClientFactory.newRestClientParams decimalToNumber localFactory ∅ = Normal rest /\
    ClientFactory.newManageClientParams decimalToNumber localFactory ∅ = Normal manage /\
    ClientFactory.newTestClientParams decimalToNumber localFactory ∅ = Normal test /\
    ClientFactory.port manage = Num 8002 /\
    ClientFactory.basePath manage = PString "/manage" /\
    ClientFactory.port test = Num 8004 /\
    ClientFactory.host manage = PString "localhost".
Proof.
  destruct (role_fields decimalToNumber localBag ∅) as
    (rest & manage & test & H1 & H2 & H3 & HF & _ & _ & H6 & H7 & H8 & _).
  { repeat constructor. }
  exists rest, manage, test.
  apply Forall_cons_1 in HF. destruct HF as [_ HF].
  apply Forall_cons_1 in HF. destruct HF as [[Hh _] _].
  repeat split; assumption.
Defined.

(** X10.  Whatever databases the base factory names, the manage and test
    roles derived from it name none, unless the overrides name one: both
    database names of the derived factory are empty. *)
Theorem manage_and_test_roles_have_no_database (StringToNumber : string -> JsNumber)
        (raw overrides : Bag) :
  let this := ClientFactory.new StringToNumber raw in
  overrides !! "contentDb" = None ->
  overrides !! "documentsDb" = None ->
  overrides !! "modulesDb" = None ->
  exists manage test,
    ClientFactory.newManageClientParams StringToNumber this overrides = Normal manage /\
    ClientFactory.newTestClientParams StringToNumber this overrides = Normal test /\
    ClientFactory.database manage = PString "" /\
    ClientFactory.modulesDb manage = PString "" /\
    ClientFactory.database test = PString "" /\
    ClientFactory.modulesDb test = PString "".
Proof.
  intros this H1 H2 H3.
  destruct (role_derivations StringToNumber raw overrides) as (_ & Hmanage & Htest).
  fold this in Hmanage, Htest.
  eexists. eexists. split; [exact Hmanage|]. split; [exact Htest|].
  destruct (cleared_role_databases StringToNumber this overrides
              (ClientFactory.managePort this) (ClientFactory.manageBasePath this)
              (ClientFactory.authType this) H1 H2 H3) as [Ha Hb].
  destruct (cleared_role_databases StringToNumber this overrides
              (ClientFactory.testPort this) (ClientFactory.testBasePath this)
              (ClientFactory.authType this) H1 H2 H3) as [Hc Hd].
  auto.
Qed.

Lemma manage_and_test_roles_have_no_database_witness :
  ClientFactory.database localFactory = PString "Documents" /\
  exists manage test,
    ClientFactory.newManageClientParams decimalToNumber localFactory ∅ = Normal manage /\
    ClientFactory.newTestClientParams decimalToNumber localFactory ∅ = Normal test /\
    ClientFactory.database manage = PString "" /\
    ClientFactory.modulesDb manage = PString "" /\
    ClientFactory.database test = PString "" /\
    ClientFactory.modulesDb test = PString "".
Proof.
  split; [reflexivity|].
  exact (manage_and_test_roles_have_no_database decimalToNumber localBag ∅
           eq_refl eq_refl eq_refl).
Defined.

(** X11.  A derived role does not inherit the role ports: unless the
    overrides give them, the manage, test and admin ports of every derived
    factory are NaN.  Roles therefore do not chain: the manage role derived
    from a derived REST role has the port NaN. *)
Theorem derived_roles_lose_role_ports (StringToNumber : string -> JsNumber)
        (raw overrides : Bag) :
  let this := ClientFactory.new StringToNumber raw in
  overrides !! "managePort" = None ->
  overrides !! "testPort" = None ->
  overrides !! "adminPort" = None ->
  exists rest manage test chained,
    ClientFactory.newRestClientParams StringToNumber this overrides = Normal rest /\
    ClientFactory.newManageClientParams StringToNumber this overrides = Normal manage /\
    ClientFactory.newTestClientParams StringToNumber this overrides = Normal test /\
    Forall (fun f => ClientFactory.managePort f = NaN /\
                     ClientFactory.testPort f = NaN /\
                     ClientFactory.adminPort f = NaN)
           [rest; manage; test] /\
    ClientFactory.newManageClientParams StringToNumber rest ∅ = Normal chained /\
    ClientFactory.port chained = NaN.
Proof.
  intros this H1 H2 H3.
  destruct (role_derivations StringToNumber raw overrides) as (Hrest & Hmanage & Htest).
  fold this in Hrest, Hmanage, Htest.
  assert (Hports : forall role : Bag,
             role !! "managePort" = None -> role !! "testPort" = None ->
             role !! "adminPort" = None ->
             let f := ClientFactory.new StringToNumber (spread role overrides) in
             ClientFactory.managePort f = NaN /\ ClientFactory.testPort f = NaN /\
             ClientFactory.adminPort f = NaN).
  { intros role R1 R2 R3. cbn [ClientFactory.new ClientFactory.managePort
                               ClientFactory.testPort ClientFactory.adminPort].
    rewrite !spread_get, H1, H2, H3. unfold bag_get. rewrite R1, R2, R3. auto. }
  set (restBag := spread (ClientFactory.configParams this (ClientFactory.port this)
                            (ClientFactory.restBasePath this) (ClientFactory.database this)
                            (ClientFactory.modulesDb this) (ClientFactory.authType this))
                         overrides) in *.
  destruct (role_derivations StringToNumber restBag ∅) as (_ & Hchain & _).
  eexists. eexists. eexists. eexists.
  split; [exact Hrest|]. split; [exact Hmanage|]. split; [exact Htest|].
  split.
  { constructor; [unfold restBag; apply Hports; reflexivity|].
    constructor; [apply Hports; reflexivity|].
    constructor; [apply Hports; reflexivity|]. constructor. }
  split; [exact Hchain|].
  cbn [ClientFactory.new ClientFactory.port].
  rewrite spread_get, lookup_empty.
  change (bag_get (ClientFactory.configParams _ _ _ _ _ _) "port")
    with (PNumber (ClientFactory.managePort (ClientFactory.new StringToNumber restBag))).
  cbn [MlClientParameters.Number]. unfold restBag.
  apply (Hports (ClientFactory.configParams this (ClientFactory.port this)
                   (ClientFactory.restBasePath this) (ClientFactory.database this)
                   (ClientFactory.modulesDb this) (ClientFactory.authType this))
                eq_refl eq_refl eq_refl).
Qed.

Lemma derived_roles_lose_role_ports_witness :
  ClientFactory.managePort localFactory = Num 8002 /\
  exists rest manage test chained,
    ClientFactory.newRestClientParams decimalToNumber localFactory ∅ = Normal rest /\
    ClientFactory.newManageClientParams decimalToNumber localFactory ∅ = Normal manage /\
    ClientFactory.newTestClientParams decimalToNumber localFactory ∅ = Normal test /\
    Forall (fun f => ClientFactory.managePort f = NaN /\
                     ClientFactory.testPort f = NaN /\
                     ClientFactory.adminPort f = NaN)
           [rest; manage; test] /\
    ClientFactory.newManageClientParams decimalToNumber rest ∅ = Normal chained /\
    ClientFactory.port chained = NaN.
Proof.
  split; [reflexivity|].
  exact (derived_roles_lose_role_ports decimalToNumber localBag ∅ eq_refl eq_refl eq_refl).
Defined.

(** ** Further properties: clients made by the factory *)

Lemma insert_last (h : Store) (p q : MlClientParameters.t) :
  <[length h := q]> (h ++ [p]) = h ++ [q].
Proof. induction h as [|x h IH]; cbn; [reflexivity | f_equal; exact IH]. Qed.

(** The constructor over the last object of a store does what it does over
    that object alone. *)
Lemma ClientContext_new_appended (fs : FileSystem) (ml : Library) (h : Store)
      (p : MlClientParameters.t) :
  ClientContext.new fs ml (h ++ [p]) (length h)
  = (match fst (ClientContext.new fs ml [p] 0) with
     | Normal c =>
         Normal (ClientContext.mk (length h) (ClientContext.ca c)
                                  (ClientContext.databaseClient c))
     | Throw e => Throw e
     end,
     h ++ snd (ClientContext.new fs ml [p] 0)).
Proof.
  unfold ClientContext.new. rewrite list_lookup_middle by reflexivity.
  change ([p] !! 0%nat) with (Some p). cbv beta iota zeta.
  destruct (prim_toUpperCase (MlClientParameters.authType p)) as [a|e]; [|reflexivity].
  assert (Hi : forall x y : MlClientParameters.t, <[0%nat := x]> [y] = [x]) by reflexivity.
  destruct (prim_truthy (MlClientParameters.pathToCa (ClientContext.set_authType p a))
            && strict_neq (MlClientParameters.pathToCa (ClientContext.set_authType p a))
                          (PString ""));
    [destruct (fs _) as [contents|m] |]; cbv beta iota.
  2: { rewrite insert_last, Hi. reflexivity. }
  all: destruct (ml _); cbn [fst snd]; rewrite !insert_last, !Hi; reflexivity.
Qed.

(** Over a single object the constructor leaves a single object. *)
Lemma ClientContext_new_single (fs : FileSystem) (ml : Library) (p : MlClientParameters.t) :
  exists q, snd (ClientContext.new fs ml [p] 0) = [q].
Proof.
  unfold ClientContext.new. change ([p] !! 0%nat) with (Some p). cbv beta iota zeta.
  destruct (prim_toUpperCase (MlClientParameters.authType p)) as [a|e];
    [|eexists; reflexivity].
  destruct (prim_truthy (MlClientParameters.pathToCa (ClientContext.set_authType p a))
            && strict_neq (MlClientParameters.pathToCa (ClientContext.set_authType p a))
                          (PString ""));
    [destruct (fs _) as [contents|m] |]; cbv beta iota.
  2: { eexists. reflexivity. }
  all: destruct (ml _); eexists; reflexivity.
Qed.

(** A client of the factory is made in the same way in every store: the
    outcome and the connection options do not depend on the objects that
    are already there, and the one object added is the last. *)
Lemma newClient_appended (StringToNumber : string -> JsNumber) (fs : FileSystem)
      (ml : Library) (f : ClientFactory.t) (h : Store) :
  exists q,
    ClientFactory.newClient StringToNumber fs ml (Normal f) h
    = (match fst (ClientFactory.newClient StringToNumber fs ml (Normal f) []) with
       | Normal c =>
           Normal (ClientContext.mk (length h) (ClientContext.ca c)
                                    (ClientContext.databaseClient c))
       | Throw e => Throw e
       end,
       h ++ [q]).
Proof.
  unfold ClientFactory.newClient, alloc. cbn [length app].
  destruct (ClientContext_new_single fs ml
              (ClientFactory.toMlClientParameters StringToNumber f)) as [q Hq].
  exists q. rewrite ClientContext_new_appended, Hq. reflexivity.
Qed.

Lemma newClient_built (StringToNumber : string -> JsNumber) (fs : FileSystem) (ml : Library)
      (roleParams : Completion ClientFactory.t) (h0 h0' : Store) (c0 : ClientContext.t) :
  ClientFactory.newClient StringToNumber fs ml roleParams h0 = (Normal c0, h0') ->
  forall h, exists c q,
    ClientFactory.newClient StringToNumber fs ml roleParams h = (Normal c, h ++ [q]) /\
    ClientContext.params c = length h /\
    ClientContext.databaseClient c = ClientContext.databaseClient c0.
Proof.
  destruct roleParams as [f|e]; [|discriminate].
  intros H0 h.
  destruct (newClient_appended StringToNumber fs ml f h0) as [q0 E0].
  destruct (newClient_appended StringToNumber fs ml f h) as [q E].
  rewrite E0 in H0.
  destruct (fst (ClientFactory.newClient StringToNumber fs ml (Normal f) [])) as [c|e];
    [|discriminate].
  inversion H0. subst. exists (ClientContext.mk (length h) (ClientContext.ca c)
                                 (ClientContext.databaseClient c)), q.
  split; [exact E|]. split; reflexivity.
Qed.

Lemma newClient_refused (StringToNumber : string -> JsNumber) (fs : FileSystem) (ml : Library)
      (roleParams : Completion ClientFactory.t) (h0 h0' : Store) (e : JsValue) :
  ClientFactory.newClient StringToNumber fs ml roleParams h0 = (Throw e, h0') ->
  forall h, fst (ClientFactory.newClient StringToNumber fs ml roleParams h) = Throw e.
Proof.
  destruct roleParams as [f|e0]; [|intros H0 h; inversion H0; reflexivity].
  intros H0 h.
  destruct (newClient_appended StringToNumber fs ml f h0) as [q0 E0].
  destruct (newClient_appended StringToNumber fs ml f h) as [q E].
  rewrite E0 in H0. rewrite E. cbn [fst].
  destruct (fst (ClientFactory.newClient StringToNumber fs ml (Normal f) [])) as [c|e1];
    [discriminate|].
  inversion H0. reflexivity.
Qed.

Lemma ClientContext_new_no_ca (fs : FileSystem) (ml : Library) (h : Store) (r : Ref)
      (p : MlClientParameters.t) (s : string) :
  h !! r = Some p ->
  MlClientParameters.authType p = PString s ->
  prim_truthy (MlClientParameters.pathToCa p) = false ->
  let p1 := ClientContext.set_authType p (PString (toUpperCase s)) in
  let p2 := if negb (prim_truthy (MlClientParameters.contentDb p))
            then ClientContext.set_contentDb p1 PNull else p1 in
  fst (ClientContext.new fs ml h r)
  = match ml (ClientContext.options p2 None) with
    | Some e => Throw e
    | None => Normal (ClientContext.mk r None (ClientContext.options p2 None))
    end.
Proof.
  intros Hr Ha Hca. unfold ClientContext.new. rewrite Hr, Ha. cbn [prim_toUpperCase].
  cbn [ClientContext.set_authType MlClientParameters.pathToCa]. rewrite Hca.
  cbn [andb]. cbv zeta. destruct (ml _); reflexivity.
Qed.

(** X12.  A client made from role parameters works on a parameter object
    of its own: the object is new, at the end of the store, and no object
    that was in the store is written.  The client is bound to the role's
    host, port, user and password, and to an empty base path whatever base
    path the role parameters hold.  With no CA path the construction fails
    exactly when the client library refuses these connection options, and
    then with the library's error. *)
Theorem factory_client_is_fresh (StringToNumber : string -> JsNumber) (fs : FileSystem)
        (ml : Library) (f : ClientFactory.t) (h : Store) :
  let res := fst (ClientFactory.newClient StringToNumber fs ml (Normal f) h) in
  let h' := snd (ClientFactory.newClient StringToNumber fs ml (Normal f) h) in
  (forall r, (r < length h)%nat -> h' !! r = h !! r) /\
  length h' = S (length h) /\
  (forall ctx, res = Normal ctx ->
               ClientContext.params ctx = length h /\
               dc_basePath (ClientContext.databaseClient ctx) = PString "" /\
               dc_host (ClientContext.databaseClient ctx) = ClientFactory.host f /\
               dc_port (ClientContext.databaseClient ctx) = ClientFactory.port f /\
               dc_user (ClientContext.databaseClient ctx) = ClientFactory.user f /\
               dc_password (ClientContext.databaseClient ctx) = ClientFactory.password f /\
               ml (ClientContext.databaseClient ctx) = None) /\
  (prim_truthy (ClientFactory.pathToCa f) = false ->
   exists o,
     dc_basePath o = PString "" /\
     dc_host o = ClientFactory.host f /\
     dc_port o = ClientFactory.port f /\
     dc_user o = ClientFactory.user f /\
     dc_password o = ClientFactory.password f /\
     res = match ml o with
           | Some e => Throw e
           | None => Normal (ClientContext.mk (length h) None o)
           end).
Proof.
  cbv zeta. unfold ClientFactory.newClient, alloc.
  set (p := ClientFactory.toMlClientParameters StringToNumber f).
  destruct (constructed_authType StringToNumber
              (list_to_map
                 [("host", ClientFactory.host f); ("port", PNumber (ClientFactory.port f));
                  ("basePath", ClientFactory.basePath f); ("user", ClientFactory.user f);
                  ("pwd", ClientFactory.password f); ("contentDb", ClientFactory.database f);
                  ("modulesDb", ClientFactory.modulesDb f);
                  ("authType", ClientFactory.authType f); ("ssl", PBool (ClientFactory.ssl f));
                  ("pathToCa", ClientFactory.pathToCa f);
                  ("rejectUnauthorized", PBool (ClientFactory.rejectUnauthorized f))]))
    as [s [Ha _]].
  change (MlClientParameters.authType p = PString s) in Ha.
  assert (Hr : (h ++ [p]) !! length h = Some p) by now apply list_lookup_middle.
  destruct (ClientContext.new fs ml (h ++ [p]) (length h)) as [res h'] eqn:E. cbn [fst snd].
  assert (Hframe : (forall r, (r < length h)%nat -> h' !! r = h !! r) /\
                   length h' = S (length h)).
  { destruct (ClientContext_new_outcomes fs ml (h ++ [p]) (length h) p s Hr Ha)
      as [[e He] | [[e He] | [ctx He]]]; rewrite He in E; inversion E; subst; split.
    all: try (intros r Hlt; rewrite !list_lookup_insert_ne by lia; now apply lookup_app_l).
    all: rewrite !length_insert, length_app; cbn; lia. }
  destruct Hframe as [Hf1 Hf2].
  split; [exact Hf1|]. split; [exact Hf2|]. split.
  - intros ctx ->.
    destruct (ClientContext_new_success fs ml (h ++ [p]) h' (length h) p s ctx Hr Ha E)
      as (Hp & _ & Hdc & Hml).
    split; [exact Hp|]. rewrite Hml, Hdc.
    destruct (negb (prim_truthy (MlClientParameters.contentDb p))); repeat split.
  - intros Hca.
    pose proof (ClientContext_new_no_ca fs ml (h ++ [p]) (length h) p s Hr Ha) as Hno.
    rewrite E in Hno. cbn [fst] in Hno. cbv zeta in Hno.
    eexists. split; [|split; [|split; [|split; [|split; [|apply Hno]]]]].
    6: { unfold p, ClientFactory.toMlClientParameters.
         cbn [MlClientParameters.new MlClientParameters.pathToCa].
         change (bag_get _ "pathToCa") with (ClientFactory.pathToCa f).
         unfold prim_or. rewrite Hca. reflexivity. }
    all: destruct (negb (prim_truthy (MlClientParameters.contentDb p))); reflexivity.
Qed.

Lemma factory_client_is_fresh_witness :
  (exists ctx,
      fst (ClientFactory.newClient decimalToNumber noFiles needsCredentials
                                   (Normal localFactory) [localParams])
      = Normal ctx /\
      ClientContext.params ctx = 1%nat /\
      dc_basePath (ClientContext.databaseClient ctx) = PString "" /\
      snd (ClientFactory.newClient decimalToNumber noFiles needsCredentials
                                   (Normal localFactory) [localParams])
        !! 0%nat = Some localParams) /\
  (exists o,
      dc_user o = PUndefined /\
      fst (ClientFactory.newClient decimalToNumber noFiles needsCredentials
                                   (Normal noUserFactory) [localParams])
      = match needsCredentials o with
        | Some e => Throw e
        | None => Normal (ClientContext.mk 1 None o)
        end).
Proof.
  split.
  - pose proof (factory_client_is_fresh decimalToNumber noFiles needsCredentials
                  localFactory [localParams]) as H.
    cbv zeta in H. destruct H as (Hframe & _ & Hctx & _).
    assert (Hres : exists ctx,
               fst (ClientFactory.newClient decimalToNumber noFiles needsCredentials
                                            (Normal localFactory) [localParams])
               = Normal ctx) by (vm_compute; eexists; reflexivity).
    destruct Hres as [ctx Hres]. exists ctx.
    destruct (Hctx ctx Hres) as (Hp & Hb & _).
    split; [exact Hres|]. split; [exact Hp|]. split; [exact Hb|].
    apply (Hframe 0%nat). cbn. lia.
  - pose proof (factory_client_is_fresh decimalToNumber noFiles needsCredentials
                  noUserFactory [localParams]) as H.
    cbv zeta in H. destruct H as (_ & _ & _ & Hok).
    destruct (Hok eq_refl) as (o & _ & _ & _ & Hu & _ & Hres).
    exists o. split; [exact Hu | exact Hres].
Defined.

(** What the example library does with the options of a client for the
    factory that names no user. *)
Example noUserFactory_is_refused :
  exists e,
    fst (ClientFactory.newClient decimalToNumber noFiles needsCredentials
                                 (Normal noUserFactory) [localParams])
    = Throw e.
Proof. vm_compute. eexists. reflexivity. Qed.

(** ** Further properties: a factory read from the editor's settings *)

(** X13.  Through the editor's settings the auth scheme is recognised in
    any letter case, while the constructor on its own is case sensitive:
    a setting whose upper-cased text is DIGEST or BASIC gives that scheme,
    and the same text given to the constructor directly gives DIGEST
    unless it is exactly BASIC. *)
Theorem workspace_authType_any_case (StringToNumber : string -> JsNumber)
        (cfg : string -> JsPrim) (overrides : Bag) (s : string) :
  cfg "marklogic.authType" = PString s ->
  overrides !! "authType" = None ->
  In (toUpperCase s) ["DIGEST"; "BASIC"] ->
  ClientFactory.authType (buildClientFactoryFromWorkspaceConfig StringToNumber cfg overrides)
  = PString (toUpperCase s) /\
  (s <> "BASIC" ->
   ClientFactory.authType (ClientFactory.new StringToNumber (<["authType" := PString s]> ∅))
   = PString "DIGEST").
Proof.
  intros Hcfg Hov Hup. split.
  - unfold buildClientFactoryFromWorkspaceConfig.
    cbn [ClientFactory.authType ClientFactory.new].
    rewrite spread_get, Hov, Hcfg.
    change (bag_get _ "authType") with (PString (toUpperCase (prim_toString (PString s)))).
    cbn [prim_toString]. rewrite normalize_authType_spec.
    destruct Hup as [<- | [<- | []]]; reflexivity.
  - intros Hne. cbn [ClientFactory.authType ClientFactory.new].
    rewrite bag_get_insert_eq, normalize_authType_spec.
    unfold recognised. cbn [existsb strict_eq].
    destruct (String.eqb s "BASIC") eqn:E1.
    + apply String.eqb_eq in E1. contradiction.
    + destruct (String.eqb s "DIGEST") eqn:E2; [|reflexivity].
      apply String.eqb_eq in E2. subst s. reflexivity.
Qed.

Lemma workspace_authType_any_case_witness :
  ClientFactory.authType (buildClientFactoryFromWorkspaceConfig decimalToNumber localSettings ∅)
  = PString "BASIC" /\
  ClientFactory.authType
    (ClientFactory.new decimalToNumber (<["authType" := PString "basic"]> ∅))
  = PString "DIGEST".
Proof.
  destruct (workspace_authType_any_case decimalToNumber localSettings ∅ "basic"
              eq_refl (lookup_empty "authType")) as [H1 H2].
  { right. left. reflexivity. }
  split; [exact H1 | apply H2; discriminate].
Defined.

(** X14.  A factory read from the editor's settings with no overrides has
    text in every text field, set or not: host, user and password are the
    printed settings, so that a setting that is not set gives the text
    [undefined], also as the name of the content database.  The REST base
    path of the settings does not reach the factory: its base path is
    empty. *)
Theorem workspace_settings_as_text (StringToNumber : string -> JsNumber)
        (cfg : string -> JsPrim) :
  let f := buildClientFactoryFromWorkspaceConfig StringToNumber cfg ∅ in
  ClientFactory.host f = PString (prim_toString (cfg "marklogic.host")) /\
  ClientFactory.user f = PString (prim_toString (cfg "marklogic.username")) /\
  ClientFactory.password f = PString (prim_toString (cfg "marklogic.password")) /\
  ClientFactory.basePath f = PString "" /\
  ClientFactory.restBasePath f = PUndefined /\
  ClientFactory.port f = MlClientParameters.Number StringToNumber (cfg "marklogic.port") /\
  (cfg "marklogic.host" = PUndefined -> ClientFactory.host f = PString "undefined") /\
  (cfg "marklogic.documentsDb" = PUndefined -> ClientFactory.database f = PString "undefined").
Proof.
  cbv zeta. unfold buildClientFactoryFromWorkspaceConfig.
  cbn [ClientFactory.new ClientFactory.host ClientFactory.user ClientFactory.password
       ClientFactory.basePath ClientFactory.restBasePath ClientFactory.port
       ClientFactory.database].
  rewrite !spread_get, !lookup_empty.
  repeat split.
  - intros H.
    change (bag_get _ "host") with (PString (prim_toString (cfg "marklogic.host"))).
    rewrite H. reflexivity.
  - intros H.
    change (bag_get _ "contentDb") with (PString (prim_toString (cfg "marklogic.documentsDb"))).
    rewrite H. reflexivity.
Qed.

Lemma workspace_settings_as_text_witness :
  ClientFactory.host (buildClientFactoryFromWorkspaceConfig decimalToNumber noSettings ∅)
  = PString "undefined" /\
  ClientFactory.database (buildClientFactoryFromWorkspaceConfig decimalToNumber noSettings ∅)
  = PString "undefined".
Proof.
  pose proof (workspace_settings_as_text decimalToNumber noSettings) as H. cbv zeta in H.
  destruct H as (_ & _ & _ & _ & _ & _ & H1 & H2).
  split; [apply H1 | apply H2]; reflexivity.
Defined.

(** ** Further properties: server discovery *)

Lemma mapM_objects (p : MlClientParameters.t) (servers : list (list (string * JsValue))) :
  mapM (fun server =>
          bind (js_field server "name") (fun name =>
          bind (js_field server "id") (fun id =>
          bind (js_field server "port") (fun port =>
            Normal {| label := name;
                      description := id;
                      detail := toString name +:+ " on " +:+
                                prim_toString (MlClientParameters.host p) +:+ ":" +:+
                                toString (js_or port (JStr "(none)")) |}))))
       (map JObject servers)
  = Normal (map (choice_of p) servers).
Proof.
  induction servers as [|fields rest IH]; [reflexivity|].
  cbn [map mapM js_field bind]. rewrite IH. reflexivity.
Qed.

(** X15.  [buildAppServerChoicesFromServerList] reads the servers from the
    [value] of the first row of the answer.  An answer with no row makes it
    throw.  A first row whose value is missing or empty gives no choice.  A
    value that is an array of server objects gives one choice per server,
    in the same order, labelled with the server's name and described by
    its id, and a value that is a single server object gives that one
    choice. *)
Theorem buildAppServerChoices_rows (p : MlClientParameters.t) :
  (exists e, buildAppServerChoicesFromServerList p (JArray []) = Throw e) /\
  (forall row rest,
      truthy (assoc "value" row) = false ->
      buildAppServerChoicesFromServerList p (JArray (JObject row :: rest)) = Normal []) /\
  (forall row rest servers,
      assoc "value" row = JArray (map JObject servers) ->
      buildAppServerChoicesFromServerList p (JArray (JObject row :: rest))
      = Normal (map (choice_of p) servers)) /\
  (forall row rest server,
      assoc "value" row = JObject server ->
      buildAppServerChoicesFromServerList p (JArray (JObject row :: rest))
      = Normal [choice_of p server]).
Proof.
  unfold buildAppServerChoicesFromServerList.
  split; [eexists; reflexivity|]. split; [|split].
  - intros row rest H. cbn [js_index nth bind js_field]. unfold js_or. rewrite H. reflexivity.
  - intros row rest servers H. cbn [js_index nth bind js_field]. unfold js_or.
    rewrite H. cbn [truthy concat_into_empty]. apply mapM_objects.
  - intros row rest server H. cbn [js_index nth bind js_field]. unfold js_or.
    rewrite H. reflexivity.
Qed.

Lemma buildAppServerChoices_rows_witness :
  buildAppServerChoicesFromServerList localParams
    (JArray [JObject [("value", JArray (map JObject twoServers))]])
  = Normal [mkItem (JStr "App-A") (JStr "101") "App-A on localhost:8010";
            mkItem (JStr "App-B") (JStr "102") "App-B on localhost:(none)"] /\
  buildAppServerChoicesFromServerList localParams (JArray [JObject [("format", JStr "json")]])
  = Normal [].
Proof.
  split.
  - rewrite (proj1 (proj2 (proj2 (buildAppServerChoices_rows localParams)))
                   [("value", JArray (map JObject twoServers))] [] twoServers eq_refl).
    vm_compute. reflexivity.
  - apply (proj1 (proj2 (buildAppServerChoices_rows localParams))
                 [("format", JStr "json")] []). reflexivity.
Defined.








(** X18.  Partial-failure tolerance of [filterJsServerByConnectedStatus]
    for probe errors that carry a body with an error response: once a
    probe has been issued for every candidate, the enumeration is
    fulfilled, however many probes fail and in whatever order the answers
    arrive, and it returns, up to that order, exactly the candidates whose
    probe answered the required text. *)
Theorem filter_keeps_the_connected (StringToNumber : string -> JsNumber) (fs : FileSystem)
        (ml : Library) (srv : Server) (sched : Schedule) (clientFactory : ClientFactory.t)
        (choices : list MlxprsQuickPickItem) (requiredResponse : string) (w w1 : World)
        (issued : list (MlxprsQuickPickItem * Settled JsValue)) :
  issue_probes StringToNumber fs ml srv clientFactory choices w = (Normal issued, w1) ->
  (forall c e, In (c, Rejected e) issued -> has_errorResponse e) ->
  Permutation (sched (length (sent w)) (length issued)) (seq 0 (length issued)) ->
  map fst issued = choices /\
  exists l,
    fst (filterJsServerByConnectedStatus StringToNumber fs ml srv sched clientFactory
           choices requiredResponse w) = Fulfilled l /\
    Permutation l (flat_map (kept requiredResponse) issued).
Proof. apply filter_tolerates_failed_probes. Qed.

Lemma filter_keeps_the_connected_witness :
  exists l,
    fst (filterJsServerByConnectedStatus decimalToNumber noFiles needsCredentials
           (discoveryServer notFound) lastFirst localFactory [choiceA; choiceB] "true"
           emptyWorld) = Fulfilled l /\
    Permutation l [choiceA].
Proof.
  destruct (issue_probes decimalToNumber noFiles needsCredentials (discoveryServer notFound)
              localFactory [choiceA; choiceB] emptyWorld) as [res w1] eqn:E.
  assert (Hres : res = Normal [(choiceA, Fulfilled (JStr "true"));
                               (choiceB, Rejected notFound)]).
  { apply (f_equal fst) in E. cbn [fst] in E. rewrite <- E. vm_compute. reflexivity. }
  subst res.
  destruct (filter_keeps_the_connected decimalToNumber noFiles needsCredentials
              (discoveryServer notFound) lastFirst localFactory [choiceA; choiceB] "true"
              emptyWorld w1 _ E)
    as [_ [l [H1 H2]]].
  - intros c e [H | [H | []]]; inversion H.
    exists (JObject [("errorResponse", JObject [("status", JStr "Not Found")])]),
           (JObject [("status", JStr "Not Found")]).
    split; reflexivity.
  - cbn. apply perm_swap.
  - exists l. split; assumption.
Defined.

Lemma run_batch_nothing_issued {A R} (handle : R -> Batch A -> Batch A) (order : list nat)
      (b : Batch A) :
  run_batch handle [] order b = b.
Proof.
  unfold run_batch. induction order as [|i order IH]; cbn [fold_left]; [reflexivity|].
  rewrite lookup_nil. exact IH.
Qed.

(** X19.  [getFilteredListOfJsAppServers] first makes a REST client.  When
    that client can be built and the query that lists the servers is
    rejected, the call does not fail: it is fulfilled with no candidate,
    after that one query and without a single probe.  When the client
    cannot be built, because the CA file cannot be read or the client
    library refuses the options, the call is rejected with that error and
    nothing is sent. *)
Theorem list_failure_gives_no_candidates (StringToNumber : string -> JsNumber)
        (fs : FileSystem) (ml : Library) (srv : Server) (sched : Schedule)
        (clientFactory : ClientFactory.t) (requiredResponse : string) (w : World) :
  (forall dbClientContext h1 e,
      ClientFactory.newMarklogicRestClient StringToNumber fs ml clientFactory ∅ (store w)
      = (Normal dbClientContext, h1) ->
      (forall req, srv (length (sent w)) req = Rejected e) ->
      fst (getFilteredListOfJsAppServers StringToNumber fs ml srv sched clientFactory
             requiredResponse w) = Fulfilled [] /\
      exists query extVars,
        sent (snd (getFilteredListOfJsAppServers StringToNumber fs ml srv sched clientFactory
                     requiredResponse w))
        = sent w ++ [XqueryEval (ClientContext.databaseClient dbClientContext)
                                query extVars]) /\
  (forall e h1,
      ClientFactory.newMarklogicRestClient StringToNumber fs ml clientFactory ∅ (store w)
      = (Throw e, h1) ->
      fst (getFilteredListOfJsAppServers StringToNumber fs ml srv sched clientFactory
             requiredResponse w) = Rejected e /\
      sent (snd (getFilteredListOfJsAppServers StringToNumber fs ml srv sched clientFactory
                   requiredResponse w)) = sent w).
Proof.
  split.
  - intros ctx h1 e Hctx Hsrv. unfold getFilteredListOfJsAppServers.
    destruct (newClient_built StringToNumber fs ml _ (store w) h1 ctx Hctx (store w))
      as (c & q & Hc & Hparams & _).
    unfold ClientFactory.newMarklogicRestClient in *. rewrite Hctx in Hc.
    inversion Hc. subst c h1. clear Hc.
    rewrite Hctx, Hparams, list_lookup_middle by reflexivity.
    unfold getAppServerListForJs, sendXQuery. cbn [store with_store].
    rewrite Hparams, list_lookup_middle by reflexivity.
    unfold send. cbn [sent with_store]. rewrite Hsrv.
    unfold filterJsServerByConnectedStatus. cbn [issue_probes length].
    rewrite run_batch_nothing_issued. cbn.
    split; [reflexivity|]. eexists. eexists. reflexivity.
  - intros e h1 Hrefused. unfold getFilteredListOfJsAppServers.
    rewrite Hrefused. split; reflexivity.
Qed.

Lemma list_failure_gives_no_candidates_witness :
  (fst (getFilteredListOfJsAppServers decimalToNumber noFiles needsCredentials refusingServer
          inOrder localFactory "true" emptyWorld) = Fulfilled [] /\
   exists client query extVars,
     sent (snd (getFilteredListOfJsAppServers decimalToNumber noFiles needsCredentials
                  refusingServer inOrder localFactory "true" emptyWorld))
     = [XqueryEval client query extVars]) /\
  (exists e,
      fst (getFilteredListOfJsAppServers decimalToNumber noFiles needsCredentials
             refusingServer inOrder noUserFactory "true" emptyWorld) = Rejected e /\
      sent (snd (getFilteredListOfJsAppServers decimalToNumber noFiles needsCredentials
                   refusingServer inOrder noUserFactory "true" emptyWorld)) = []).
Proof.
  split.
  - destruct (ClientFactory.newMarklogicRestClient decimalToNumber noFiles needsCredentials
                localFactory ∅ (store emptyWorld)) as [res h1] eqn:E.
    assert (Hres : exists c, res = Normal c).
    { apply (f_equal fst) in E. cbn [fst] in E. rewrite <- E. vm_compute.
      eexists. reflexivity. }
    destruct Hres as (c & ->).
    destruct (proj1 (list_failure_gives_no_candidates decimalToNumber noFiles
                       needsCredentials refusingServer inOrder localFactory "true"
                       emptyWorld)
                    c h1 (JObject [("code", JStr "ECONNREFUSED")]) E)
      as (H1 & query & extVars & H2).
    + intros req. reflexivity.
    + split; [exact H1|]. eexists. eexists. eexists. exact H2.
  - destruct (ClientFactory.newMarklogicRestClient decimalToNumber noFiles needsCredentials
                noUserFactory ∅ (store emptyWorld)) as [res h1] eqn:E.
    assert (Hres : exists e, res = Throw e).
    { apply (f_equal fst) in E. cbn [fst] in E. rewrite <- E. vm_compute.
      eexists. reflexivity. }
    destruct Hres as (e & ->). exists e.
    exact (proj2 (list_failure_gives_no_candidates decimalToNumber noFiles
                    needsCredentials refusingServer inOrder noUserFactory "true"
                    emptyWorld) e h1 E).
Defined.

Lemma sendXQuery_delivered (srv : Server) (ctx : ClientContext.t) (q prefix : string)
      (w : World) :
  delivered (snd (sendXQuery srv ctx q prefix w)) = delivered w.
Proof. unfold sendXQuery. destruct (store w !! ClientContext.params ctx); reflexivity. Qed.

Lemma getAppServerListForJs_delivered (srv : Server) (ctx : ClientContext.t) (q : string)
      (w : World) :
  delivered (snd (getAppServerListForJs srv ctx q w)) = delivered w.
Proof.
  unfold getAppServerListForJs.
  pose proof (sendXQuery_delivered srv ctx q "xdmp" w) as H.
  destruct (sendXQuery srv ctx q "xdmp" w) as [[[appServers|e]|e] w1]; cbn [snd] in *;
    try exact H.
  destruct (store w1 !! ClientContext.params ctx); exact H.
Qed.

Lemma issue_probes_delivered (StringToNumber : string -> JsNumber) (fs : FileSystem) (ml : Library)
      (srv : Server) (clientFactory : ClientFactory.t) (choices : list MlxprsQuickPickItem) :
  forall w,
    delivered (snd (issue_probes StringToNumber fs ml srv clientFactory choices w)) = delivered w.
Proof.
  induction choices as [|choice rest IH]; intros w; cbn [issue_probes]; [reflexivity|].
  destruct (ClientFactory.newMarklogicManageClient _ _ _ _ _ _) as [[ctx|e] h1]; [|reflexivity].
  unfold send.
  match goal with
  | |- context [issue_probes _ _ _ _ _ rest ?w'] => pose proof (IH w') as H
  end.
  destruct (issue_probes _ _ _ _ _ rest _) as [[issued|e] w2]; exact H.
Qed.

Lemma filter_delivered (StringToNumber : string -> JsNumber) (fs : FileSystem) (ml : Library)
      (srv : Server) (sched : Schedule) (clientFactory : ClientFactory.t)
      (choices : list MlxprsQuickPickItem) (requiredResponse : string) (w : World) :
  delivered (snd (filterJsServerByConnectedStatus StringToNumber fs ml srv sched clientFactory
                    choices requiredResponse w)) = delivered w.
Proof.
  unfold filterJsServerByConnectedStatus.
  pose proof (issue_probes_delivered StringToNumber fs ml srv clientFactory choices w) as H.
  destruct (issue_probes _ _ _ _ _ choices w) as [[issued|e] w1]; exact H.
Qed.

Lemma getFiltered_delivered (StringToNumber : string -> JsNumber) (fs : FileSystem) (ml : Library)
      (srv : Server) (sched : Schedule) (clientFactory : ClientFactory.t)
      (requiredResponse : string) (w : World) :
  delivered (snd (getFilteredListOfJsAppServers StringToNumber fs ml srv sched clientFactory
                    requiredResponse w)) = delivered w.
Proof.
  unfold getFilteredListOfJsAppServers.
  destruct (ClientFactory.newMarklogicRestClient _ _ _ _ _ _) as [[ctx|e] h1]; [|reflexivity].
  destruct (h1 !! ClientContext.params ctx) as [p|]; [|reflexivity].
  pose proof (getAppServerListForJs_delivered srv ctx (buildListServersForConnectQuery p)
                (with_store w h1)) as H.
  destruct (getAppServerListForJs _ _ _ _) as [[all|e] w2]; cbn [snd] in *; [|exact H].
  rewrite filter_delivered. exact H.
Qed.

Lemma issue_name_lookups_delivered (srv : Server) (this : ClientContext.t)
      (items : list JsValue) :
  forall w, delivered (snd (issue_name_lookups srv this items w)) = delivered w.
Proof.
  induction items as [|item rest IH]; intros w; cbn [issue_name_lookups]; [reflexivity|].
  destruct (js_field item "value") as [v|e]; [|apply IH].
  match goal with
  | |- context [sendXQuery srv this ?q "xdmp" w] =>
      pose proof (sendXQuery_delivered srv this q "xdmp" w) as H;
      destruct (sendXQuery srv this q "xdmp" w) as [[answer|e] w1]
  end; cbn [snd] in H.
  - pose proof (IH w1) as H1.
    destruct (issue_name_lookups srv this rest w1) as [issued w2]. cbn [snd] in *.
    congruence.
  - rewrite IH. exact H.
Qed.

(** X20.  The update callback of [getConnectedServers] is called at most
    once, and only when one was supplied and every step before it went
    through.  When it is called, it is called with the list, and the
    enumeration settles by what the callback does: it is fulfilled with
    that very list when the callback returns, and rejected with the
    callback's error when it throws, the list having been handed over.
    When it is not called, either no callback was supplied or the
    enumeration is rejected. *)
Theorem getConnectedServers_delivery (StringToNumber : string -> JsNumber) (fs : FileSystem)
        (ml : Library) (srv : Server) (sched : Schedule) (this : ClientContext.t)
        (updateCallback : option (list string -> Completion unit))
        (managePort : JsNumber) (manageBasePath : JsPrim) (w : World) :
  let r := fst (getConnectedServers StringToNumber fs ml srv sched this updateCallback
                                    managePort manageBasePath w) in
  let w' := snd (getConnectedServers StringToNumber fs ml srv sched this updateCallback
                                     managePort manageBasePath w) in
  (delivered w' = delivered w /\
   (updateCallback = None \/ exists e, r = Rejected e)) \/
  (exists callback l,
      updateCallback = Some callback /\
      delivered w' = delivered w ++ [l] /\
      r = after_callback (callback l) l).
Proof.
  cbv zeta. unfold getConnectedServers.
  destruct (store w !! ClientContext.params this) as [p|]; [|left; cbn; eauto].
  match goal with
  | |- context [getFilteredListOfJsAppServers ?a ?b ?m ?c ?d ?cf ?r w] =>
      pose proof (getFiltered_delivered a b m c d cf r w) as H1;
      destruct (getFilteredListOfJsAppServers a b m c d cf r w) as [[connected|e] w1]
  end; cbn [snd] in H1; [|left; cbn; eauto].
  unfold send.
  destruct (srv (length (sent w1)) _) as [items|e]; [|left; cbn; eauto].
  destruct items as [prim|items|fields]; try solve [left; cbn; eauto].
  match goal with
  | |- context [issue_name_lookups srv this items ?w2] =>
      pose proof (issue_name_lookups_delivered srv this items w2) as H2;
      destruct (issue_name_lookups srv this items w2) as [issued w3]
  end; cbn [snd delivered with_sent] in H2.
  cbv beta iota. destruct (failure _).
  - left. cbn. split; [congruence | eauto].
  - destruct updateCallback as [callback|].
    + right. eexists. eexists. split; [reflexivity|].
      destruct (callback _) eqn:Ecb; cbn [fst snd delivered with_delivered];
        rewrite H2, H1; (split; [reflexivity|]); cbn [fst]; rewrite Ecb; reflexivity.
    + left. cbn. split; [congruence | auto].
Qed.

(** A callback that throws: the list is handed over and the enumeration is
    rejected all the same. *)
Example discovery_with_failing_callback :
  let '(r, w) := getConnectedServers decimalToNumber noFiles needsCredentials
                   (discoveryServer notFound) inOrder localContext (Some failingCallback)
                   (Num 8002) (PString "") localWorld in
  r = Rejected (Error "status bar is gone") /\
  delivered w = [["XQY:Alpha"; "JS:App-A"]].
Proof. vm_compute. repeat split. Qed.

(** ** Further properties: the runtimes *)

(** X21.  An [XqyRuntime] that was not initialised cannot reach the
    server: every operation throws before anything is sent, and leaves the
    runtime and every breakpoint as they were. *)
Theorem XqyRuntime_needs_initialize (srv : Server) (this : XqyRuntime.t) (w : World) :
  XqyRuntime._mlClient this = None ->
  Forall (fun operation => exists e, operation srv this w = (Throw e, w))
         [XqyRuntime.resume; XqyRuntime.stepOver; XqyRuntime.stepInto; XqyRuntime.stepOut;
          XqyRuntime.getStackTrace; XqyRuntime.wait; XqyRuntime.disable] /\
  (forall query, exists e,
      XqyRuntime.launchWithDebugEval srv this query w = (Throw e, this, w)) /\
  (exists e, XqyRuntime.terminate srv this w = (Throw e, this, w)) /\
  (forall location bp,
      breakpoints w !! location = Some bp ->
      (exists e, XqyRuntime.setBreakPoint srv this location w = (Throw e, w)) /\
      (exists e, XqyRuntime.removeBreakPoint srv this location w = (Throw e, w))).
Proof.
  intros Hc.
  assert (Hs : forall q prefix,
             XqyRuntime.sendXQuery' srv this q prefix w
             = (Throw (TypeError "Cannot read properties of undefined (reading 'params')"), w)).
  { intros q prefix. unfold XqyRuntime.sendXQuery'. rewrite Hc. reflexivity. }
  split; [|split; [|split]].
  - repeat (constructor; [eexists; apply Hs|]). constructor.
  - intros query. unfold XqyRuntime.launchWithDebugEval. rewrite Hs. eexists. reflexivity.
  - unfold XqyRuntime.terminate. rewrite Hs. eexists. reflexivity.
  - intros location bp Hbp.
    unfold XqyRuntime.setBreakPoint, XqyRuntime.removeBreakPoint, XqyRuntime.resolveThenAct,
      XqyRuntime.findBreakPointExpr.
    rewrite Hbp, !Hs.
    destruct (negb (truthy (bp_expr bp))); split; eexists; reflexivity.
Qed.

Lemma XqyRuntime_needs_initialize_witness :
  (exists e, XqyRuntime.wait rowServer XqyRuntime.new breakWorld = (Throw e, breakWorld)) /\
  (exists e, XqyRuntime.setBreakPoint rowServer XqyRuntime.new 0 breakWorld
             = (Throw e, breakWorld)).
Proof.
  destruct (XqyRuntime_needs_initialize rowServer XqyRuntime.new breakWorld eq_refl)
    as (Hops & _ & _ & Hbp).
  split.
  - do 5 (apply Forall_cons_1 in Hops; destruct Hops as [_ Hops]).
    apply Forall_cons_1 in Hops. destruct Hops as [H _]. exact H.
  - exact (proj1 (Hbp 0%nat freshBreakPoint eq_refl)).
Defined.

(** X22.  A launch that fails before a session exists leaves the runtime
    as it was.  [XqyRuntime]: when the dispatch is fulfilled with an answer
    that has no row, the promise is rejected and the runtime is neither
    ['launched'] nor ['error'], its state and session id unchanged.
    [MLRuntime]: when the script cannot be read, the launch throws, nothing
    is sent and the state is unchanged. *)
Theorem failed_launch_leaves_runtime (srv : Server) :
  (forall (this : XqyRuntime.t) (c : ClientContext.t) (query : string) (w w1 : World),
      XqyRuntime._mlClient this = Some c ->
      sendXQuery srv c query "dbg" w = (Normal (Fulfilled (JArray [])), w1) ->
      exists e, XqyRuntime.launchWithDebugEval srv this query w
                = (Normal (Rejected e), this, w1)) /\
  (forall (fs : FileSystem) (escape : string -> string) (this : MLRuntime.t)
          (scriptLocation message : string) (w : World),
      fs (PString scriptLocation) = FsError message ->
      MLRuntime.launchWithDebugEval srv fs escape this scriptLocation w
      = (Throw (Error message), this, w)).
Proof.
  split.
  - intros this c query w w1 Hc Hs.
    unfold XqyRuntime.launchWithDebugEval, XqyRuntime.sendXQuery'. rewrite Hc, Hs.
    eexists. reflexivity.
  - intros fs escape this loc m w Hfs. unfold MLRuntime.launchWithDebugEval.
    rewrite Hfs. reflexivity.
Qed.

Lemma failed_launch_leaves_runtime_witness :
  (exists e, XqyRuntime.launchWithDebugEval silentServer localXqy "1 + 1" localWorld
             = (Normal (Rejected e), localXqy,
                snd (sendXQuery silentServer localContext "1 + 1" "dbg" localWorld))) /\
  MLRuntime.launchWithDebugEval rowServer oneScript noEscape MLRuntime.new "/missing.sjs"
                                emptyWorld
  = (Throw (Error "ENOENT: no such file or directory"), MLRuntime.new, emptyWorld).
Proof.
  split.
  - apply (proj1 (failed_launch_leaves_runtime silentServer) localXqy localContext "1 + 1"
                 localWorld _ eq_refl). reflexivity.
  - apply (proj2 (failed_launch_leaves_runtime rowServer) oneScript noEscape MLRuntime.new
                 "/missing.sjs" "ENOENT: no such file or directory" emptyWorld). reflexivity.
Defined.

(** X23.  With an expression id already on the breakpoint, [setBreakPoint]
    and [removeBreakPoint] send no lookup: exactly one request goes out,
    [dbg:break] or [dbg:clear] with the session id and the cached id; the
    breakpoint is not written; and the promise is fulfilled whatever the
    server answers, a failure included. *)
Theorem resolved_breakpoint_acts_at_once (srv : Server) (this : XqyRuntime.t)
        (c : ClientContext.t) (p : MlClientParameters.t) (location : Ref)
        (bp : XqyBreakPoint) (w : World) :
  XqyRuntime._mlClient this = Some c ->
  store w !! ClientContext.params c = Some p ->
  breakpoints w !! location = Some bp ->
  truthy (bp_expr bp) = true ->
  (exists req,
      XqyRuntime.setBreakPoint srv this location w
      = (Normal (Fulfilled undefined), with_sent w (sent w ++ [req])) /\
      actualQuery_of req
      = "dbg:break(" +:+ toString (XqyRuntime.getRid this) +:+ ", " +:+
        toString (bp_expr bp) +:+ ")") /\
  (exists req,
      XqyRuntime.removeBreakPoint srv this location w
      = (Normal (Fulfilled undefined), with_sent w (sent w ++ [req])) /\
      actualQuery_of req
      = "dbg:clear(" +:+ toString (XqyRuntime.getRid this) +:+ ", " +:+
        toString (bp_expr bp) +:+ ")").
Proof.
  intros Hc Hp Hbp Hex.
  unfold XqyRuntime.setBreakPoint, XqyRuntime.removeBreakPoint, XqyRuntime.resolveThenAct,
    XqyRuntime.sendXQuery', sendXQuery, send.
  rewrite Hbp, Hex, Hc, Hp. cbn [negb].
  split; eexists; (split; [reflexivity|]); reflexivity.
Qed.

Lemma resolved_breakpoint_acts_at_once_witness :
  exists req,
    XqyRuntime.setBreakPoint refusingServer sessionXqy 0 resolvedWorld
    = (Normal (Fulfilled undefined), with_sent resolvedWorld (sent resolvedWorld ++ [req])) /\
    actualQuery_of req = "dbg:break(42, 7)".
Proof.
  destruct (resolved_breakpoint_acts_at_once refusingServer sessionXqy localContext
              localParams 0 resolvedBreakPoint resolvedWorld
              eq_refl eq_refl eq_refl eq_refl) as [[req [H1 H2]] _].
  exists req. split; [exact H1|]. rewrite H2. vm_compute. reflexivity.
Defined.

(** X24.  Against a server that only ever answers with the empty string,
    [waitTillPaused] never settles: whatever the bound on the number of
    polls, that many polls are sent and there is no result. *)
Theorem waitTillPaused_never_settles_on_silence (srv : Server) (this : MLRuntime.t) :
  (forall k req, srv k req = Fulfilled (JStr "")) ->
  forall fuel w,
    MLRuntime.waitTillPaused srv fuel this w
    = (None, with_sent w (sent w ++ repeat (waitPoll this) fuel)).
Proof.
  intros Hsrv. induction fuel as [|fuel IH]; intros w.
  - cbn. rewrite app_nil_r. destruct w; reflexivity.
  - cbn [MLRuntime.waitTillPaused]. rewrite wait_sends_poll, Hsrv. cbn [is_string JStr].
    cbn. rewrite IH. unfold with_sent. cbn. rewrite <- app_assoc. reflexivity.
Qed.

Lemma waitTillPaused_never_settles_on_silence_witness :
  MLRuntime.waitTillPaused quietServer 5 MLRuntime.new emptyWorld
  = (None, with_sent emptyWorld (sent emptyWorld ++ repeat (waitPoll MLRuntime.new) 5)).
Proof.
  apply (waitTillPaused_never_settles_on_silence quietServer MLRuntime.new).
  intros k req. reflexivity.
Defined.

(** X26.  An [XqyRuntime] that has its client reaches the server with
    every operation: [resume], [stepOver], [stepInto], [stepOut],
    [getStackTrace], [wait] and [disable] each send exactly one request
    through the runtime's client, an evaluation whose query to run is the
    operation's [dbg:] call on the session id, and return the server's
    answer to it. *)
Theorem runtime_with_client_dispatches (srv : Server) (this : XqyRuntime.t)
        (c : ClientContext.t) (p : MlClientParameters.t) (w : World) :
  XqyRuntime._mlClient this = Some c ->
  store w !! ClientContext.params c = Some p ->
  let rid := toString (XqyRuntime.getRid this) in
  Forall (fun '(operation, call) =>
            exists query extVars,
              let req := XqueryEval (ClientContext.databaseClient c) query extVars in
              operation srv this w
              = (Normal (srv (length (sent w)) req), with_sent w (sent w ++ [req])) /\
              assoc "actualQuery" extVars = JStr call)
         [(XqyRuntime.resume, "dbg:continue(" +:+ rid +:+ ")");
          (XqyRuntime.stepOver, "dbg:next(" +:+ rid +:+ ")");
          (XqyRuntime.stepInto, "dbg:step(" +:+ rid +:+ ")");
          (XqyRuntime.stepOut, "dbg:out(" +:+ rid +:+ ")");
          (XqyRuntime.getStackTrace, "dbg:stack(" +:+ rid +:+ ")");
          (XqyRuntime.wait, "dbg:wait(" +:+ rid +:+ ", 5)");
          (XqyRuntime.disable, "dbg:value(" +:+ rid +:+ ")")].
Proof.
  intros Hc Hp rid.
  assert (Hs : forall q,
             exists query extVars,
               let req := XqueryEval (ClientContext.databaseClient c) query extVars in
               XqyRuntime.sendXQuery' srv this q "xdmp" w
               = (Normal (srv (length (sent w)) req), with_sent w (sent w ++ [req])) /\
               assoc "actualQuery" extVars = JStr q).
  { intros q. unfold XqyRuntime.sendXQuery', sendXQuery, send. rewrite Hc, Hp.
    eexists. eexists. split; reflexivity. }
  repeat (constructor; [apply Hs|]). constructor.
Qed.

Lemma runtime_with_client_dispatches_witness :
  exists query extVars,
    XqyRuntime.wait refusingServer sessionXqy localWorld
    = (Normal (Rejected (JObject [("code", JStr "ECONNREFUSED")])),
       with_sent localWorld
         [XqueryEval (ClientContext.databaseClient localContext) query extVars]) /\
    assoc "actualQuery" extVars = JStr "dbg:wait(42, 5)".
Proof.
  pose proof (runtime_with_client_dispatches refusingServer sessionXqy localContext
                localParams localWorld eq_refl eq_refl) as H.
  cbv zeta in H.
  do 5 (apply Forall_cons_1 in H; destruct H as [_ H]).
  apply Forall_cons_1 in H. destruct H as [(query & extVars & H1 & H2) _].
  exists query, extVars. split; [exact H1 | exact H2].
Defined.
